(** * pdf_agent: conversion jobs, sessions and notifications

    A shallow embedding of [pdf_agent.py] (class [PDFAgent]) and of
    [app.py] (the Flask / Socket.IO front end), followed by the properties
    of the job pipeline.

    Conventions of the embedding.
    - Python strings are [string], the UTF-8 bytes of the text; a Python
      [dict] used as a keyed store ([sessions]) is a [gmap]; Python lists
      are lists.
    - Values that arrive in a request body are JSON values ([json]); the
      truth test of Python ([if x:], [not x], [all]) is [truthy].
    - The configuration document has the sections [email], [pandoc] and
      [output]: [load_config] fills in a section that is missing, not a key
      inside a section. The keys of the [email] section are read with
      [e['k']] and may be absent ([None]: the read raises [KeyError]); the
      [pandoc] section is read with [cfg.get('k', d)]; the output directory
      is taken as present (without it no conversion succeeds).
    - Code that raises and catches ([try] / [except Exception]) runs in the
      state-and-exception monad [M]; what a function did before it raised
      stays done.
    - Everything outside the process (the file system, the converter
      program, the SMTP server, the clock) is read from an [Env] record.
      [socketio.emit] is the fire-and-forget publish: it appends to the
      event log of the state.
    - A background job is a thread. In the transition system of the server
      a job runs from its start to its end in one step; the one passage
      where the statements of two jobs can interleave with a lasting
      effect, the recipient override of [process_file], is modelled
      statement by statement in [Override]. *)

From Stdlib Require Import ZArith Ascii String List Bool Lia.
From stdpp Require Import base option list strings gmap fin_maps.

Set Warnings "-register-all".

Local Open Scope string_scope.
Local Open Scope Z_scope.
Local Open Scope nat_scope.
Local Open Scope list_scope.

(** ** Strings and paths (os.path, pathlib.PurePosixPath) *)

Module PathLib.

Definition startswith (s p : string) : bool := String.prefix p s.

Fixpoint endswith_slash (s : string) : bool :=
  match s with
  | EmptyString => false
  | String a EmptyString => Ascii.eqb a "/"
  | String _ s' => endswith_slash s'
  end.

(** [s.split(c)] *)
Fixpoint split (c : ascii) (s : string) : list string :=
  match s with
  | EmptyString => [EmptyString]
  | String a s' =>
      if Ascii.eqb a c then EmptyString :: split c s'
      else match split c s' with
           | [] => [String a EmptyString]
           | w :: ws => String a w :: ws
           end
  end.

(** [s.rfind(c)], [None] for -1 *)
Fixpoint rfind (c : ascii) (s : string) : option nat :=
  match s with
  | EmptyString => None
  | String a s' =>
      match rfind c s' with
      | Some i => Some (S i)
      | None => if Ascii.eqb a c then Some 0 else None
      end
  end.

(** [os.path.join(a, b)] on POSIX *)
Definition os_path_join (a b : string) : string :=
  if startswith b "/" then b
  else if String.eqb a "" || endswith_slash a then a +:+ b
  else a +:+ "/" +:+ b.

(** A parsed pure path: root and the remaining components. *)
Record path := MkPath { root : string; tail : list string }.

Definition path_root (s : string) : string :=
  match s with
  | String "/" (String "/" (String "/" _)) => "/"
  | String "/" (String "/" _) => "//"
  | String "/" _ => "/"
  | _ => ""
  end.

Definition component (x : string) : bool :=
  negb (String.eqb x "") && negb (String.eqb x ".").

(** [Path(s)] *)
Definition Path (s : string) : path :=
  {| root := path_root s; tail := List.filter component (split "/" s) |}.

(** [str(p)] *)
Definition str (p : path) : string :=
  match root p, tail p with
  | EmptyString, [] => "."
  | r, t => r +:+ String.concat "/" t
  end.

(** [p / s] *)
Definition div (p : path) (s : string) : path :=
  Path (os_path_join (str p) s).

(** [p.name] *)
Definition name (p : path) : string := List.last (tail p) "".

(** [p.stem]: the name without its last suffix *)
Definition stem (p : path) : string :=
  let n := name p in
  match rfind "." n with
  | Some i =>
      if (0 <? i) && (i <? String.length n - 1) then String.substring 0 i n
      else n
  | None => n
  end.

(** [p.suffix] *)
Definition suffix (p : path) : string :=
  let n := name p in
  match rfind "." n with
  | Some i =>
      if (0 <? i) && (i <? String.length n - 1)
      then String.substring i (String.length n - i) n
      else ""
  | None => ""
  end.

(** [os.path.normpath] restricted to what decides containment: the
    components that remain after [.] and [..] are resolved. *)
Fixpoint resolve_parts (absolute : bool) (stack todo : list string)
  : list string :=
  match todo with
  | [] => List.rev stack
  | c :: todo' =>
      if String.eqb c ".." then
        match stack with
        | [] => if absolute then resolve_parts absolute [] todo'
                else resolve_parts absolute [".."] todo'
        | top :: rest =>
            if String.eqb top ".." then resolve_parts absolute (c :: stack) todo'
            else resolve_parts absolute rest todo'
        end
      else resolve_parts absolute (c :: stack) todo'
  end.

Definition normpath (s : string) : path :=
  let p := Path s in
  {| root := root p;
     tail := resolve_parts (negb (String.eqb (root p) "")) [] (tail p) |}.

(** The file named [s] lies strictly below the relative directory [d]. *)
Definition inside_dir (d s : string) : bool :=
  let p := normpath s in
  let q := normpath d in
  String.eqb (root p) (root q)
  && (List.length (tail q) <? List.length (tail p))
  && bool_decide (List.firstn (List.length (tail q)) (tail p) = tail q).

End PathLib.

(** ** Values, configuration and records *)

(** A value decoded from a JSON request body. *)
Inductive json :=
| JNull
| JBool (b : bool)
| JNum (n : Z)
| JStr (s : string)
| JArr (l : list json)
| JObj (l : list (string * json)).

(** Python's truth test. *)
Definition truthy (v : json) : bool :=
  match v with
  | JNull => false
  | JBool b => b
  | JNum n => negb (n =? 0)%Z
  | JStr s => negb (String.eqb s "")
  | JArr l => negb (bool_decide (l = []))
  | JObj l => negb (bool_decide (l = []))
  end.

Definition truthy_str (s : string) : bool := negb (String.eqb s "").

Fixpoint assoc (k : string) (l : list (string * json)) : option json :=
  match l with
  | [] => None
  | (k', v) :: l' => if String.eqb k k' then Some v else assoc k l'
  end.

(** Exceptions (all of them subclasses of [Exception]). *)
Inductive exn :=
| AttributeError (msg : string)
| KeyError (key : string)
| OSError (msg : string)
| SMTPException (msg : string)
| RequestEntityTooLarge.

(** [str(e)] *)
Definition exn_str (e : exn) : string :=
  match e with
  | AttributeError m | OSError m | SMTPException m => m
  | KeyError k => "'" +:+ k +:+ "'"
  | RequestEntityTooLarge =>
      "413 Request Entity Too Large: The data value transmitted exceeds the capacity limit."
  end.

Definition type_name (v : json) : string :=
  match v with
  | JNull => "NoneType"
  | JBool _ => "bool"
  | JNum _ => "int"
  | JStr _ => "str"
  | JArr _ => "list"
  | JObj _ => "dict"
  end.

(** [config['email']], as the configuration file has it: a key that the
    file leaves out of the section is absent ([None]). *)
Record EmailConfig := {
  smtp_server : option string;
  smtp_port : option Z;
  username : option string;
  password : option string;
  from_email : option string;
  to_email : option json
}.

(** [config['pandoc']], every key read with [.get] *)
Record PandocConfig := {
  engine : option string;
  template : option string;
  options : option (list string)
}.

Record Config := {
  email : EmailConfig;
  pandoc : PandocConfig;
  output_directory : string
}.

Definition default_config : Config :=
  {| email := {| smtp_server := Some "smtp.gmail.com"; smtp_port := Some 587%Z;
                 username := Some ""; password := Some "";
                 from_email := Some ""; to_email := Some (JStr "") |};
     pandoc := {| engine := Some "xelatex";
                  template := Some "ieee_template_proper.tex";
                  options := Some ["--standalone"; "--toc"; "--number-sections"] |};
     output_directory := "output" |}.

(** [config['email']['to_email'] = v] *)
Definition set_to_email (v : json) (c : Config) : Config :=
  {| email := {| smtp_server := smtp_server (email c);
                 smtp_port := smtp_port (email c);
                 username := username (email c);
                 password := password (email c);
                 from_email := from_email (email c);
                 to_email := Some v |};
     pandoc := pandoc c;
     output_directory := output_directory c |}.

Inductive Status := uploaded | processing | completed | failed.

#[global] Instance Status_eq_dec : EqDecision Status.
Proof. solve_decision. Defined.

(** One entry of [session['files']]. The keys [pdf_path], [completed_at]
    and [error] are absent until a job writes them; [pdf_path] may be
    written as [None]. *)
Record FileRecord := {
  filename : string;
  original_name : string;
  filepath : string;
  uploaded_at : string;
  status : Status;
  pdf_path : option (option string);
  completed_at : option string;
  error : option string
}.

Record Session := {
  id : string;
  created_at : string;
  files : list FileRecord;
  sess_status : string;
  dismissed_updates : list string
}.

(** The payload of a [conversion_status] event. *)
Record StatusEvent := {
  ev_session_id : string;
  ev_filename : string;
  ev_status : Status;
  ev_message : string;
  ev_pdf_path : option (option string)
}.

(** A file record is a shared Python object: the session list and the
    running job hold the same dict. A reference to it is the session id
    and the position in that session's list (lists only grow). *)
Definition FileRef : Type := string * nat.

(** A started background thread: [args=(session_id, file_info, options)]. *)
Record Job := {
  job_session_id : string;
  job_file : FileRef;
  job_options : json
}.

Inductive Level := INFO | WARNING | ERROR.

(** A call of [PDFAgent.send_email]; the recipient is the [to_email] of
    the configuration at the time of the call ([None]: the key is absent). *)
Record Dispatch := {
  d_attachment : string;
  d_subject : string;
  d_recipient : option json
}.

(** ** The process state and the world outside *)

Record State := {
  sessions : gmap string Session;
  config : Config;                      (* agent.config *)
  events : list StatusEvent;            (* socketio.emit, oldest first *)
  threads : list Job;                   (* started, not yet run *)
  invocations : list (list string);     (* subprocess.run, oldest first *)
  dispatches : list Dispatch;           (* send_email calls, oldest first *)
  log : list (Level * string)           (* logger, oldest first *)
}.

Inductive RunOutcome :=
| Exit (returncode : Z) (stderr : string)
| RunRaises (e : exn).

Record Env := {
  path_exists : string -> bool;         (* os.path.exists, Path.exists *)
  is_file : string -> bool;             (* what send_file can open *)
  cwd : string;                         (* Path.cwd() *)
  mkdir_ok : bool;                      (* out_dir.mkdir(...) *)
  subprocess_run : nat -> list string -> RunOutcome;
                                        (* n-th run of one conversion *)
  glob_pdf : string -> list (string * Z);
                                        (* Path(d).glob('*.pdf') with ctimes *)
  ctime_error : string -> option exn;   (* os.path.getctime(p) raises *)
  smtp_send : string -> EmailConfig -> option exn;
                                        (* attach and send; None = sent *)
  now : string;                         (* datetime.now().isoformat() *)
  timestamp : string;                   (* ...strftime("%Y%m%d_%H%M%S") *)
  uuid4 : string;
  secure_filename : string -> string;
  save_ok : bool                        (* file.save(filepath) *)
}.

Definition init_state (c : Config) : State :=
  {| sessions := ∅; config := c; events := []; threads := [];
     invocations := []; dispatches := []; log := [] |}.

(** ** State and exceptions *)

Inductive Result (A : Type) :=
| Ok (a : A)
| Raise (e : exn).
Arguments Ok {A} a.
Arguments Raise {A} e.

Definition M (A : Type) : Type := State -> Result A * State.

Definition ret {A} (a : A) : M A := fun s => (Ok a, s).

Definition bind {A B} (m : M A) (k : A -> M B) : M B :=
  fun s => match m s with
           | (Ok a, s') => k a s'
           | (Raise e, s') => (Raise e, s')
           end.

Definition raise {A} (e : exn) : M A := fun s => (Raise e, s).

(** [try: m  except Exception as e: h e] *)
Definition try_except {A} (m : M A) (h : exn -> M A) : M A :=
  fun s => match m s with
           | (Ok a, s') => (Ok a, s')
           | (Raise e, s') => h e s'
           end.

Definition get : M State := fun s => (Ok s, s).
Definition modify (f : State -> State) : M unit := fun s => (Ok tt, f s).

Declare Scope m_scope.
Delimit Scope m_scope with m.
Notation "x <- m ;; k" := (bind m (fun x => k))
  (at level 100, m at next level, right associativity) : m_scope.
Notation "m ;;; k" := (bind m (fun _ => k))
  (at level 100, right associativity) : m_scope.
Local Open Scope m_scope.

Definition set_sessions (f : gmap string Session -> gmap string Session) (s : State) : State :=
  {| sessions := f (sessions s); config := config s; events := events s;
     threads := threads s; invocations := invocations s;
     dispatches := dispatches s; log := log s |}.

Definition set_config (f : Config -> Config) (s : State) : State :=
  {| sessions := sessions s; config := f (config s); events := events s;
     threads := threads s; invocations := invocations s;
     dispatches := dispatches s; log := log s |}.

Definition set_events (f : list StatusEvent -> list StatusEvent) (s : State) : State :=
  {| sessions := sessions s; config := config s; events := f (events s);
     threads := threads s; invocations := invocations s;
     dispatches := dispatches s; log := log s |}.

Definition set_threads (f : list Job -> list Job) (s : State) : State :=
  {| sessions := sessions s; config := config s; events := events s;
     threads := f (threads s); invocations := invocations s;
     dispatches := dispatches s; log := log s |}.

Definition set_invocations (f : list (list string) -> list (list string)) (s : State) : State :=
  {| sessions := sessions s; config := config s; events := events s;
     threads := threads s; invocations := f (invocations s);
     dispatches := dispatches s; log := log s |}.

Definition set_dispatches (f : list Dispatch -> list Dispatch) (s : State) : State :=
  {| sessions := sessions s; config := config s; events := events s;
     threads := threads s; invocations := invocations s;
     dispatches := f (dispatches s); log := log s |}.

Definition set_log (f : list (Level * string) -> list (Level * string)) (s : State) : State :=
  {| sessions := sessions s; config := config s; events := events s;
     threads := threads s; invocations := invocations s;
     dispatches := dispatches s; log := f (log s) |}.

(** [logger.info / warning / error] *)
Definition logger (l : Level) (msg : string) : M unit :=
  modify (set_log (fun lg => lg ++ [(l, msg)])).

(** [socketio.emit('conversion_status', ev)] *)
Definition emit (ev : StatusEvent) : M unit :=
  modify (set_events (fun evs => evs ++ [ev])).

(** Rendering of a value inside an f-string (containers abbreviated). *)
Definition py_str (v : json) : string :=
  match v with
  | JNull => "None"
  | JBool true => "True"
  | JBool false => "False"
  | JNum _ => "<int>"
  | JStr s => s
  | JArr _ => "[...]"
  | JObj _ => "{...}"
  end.

(** ** pdf_agent.py: class PDFAgent *)

Module PDFAgent.
Section WithEnv.

Variable env : Env.

(** [[e['username'], e['password'], e['to_email']]]: building the list
    raises [KeyError] for the first of the three keys that is missing. *)
Definition missing_key (e : EmailConfig) : option string :=
  match username e, password e, to_email e with
  | None, _, _ => Some "username"
  | _, None, _ => Some "password"
  | _, _, None => Some "to_email"
  | _, _, _ => None
  end.

(** [all([e['username'], e['password'], e['to_email']])]; with a key
    missing there is no list and no answer, [false] here. *)
Definition all_credentials (e : EmailConfig) : bool :=
  match username e, password e, to_email e with
  | Some u, Some p, Some t => truthy_str u && truthy_str p && truthy t
  | _, _, _ => false
  end.

(** [send_email(self, attachment_path, subject)]. Building the message,
    opening the attachment and the SMTP dialogue are one step of the
    world: [smtp_send] either completes or raises (a key of the section
    that is read there and is missing is among what raises). *)
Definition send_email (attachment_path subject : string) : M bool :=
  s0 <- get;;
  modify (set_dispatches (fun d => d ++
    [{| d_attachment := attachment_path; d_subject := subject;
        d_recipient := to_email (email (config s0)) |}]));;;
  try_except
    (s <- get;;
     let e := email (config s) in
     match missing_key e with
     | Some k => raise (KeyError k)
     | None =>
         if negb (all_credentials e)
         then
           logger WARNING "Incomplete email configuration.";;;
           ret false
         else
           match smtp_send env attachment_path e with
           | Some ex => raise ex
           | None =>
               logger INFO ("Emailed " +:+ attachment_path +:+ " to "
                            +:+ py_str (default JNull (to_email e)));;;
               ret true
           end
     end)
    (fun ex =>
       logger ERROR ("Email failed: " +:+ exn_str ex);;;
       ret false).

(** The log record one call of [send_email] leaves. *)
Definition send_email_log (attachment_path : string) (e : EmailConfig)
    : Level * string :=
  match missing_key e with
  | Some k => (ERROR, "Email failed: " +:+ exn_str (KeyError k))
  | None =>
      if negb (all_credentials e) then (WARNING, "Incomplete email configuration.")
      else match smtp_send env attachment_path e with
           | Some ex => (ERROR, "Email failed: " +:+ exn_str ex)
           | None => (INFO, "Emailed " +:+ attachment_path +:+ " to "
                            +:+ py_str (default JNull (to_email e)))
           end
  end.

Definition ieee_options : list string :=
  ["--standalone"; "--number-sections"; "--columns"; "72";
   "-V"; "geometry:margin=1in"; "-V"; "fontsize=10pt";
   "-V"; "documentclass=IEEEtran"; "-V"; "classoption=10pt,conference";
   "--top-level-division=section"].

(** The [--template] arguments: added only when the file is found. *)
Definition template_args (c : Config) : list string :=
  let default_branch :=
    let default_template := PathLib.Path "ieee_template_proper.tex" in
    if path_exists env (PathLib.str default_template)
    then ["--template"; PathLib.str default_template] else [] in
  match template (pandoc c) with
  | Some t =>
      if truthy_str t then
        let template_path := PathLib.Path t in
        if path_exists env (PathLib.str template_path)
        then ["--template"; PathLib.str template_path]
        else
          let local_template := PathLib.div (PathLib.Path (cwd env)) t in
          if path_exists env (PathLib.str local_template)
          then ["--template"; PathLib.str local_template] else []
      else default_branch
  | None => default_branch
  end.

(** The command line, in the order the source extends [cmd]. *)
Definition build_cmd (c : Config) (input_path : PathLib.path)
    (output_file : string) : list string :=
  ["pandoc"; PathLib.str input_path; "-o"; output_file]
  ++ ["--pdf-engine"; default "xelatex" (engine (pandoc c))]
  ++ template_args c
  ++ ieee_options
  ++ default [] (options (pandoc c)).

(** [cmd_without_template = [arg for arg in cmd
                             if not arg.startswith("--template")]] *)
Definition cmd_without_template (cmd : list string) : list string :=
  List.filter (fun arg => negb (PathLib.startswith arg "--template")) cmd.

(** [subprocess.run(cmd, capture_output=True, text=True)], the [n]-th
    run of this conversion; yields [(returncode, stderr)]. *)
Definition run (n : nat) (cmd : list string) : M (Z * string) :=
  modify (set_invocations (fun l => l ++ [cmd]));;;
  match subprocess_run env n cmd with
  | Exit rc err => ret (rc, err)
  | RunRaises e => raise e
  end.

(** The default output file of an input file. *)
Definition default_output_file (c : Config) (input_path : PathLib.path) : string :=
  PathLib.str (PathLib.div (PathLib.Path (output_directory c))
                           (PathLib.stem input_path +:+ "_IEEE.pdf")).

(** [convert_to_ieee_format(self, input_file, output_file=None)]:
    the output file, or [""] when the conversion failed. *)
Definition convert_to_ieee_format (input_file : string)
    (output_file : option string) : M string :=
  try_except
    (s <- get;;
     let c := config s in
     let input_path := PathLib.Path input_file in
     output_file <-
       (if truthy_str (default "" output_file) then ret (default "" output_file)
        else
          (if mkdir_ok env then ret tt else raise (OSError "mkdir"));;;
          ret (default_output_file c input_path));;
     let cmd := build_cmd c input_path output_file in
     logger INFO ("Running pandoc command: " +:+ String.concat " " cmd);;;
     result <- run 0 cmd;;
     if (fst result =? 0)%Z then
       logger INFO ("Successfully converted " +:+ input_file
                    +:+ " to IEEE format PDF: " +:+ output_file);;;
       ret output_file
     else
       logger ERROR ("Pandoc conversion failed: " +:+ snd result);;;
       logger INFO "Trying conversion without template as fallback...";;;
       result_fallback <- run 1 (cmd_without_template cmd);;
       if (fst result_fallback =? 0)%Z then
         logger INFO ("Successfully converted " +:+ input_file
                      +:+ " to PDF (without template): " +:+ output_file);;;
         ret output_file
       else
         logger ERROR ("Fallback conversion also failed: "
                       +:+ snd result_fallback);;;
         ret "")
    (fun e =>
       logger ERROR ("Pandoc conversion error: " +:+ exn_str e);;;
       ret "").

(** [process_file(self, input_file, send_email=True, email_recipient=None)] *)
Definition process_file (input_file : string) (send_email_flag : json)
    (email_recipient : json) : M bool :=
  try_except
    (logger INFO ("Processing file for IEEE format: " +:+ input_file);;;
     pdf_path <- convert_to_ieee_format input_file None;;
     if negb (truthy_str pdf_path) then
       logger ERROR "Failed to convert file to IEEE format PDF.";;;
       ret false
     else
       (if truthy send_email_flag then
          if truthy email_recipient then
            s <- get;;
            match to_email (email (config s)) with
            | None => raise (KeyError "to_email")
            | Some original_recipient =>
                modify (set_config (set_to_email email_recipient));;;
                _ <- send_email pdf_path "Your IEEE Formatted PDF is Ready";;
                modify (set_config (set_to_email original_recipient))
            end
          else
            _ <- send_email pdf_path "Your IEEE Formatted PDF is Ready";;
            ret tt
        else ret tt);;;
       logger INFO "IEEE format file processing completed successfully.";;;
       ret true)
    (fun e =>
       logger ERROR ("File processing error: " +:+ exn_str e);;;
       ret false).

(** The converter produced the output: the primary run exits with 0, or
    it exits with another code and the fallback run exits with 0. *)
Definition converter_succeeds (c : Config) (input_file : string) : bool :=
  let input_path := PathLib.Path input_file in
  let cmd := build_cmd c input_path (default_output_file c input_path) in
  mkdir_ok env &&
  match subprocess_run env 0 cmd with
  | Exit rc _ =>
      (rc =? 0)%Z ||
      match subprocess_run env 1 (cmd_without_template cmd) with
      | Exit rc' _ => (rc' =? 0)%Z
      | RunRaises _ => false
      end
  | RunRaises _ => false
  end.

(** The specification's fallback command, "the same invocation minus the
    template flag": the command built as [build_cmd] builds it, without
    the template arguments. *)
Definition invocation_minus_template_flag (c : Config)
    (input_path : PathLib.path) (output_file : string) : list string :=
  ["pandoc"; PathLib.str input_path; "-o"; output_file]
  ++ ["--pdf-engine"; default "xelatex" (engine (pandoc c))]
  ++ ieee_options
  ++ default [] (options (pandoc c)).

End WithEnv.
End PDFAgent.

(** ** app.py: sessions, endpoints and the background job *)

Module App.

(** What an endpoint returns: a JSON body with a status code, or a file
    sent as an attachment. *)
Inductive Response :=
| RJson (code : nat) (body : list (string * json))
| RFile (path : string).

Definition error_response (code : nat) (msg : string) : Response :=
  RJson code [("error", JStr msg)].

Record UploadRequest := {
  up_too_large : bool;             (* the body exceeds MAX_CONTENT_LENGTH:
                                      reading request.files raises *)
  up_file : option string;         (* request.files['file'].filename *)
  up_session_id : option string    (* request.form.get('session_id') *)
}.

(** The JSON body of the convert request; identifiers are strings when
    present. *)
Record ConvertRequest := {
  c_session_id : option string;
  c_filename : option string;
  c_options : option json
}.

Record DismissRequest := {
  dm_session_id : option string;
  dm_update_id : option string
}.

Definition UPLOAD_FOLDER : string := "uploads".

Definition ALLOWED_EXTENSIONS : list string :=
  [".md"; ".markdown"; ".tex"; ".latex"].

Definition ascii_lower (a : ascii) : ascii :=
  let n := nat_of_ascii a in
  if (65 <=? n) && (n <=? 90) then ascii_of_nat (n + 32) else a.

(** [s.lower()], as far as it decides whether the result is one of the
    allowed extensions: the letters [A-Z] become [a-z]; U+212A KELVIN SIGN
    (the bytes 226 132 170) becomes [k], it is the one character outside
    ASCII whose lower case is an ASCII character; any other character
    outside ASCII is kept, its lower case is outside ASCII too. *)
Fixpoint lower (s : string) : string :=
  match s with
  | EmptyString => EmptyString
  | String a s' =>
      match s' with
      | String b (String c s'') =>
          if Ascii.eqb a "226" && Ascii.eqb b "132" && Ascii.eqb c "170"
          then String "k" (lower s'')
          else String (ascii_lower a) (lower s')
      | _ => String (ascii_lower a) (lower s')
      end
  end.

Definition allowed_file (filename : string) : bool :=
  bool_decide (lower (PathLib.suffix (PathLib.Path filename)) ∈ ALLOWED_EXTENSIONS).

(** Field updates of a file record ([file_info[k] = v]). *)
Definition set_status (st : Status) (f : FileRecord) : FileRecord :=
  {| filename := filename f; original_name := original_name f;
     filepath := filepath f; uploaded_at := uploaded_at f;
     status := st; pdf_path := pdf_path f;
     completed_at := completed_at f; error := error f |}.

Definition set_pdf_path (p : option string) (f : FileRecord) : FileRecord :=
  {| filename := filename f; original_name := original_name f;
     filepath := filepath f; uploaded_at := uploaded_at f;
     status := status f; pdf_path := Some p;
     completed_at := completed_at f; error := error f |}.

Definition set_completed_at (t : string) (f : FileRecord) : FileRecord :=
  {| filename := filename f; original_name := original_name f;
     filepath := filepath f; uploaded_at := uploaded_at f;
     status := status f; pdf_path := pdf_path f;
     completed_at := Some t; error := error f |}.

Definition set_error (e : string) (f : FileRecord) : FileRecord :=
  {| filename := filename f; original_name := original_name f;
     filepath := filepath f; uploaded_at := uploaded_at f;
     status := status f; pdf_path := pdf_path f;
     completed_at := completed_at f; error := Some e |}.

Definition set_files (g : list FileRecord -> list FileRecord) (x : Session) : Session :=
  {| id := id x; created_at := created_at x; files := g (files x);
     sess_status := sess_status x; dismissed_updates := dismissed_updates x |}.

Definition set_dismissed (g : list string -> list string) (x : Session) : Session :=
  {| id := id x; created_at := created_at x; files := files x;
     sess_status := sess_status x; dismissed_updates := g (dismissed_updates x) |}.

(** Reading and writing through a reference to a file record. A Python
    reference cannot dangle; here a position that does not exist reads
    as [None] and a write through it changes nothing. *)
Definition file_at (m : gmap string Session) (r : FileRef) : option FileRecord :=
  x ← m !! r.1; files x !! r.2.

Definition lookup_file (r : FileRef) (s : State) : option FileRecord :=
  file_at (sessions s) r.

Definition write_file (r : FileRef) (g : FileRecord -> FileRecord)
    (m : gmap string Session) : gmap string Session :=
  alter (set_files (alter g r.2)) r.1 m.

Definition empty_record : FileRecord :=
  {| filename := ""; original_name := ""; filepath := ""; uploaded_at := "";
     status := uploaded; pdf_path := None; completed_at := None;
     error := None |}.

Definition deref (r : FileRef) : M FileRecord :=
  fun s => (Ok (default empty_record (lookup_file r s)), s).

Definition update_file (r : FileRef) (g : FileRecord -> FileRecord) : M unit :=
  modify (set_sessions (write_file r g)).

(** [max(pdf_files, key=os.path.getctime)]: the first entry with the
    greatest creation time. *)
Definition later (best x : string * Z) : string * Z :=
  if (best.2 <? x.2)%Z then x else best.

Definition latest (pdf_files : list (string * Z)) : option string :=
  match pdf_files with
  | [] => None
  | x :: l => Some (fold_left later l x).1
  end.

(** [for file in session['files']: if file['filename'] == filename] *)
Fixpoint find_file (fname : string) (l : list FileRecord) : option nat :=
  match l with
  | [] => None
  | f :: l' => if String.eqb (filename f) fname then Some 0
               else S <$> find_file fname l'
  end.

(** [v.get(k, d)]: only a dict has the method. *)
Definition py_get (v : json) (k : string) (d : json) : M json :=
  match v with
  | JObj l => ret (default d (assoc k l))
  | _ => raise (AttributeError ("'" +:+ type_name v
                                +:+ "' object has no attribute 'get'"))
  end.

Section WithEnv.

Variable env : Env.

(** The exception of the first listed file whose creation time cannot be
    read (the file is gone since the listing, a link dangles). *)
Definition ctime_raises (pdf_files : list (string * Z)) : option exn :=
  head (omap (fun x => ctime_error env x.1) pdf_files).

(** [max(pdf_files, key=os.path.getctime) if pdf_files else None]:
    [getctime] is called for every listed file. *)
Definition latest_pdf_of (pdf_files : list (string * Z)) : M (option string) :=
  match ctime_raises pdf_files with
  | Some e => raise e
  | None => ret (latest pdf_files)
  end.

(** [get_session(session_id)]: get or create. *)
Definition get_session (session_id : string) : M Session :=
  s <- get;;
  match sessions s !! session_id with
  | Some x => ret x
  | None =>
      let x := {| id := session_id; created_at := now env; files := [];
                  sess_status := "active"; dismissed_updates := [] |} in
      modify (set_sessions (insert session_id x));;;
      ret x
  end.

(** [upload_file()] *)
Definition upload_file (req : UploadRequest) : M Response :=
  try_except
    ((if up_too_large req then raise RequestEntityTooLarge else ret tt);;;
     match up_file req with
     | None => ret (error_response 400 "No file provided")
     | Some fname =>
         let session_id := default (uuid4 env) (up_session_id req) in
         if String.eqb fname "" then
           ret (error_response 400 "No file selected")
         else if allowed_file fname then
           let filename := timestamp env +:+ "_" +:+ secure_filename env fname in
           let filepath := PathLib.os_path_join UPLOAD_FOLDER filename in
           (if save_ok env then ret tt else raise (OSError "save"));;;
           _ <- get_session session_id;;
           modify (set_sessions (alter (set_files (fun l => l ++
             [{| filename := filename; original_name := fname;
                 filepath := filepath; uploaded_at := now env;
                 status := uploaded; pdf_path := None;
                 completed_at := None; error := None |}])) session_id));;;
           ret (RJson 200 [("success", JBool true); ("filename", JStr filename);
                           ("session_id", JStr session_id);
                           ("message", JStr ("File " +:+ fname
                                             +:+ " uploaded successfully"))])
         else
           ret (error_response 400
             "Invalid file type. Only .md, .markdown, .tex, .latex files are allowed")
     end)
    (fun e =>
       logger ERROR ("Upload error: " +:+ exn_str e);;;
       ret (error_response 500 (exn_str e))).

(** [convert_file()]: [thread.start()] adds the job to [threads]. *)
Definition convert_file (req : ConvertRequest) : M Response :=
  try_except
    (let session_id := default "" (c_session_id req) in
     let fname := default "" (c_filename req) in
     let options := default (JObj []) (c_options req) in
     if negb (truthy_str session_id) || negb (truthy_str fname) then
       ret (error_response 400 "Session ID and filename required")
     else
       session <- get_session session_id;;
       match find_file fname (files session) with
       | None => ret (error_response 404 "File not found in session")
       | Some i =>
           let file_info : FileRef := (session_id, i) in
           update_file file_info (set_status processing);;;
           modify (set_threads (fun l => l ++
             [{| job_session_id := session_id; job_file := file_info;
                 job_options := options |}]));;;
           ret (RJson 200 [("success", JBool true);
                           ("message", JStr "Conversion started");
                           ("session_id", JStr session_id)])
       end)
    (fun e =>
       logger ERROR ("Conversion error: " +:+ exn_str e);;;
       ret (error_response 500 (exn_str e))).

Definition status_event (session_id : string) (f : FileRecord) (st : Status)
    (msg : string) (p : option (option string)) : StatusEvent :=
  {| ev_session_id := session_id; ev_filename := filename f;
     ev_status := st; ev_message := msg; ev_pdf_path := p |}.

(** The [try] block of [process_conversion]. *)
Definition process_conversion_body (session_id : string)
    (file_info : FileRef) (options : json) : M unit :=
  fi <- deref file_info;;
  emit (status_event session_id fi processing "Starting conversion..." None);;;
  send_email <- py_get options "send_email" (JBool true);;
  email_recipient <- py_get options "email_recipient" JNull;;
  success <- PDFAgent.process_file env (filepath fi) send_email email_recipient;;
  if success : bool then
    s <- get;;
    let output_dir := output_directory (config s) in
    let pdf_files := glob_pdf env output_dir in
    latest_pdf <- latest_pdf_of pdf_files;;
    update_file file_info (set_status completed);;;
    update_file file_info (set_pdf_path latest_pdf);;;
    update_file file_info (set_completed_at (now env));;;
    emit (status_event session_id fi completed
            "Conversion completed successfully!" (Some latest_pdf))
  else
    update_file file_info (set_status failed);;;
    update_file file_info (set_error "Conversion failed");;;
    emit (status_event session_id fi failed
            "Conversion failed. Check logs for details." None).

(** The [except Exception as e] block of [process_conversion]. *)
Definition process_conversion_handler (session_id : string)
    (file_info : FileRef) (e : exn) : M unit :=
  logger ERROR ("Background conversion error: " +:+ exn_str e);;;
  update_file file_info (set_status failed);;;
  update_file file_info (set_error (exn_str e));;;
  fi <- deref file_info;;
  emit (status_event session_id fi failed
          ("Conversion error: " +:+ exn_str e) None).

(** [process_conversion(session_id, file_info, options)] *)
Definition process_conversion (session_id : string) (file_info : FileRef)
    (options : json) : M unit :=
  try_except (process_conversion_body session_id file_info options)
             (process_conversion_handler session_id file_info).

(** [download_file(filename)]: [send_file] raises on what it cannot open. *)
Definition download_file (fname : string) : M Response :=
  try_except
    (let file_path := PathLib.os_path_join "output" fname in
     if path_exists env file_path then
       if is_file env file_path then ret (RFile file_path)
       else raise (OSError ("cannot send " +:+ file_path))
     else ret (error_response 404 "File not found"))
    (fun e =>
       logger ERROR ("Download error: " +:+ exn_str e);;;
       ret (error_response 500 (exn_str e))).

(** [dismiss_update()] *)
Definition dismiss_update (req : DismissRequest) : M Response :=
  try_except
    (let session_id := default "" (dm_session_id req) in
     let update_id := default "" (dm_update_id req) in
     if negb (truthy_str session_id) || negb (truthy_str update_id) then
       ret (error_response 400 "Session ID and update ID required")
     else
       session <- get_session session_id;;
       (if bool_decide (update_id ∈ dismissed_updates session) then ret tt
        else modify (set_sessions
               (alter (set_dismissed (fun l => l ++ [update_id])) session_id)));;;
       ret (RJson 200 [("success", JBool true)]))
    (fun e =>
       logger ERROR ("Update dismiss error: " +:+ exn_str e);;;
       ret (error_response 500 (exn_str e))).

(** [get_session_info(session_id)]: the session document is the reply;
    only its effect on the store matters here. *)
Definition get_session_info (session_id : string) : M Session :=
  get_session session_id.

End WithEnv.

(** *** The server as a transition system

    One step is one request served, or one started background thread
    run to its end. A job writes [status] once, as does a convert
    request, so running a job in one step loses no interleaving of the
    status writes. What it does lose is the interleaving of two jobs
    inside [process_file], where both write the shared configuration:
    see [Override]. *)
Inductive Op :=
| OpUpload (req : UploadRequest)
| OpConvert (req : ConvertRequest)
| OpRunThread (k : nat)
| OpDownload (fname : string)
| OpSessionInfo (session_id : string)
| OpDismiss (req : DismissRequest).

Definition remove_nth {A} (k : nat) (l : list A) : list A :=
  take k l ++ drop (S k) l.

Definition step (env : Env) (op : Op) (s : State) : State :=
  match op with
  | OpUpload req => (upload_file env req s).2
  | OpConvert req => (convert_file env req s).2
  | OpRunThread k =>
      match threads s !! k with
      | Some j =>
          (process_conversion env (job_session_id j) (job_file j)
             (job_options j) (set_threads (remove_nth k) s)).2
      | None => s
      end
  | OpDownload fname => (download_file env fname s).2
  | OpSessionInfo session_id => (get_session_info env session_id s).2
  | OpDismiss req => (dismiss_update env req s).2
  end.

(** The states a run passes through, given the requests and the world
    at each of them. *)
Fixpoint run_from (s : State) (l : list (Env * Op)) : list State :=
  match l with
  | [] => [s]
  | (env, op) :: l' => s :: run_from (step env op s) l'
  end.

(** The state a run ends in. *)
Fixpoint final (s : State) (l : list (Env * Op)) : State :=
  match l with
  | [] => s
  | (env, op) :: l' => final (step env op s) l'
  end.

End App.

(** ** Observing a run *)

Module Run.
Import App.

(** What one step does to the file records and the threads. *)
Inductive Label :=
| LQuiet                      (* no record and no thread changes *)
| LUpload (r : FileRef)       (* a record appears at [r], [uploaded] *)
| LConvert (r : FileRef)      (* [r] becomes [processing], a job starts *)
| LJob (k : nat).             (* the [k]-th started job runs to its end *)

#[global] Instance Label_eq_dec : EqDecision Label.
Proof. unfold FileRef. solve_decision. Defined.

Definition upload_accepts (env : Env) (req : UploadRequest) : bool :=
  negb (up_too_large req) &&
  match up_file req with
  | Some fname => negb (String.eqb fname "") && allowed_file fname && save_ok env
  | None => false
  end.

(** The record a convert request resolves to, if it is accepted. *)
Definition target (req : ConvertRequest) (s : State) : option FileRef :=
  let session_id := default "" (c_session_id req) in
  let fname := default "" (c_filename req) in
  if truthy_str session_id && truthy_str fname then
    x ← sessions s !! session_id;
    i ← find_file fname (files x);
    Some (session_id, i)
  else None.

Definition label (env : Env) (op : Op) (s : State) : Label :=
  match op with
  | OpUpload req =>
      if upload_accepts env req then
        let session_id := default (uuid4 env) (up_session_id req) in
        LUpload (session_id,
                 match sessions s !! session_id with
                 | Some x => length (files x)
                 | None => 0
                 end)
      else LQuiet
  | OpConvert req =>
      match target req s with
      | Some r => LConvert r
      | None => LQuiet
      end
  | OpRunThread k =>
      match threads s !! k with
      | Some _ => LJob k
      | None => LQuiet
      end
  | _ => LQuiet
  end.

(** The number of accepted convert requests for [r] along a run. *)
Fixpoint conversions (r : FileRef) (s : State) (l : list (Env * Op)) : nat :=
  match l with
  | [] => 0
  | (env, op) :: l' =>
      (if bool_decide (label env op s = LConvert r) then 1 else 0)
      + conversions r (step env op s) l'
  end.

(** The status of the record at [r] in each state where it exists. *)
Definition history (r : FileRef) (states : list State) : list Status :=
  omap (fun s => status <$> lookup_file r s) states.

Definition terminal (st : Status) : bool :=
  bool_decide (st = completed) || bool_decide (st = failed).

(** One observation to the next, as the specification has it: no change,
    [uploaded] to [processing], or [processing] to a terminal status. *)
Definition allowed (st st' : Status) : bool :=
  bool_decide (st = st')
  || (bool_decide (st = uploaded) && bool_decide (st' = processing))
  || (bool_decide (st = processing) && terminal st').

(** What the code guarantees for every record: [uploaded] is never
    re-entered and is left only for [processing]. *)
Definition weakly_allowed (st st' : Status) : bool :=
  (bool_decide (st = uploaded)
   && (bool_decide (st' = uploaded) || bool_decide (st' = processing)))
  || (negb (bool_decide (st = uploaded)) && negb (bool_decide (st' = uploaded))).

Fixpoint chain (ok : Status -> Status -> bool) (st : Status) (h : list Status) : bool :=
  match h with
  | [] => true
  | st' :: h' => ok st st' && chain ok st' h'
  end.

(** A history starts at [uploaded] and moves by [ok]. *)
Definition starts_uploaded (ok : Status -> Status -> bool) (h : list Status) : bool :=
  match h with
  | [] => true
  | st :: h' => bool_decide (st = uploaded) && chain ok st h'
  end.

Definition lifecycle : list Status -> bool := starts_uploaded allowed.
Definition weak_lifecycle : list Status -> bool := starts_uploaded weakly_allowed.

(** The started jobs that hold a reference to [r]. *)
Definition jobs_for (r : FileRef) (l : list Job) : nat :=
  length (List.filter (fun j => bool_decide (job_file j = r)) l).

(** [pdf_path] is set, that is present and not [None]. *)
Definition pdf_path_set (f : FileRecord) : bool :=
  match pdf_path f with
  | Some (Some _) => true
  | _ => false
  end.

End Run.

(** ** Effects and invariants used by the statements *)

(** The agent leaves the sessions, the threads, the published events and
    its configuration as they were. *)
Definition agent_frame (s s' : State) : Prop :=
  sessions s' = sessions s /\ threads s' = threads s /\ events s' = events s
  /\ config s' = config s.

(** [process_file] cannot put the recipient of the request in place: the
    configured [to_email], which it reads first to put it back later, is
    missing. *)
Definition override_raises (c : Config) (flag rcpt : json) : bool :=
  truthy flag && truthy rcpt && bool_decide (to_email (email c) = None).

(** The answer of [process_file]. *)
Definition file_processed (env : Env) (c : Config) (input : string)
    (flag rcpt : json) : bool :=
  PDFAgent.converter_succeeds env c input && negb (override_raises c flag rcpt).

(** The dispatcher call that [process_file] makes for an output file. *)
Definition requested_dispatch (a : string) (rcpt : json) (c : Config) : Dispatch :=
  {| d_attachment := a; d_subject := "Your IEEE Formatted PDF is Ready";
     d_recipient := if truthy rcpt then Some rcpt else to_email (email c) |}.

(** The email section in force during that call. *)
Definition dispatch_config (rcpt : json) (c : Config) : EmailConfig :=
  email (if truthy rcpt then set_to_email rcpt c else c).

(** What the [except] block of the job writes into the record. *)
Definition job_error (e : exn) : FileRecord -> FileRecord :=
  App.set_error (exn_str e) ∘ App.set_status failed.

(** What the job writes into the record when [process_file] has answered
    [ok]: after [True] the creation times of the listed PDFs are read,
    which may raise. *)
Definition job_outcome (env : Env) (c : Config) (ok : bool) : FileRecord -> FileRecord :=
  if ok then
    match App.ctime_raises env (glob_pdf env (output_directory c)) with
    | Some e => job_error e
    | None =>
        App.set_completed_at (now env)
        ∘ App.set_pdf_path (App.latest (glob_pdf env (output_directory c)))
        ∘ App.set_status completed
    end
  else App.set_error "Conversion failed" ∘ App.set_status failed.

(** The event that ends the job in that case. *)
Definition final_event (env : Env) (c : Config) (ok : bool)
    (session_id : string) (fi : FileRecord) : StatusEvent :=
  if ok then
    match App.ctime_raises env (glob_pdf env (output_directory c)) with
    | Some e =>
        App.status_event session_id fi failed
          ("Conversion error: " +:+ exn_str e) None
    | None =>
        App.status_event session_id fi completed
          "Conversion completed successfully!"
          (Some (App.latest (glob_pdf env (output_directory c))))
    end
  else
    App.status_event session_id fi failed
      "Conversion failed. Check logs for details." None.

(** The exception of [options.get] on a value that is not a dict. *)
Definition no_get (o : json) : exn :=
  AttributeError ("'" +:+ type_name o +:+ "' object has no attribute 'get'").

(** What a whole job writes into its record. *)
Definition job_effect (env : Env) (c : Config) (fi : FileRecord) (o : json)
    : FileRecord -> FileRecord :=
  match o with
  | JObj l =>
      job_outcome env c
        (file_processed env c (filepath fi)
           (default (JBool true) (assoc "send_email" l))
           (default JNull (assoc "email_recipient" l)))
  | _ => job_error (no_get o)
  end.

(** What a step labelled [lb] does to the records and the threads. *)
Definition effect (lb : Run.Label) (s s' : State) : Prop :=
  match lb with
  | Run.LQuiet =>
      threads s' = threads s
      /\ forall r, App.lookup_file r s' = App.lookup_file r s
  | Run.LUpload r0 =>
      threads s' = threads s
      /\ App.lookup_file r0 s = None
      /\ (exists f, App.lookup_file r0 s' = Some f /\ status f = uploaded)
      /\ forall r, r <> r0 -> App.lookup_file r s' = App.lookup_file r s
  | Run.LConvert r0 =>
      (exists j, threads s' = threads s ++ [j] /\ job_file j = r0)
      /\ is_Some (App.lookup_file r0 s)
      /\ forall r, App.lookup_file r s'
                   = if decide (r = r0)
                     then App.set_status processing <$> App.lookup_file r s
                     else App.lookup_file r s
  | Run.LJob k =>
      exists j G,
        threads s !! k = Some j
        /\ threads s' = App.remove_nth k (threads s)
        /\ (forall f, Run.terminal (status (G f)) = true)
        /\ forall r, App.lookup_file r s'
                     = if decide (r = job_file j)
                       then G <$> App.lookup_file r s
                       else App.lookup_file r s
  end.

(** Every started job holds a record that has left [uploaded]. *)
Definition jobs_started (s : State) : Prop :=
  forall j, j ∈ threads s ->
    exists f, App.lookup_file (job_file j) s = Some f /\ status f <> uploaded.

(** The situation of a record that is converted at most once in what is
    left of the run: not yet converted and no job holds it, or converted,
    and then either processing with its one job or finished with none. *)
Definition once (r : FileRef) (s : State) (l : list (Env * App.Op)) : Prop :=
  (Run.conversions r s l <= 1
   /\ Run.jobs_for r (threads s) = 0
   /\ forall f, App.lookup_file r s = Some f -> status f = uploaded)
  \/ (Run.conversions r s l = 0
      /\ exists f, App.lookup_file r s = Some f
         /\ ((status f = processing /\ Run.jobs_for r (threads s) = 1)
             \/ (Run.terminal (status f) = true /\ Run.jobs_for r (threads s) = 0))).

(** No session lists a dismissed update twice. *)
Definition dismissed_nodup (m : gmap string Session) : Prop :=
  forall k x, m !! k = Some x -> NoDup (dismissed_updates x).

(** The same dismiss request, sent once in each of the given worlds. *)
Definition dismissals (req : App.DismissRequest) (envs : list Env)
    : list (Env * App.Op) :=
  List.map (fun env => (env, App.OpDismiss req)) envs.

(** ** A concrete deployment

    The scenario of the specification: [draft.md] is uploaded to session
    [s1] and converted. The worlds differ in what the converter, the output
    directory and the file system answer. *)

Module Scenario.

Definition world (found : string -> bool) (runs : nat -> RunOutcome)
    (pdfs : list (string * Z)) (smtp : option exn) : Env :=
  {| path_exists := found;
     is_file := found;
     cwd := "/srv/pdf_agent";
     mkdir_ok := true;
     subprocess_run := fun n _ => runs n;
     glob_pdf := fun _ => pdfs;
     ctime_error := fun _ => None;
     smtp_send := fun _ _ => smtp;
     now := "2025-10-13T10:15:00";
     timestamp := "20251013_101500";
     uuid4 := "0b1f6c1e-8d0a-4c57-9f43-2a6d1c7e5b90";
     secure_filename := fun x => x;
     save_ok := true |}.

Definition template_found (p : string) : bool :=
  bool_decide (p = "ieee_template_proper.tex").

Definition draft : string := "20251013_101500_draft.md".
Definition draft_path : string := "uploads/20251013_101500_draft.md".
Definition draft_pdf : string := "output/20251013_101500_draft_IEEE.pdf".
Definition other_pdf : string := "output/20251013_101458_thesis_IEEE.pdf".

(** The converter exits with 0 at once. *)
Definition runs_ok (n : nat) : RunOutcome := Exit 0 "".

(** The primary run fails, the fallback run exits with 0. *)
Definition runs_fallback (n : nat) : RunOutcome :=
  match n with
  | 0 => Exit 43 "Error producing PDF."
  | _ => Exit 0 ""
  end.

(** Both runs fail. *)
Definition runs_fail (n : nat) : RunOutcome := Exit 43 "Error producing PDF.".

Definition env_ok : Env :=
  world template_found runs_ok [(draft_pdf, 1760350500%Z)] None.

Definition env_fallback : Env :=
  world template_found runs_fallback [(draft_pdf, 1760350500%Z)] None.

Definition env_fail : Env :=
  world template_found runs_fail [] None.

(** Another job's output is the newest PDF of the output directory. *)
Definition env_newer_pdf : Env :=
  world template_found runs_ok
    [(draft_pdf, 1760350500%Z); (other_pdf, 1760350507%Z)] None.

(** The output directory lists no PDF when the job looks. *)
Definition env_no_pdf : Env := world template_found runs_ok [] None.

(** The SMTP server refuses the message. *)
Definition env_smtp_down : Env :=
  world template_found runs_ok [(draft_pdf, 1760350500%Z)]
    (Some (SMTPException "Connection refused")).

(** The application file sits next to the output directory. *)
Definition env_app_dir : Env :=
  world (fun p => bool_decide (p = "output/../app.py")) runs_ok [] None.

Definition upload_draft : App.Op :=
  App.OpUpload {| App.up_too_large := false; App.up_file := Some "draft.md";
                  App.up_session_id := Some "s1" |}.

Definition convert_req (o : option json) : App.ConvertRequest :=
  {| App.c_session_id := Some "s1"; App.c_filename := Some draft;
     App.c_options := o |}.

Definition no_email : option json := Some (JObj [("send_email", JBool false)]).

Definition convert_draft : App.Op := App.OpConvert (convert_req no_email).

Definition draft_ref : FileRef := ("s1", 0).

Definition dismiss_req : App.DismissRequest :=
  {| App.dm_session_id := Some "s1"; App.dm_update_id := Some "v1.1.0" |}.

(** Upload, convert, let the job finish. *)
Definition run_once (env : Env) : list (Env * App.Op) :=
  [(env, upload_draft); (env, convert_draft); (env, App.OpRunThread 0)].

(** The same, then a second convert request for the finished record. *)
Definition run_twice (env : Env) : list (Env * App.Op) :=
  run_once env ++ [(env, convert_draft)].

(** The state in which the record of [draft.md] is being processed. *)
Definition processing_state (env : Env) : State :=
  App.final (init_state default_config) [(env, upload_draft); (env, convert_draft)].

(** The world [env] in which the file [p], listed by [glob], is gone when
    its creation time is asked for. *)
Definition vanishing (env : Env) (p : string) : Env :=
  {| path_exists := path_exists env;
     is_file := is_file env;
     cwd := cwd env;
     mkdir_ok := mkdir_ok env;
     subprocess_run := subprocess_run env;
     glob_pdf := glob_pdf env;
     ctime_error := fun q =>
       if bool_decide (q = p)
       then Some (OSError ("[Errno 2] No such file or directory: '" +:+ p +:+ "'"))
       else None;
     smtp_send := smtp_send env;
     now := now env;
     timestamp := timestamp env;
     uuid4 := uuid4 env;
     secure_filename := secure_filename env;
     save_ok := save_ok env |}.

Definition env_pdf_vanishes : Env := vanishing env_ok draft_pdf.

(** The configuration loaded from a file that gives the account and
    nothing else of the email section:
    [{"email": {"username": ..., "password": ...}}]. *)
Definition account_only : Config :=
  {| email := {| smtp_server := None; smtp_port := None;
                 username := Some "agent@example.org";
                 password := Some "app-password";
                 from_email := None; to_email := None |};
     pandoc := pandoc default_config;
     output_directory := output_directory default_config |}.

(** An email section with every key, the values of an account. *)
Definition mail_config : Config :=
  {| email := {| smtp_server := Some "smtp.example.org"; smtp_port := Some 587%Z;
                 username := Some "agent@example.org";
                 password := Some "app-password";
                 from_email := Some "agent@example.org";
                 to_email := Some (JStr "author@example.org") |};
     pandoc := pandoc default_config;
     output_directory := output_directory default_config |}.

(** Options that name a recipient and do not mention [send_email]. *)
Definition to_reader : option json :=
  Some (JObj [("email_recipient", JStr "reader@example.org")]).

(** Upload, convert with the options [o], let the job finish. *)
Definition run_with (env : Env) (o : option json) : list (Env * App.Op) :=
  [(env, upload_draft); (env, App.OpConvert (convert_req o)); (env, App.OpRunThread 0)].

End Scenario.


(** ** The rest of the two files *)

(** *** pdf_agent.py: load_config and main *)

Module Loader.

(** [k in cfg] *)
Definition has_key (k : string) (cfg : list (string * json)) : bool :=
  match assoc k cfg with
  | Some _ => true
  | None => false
  end.

(** [for k, v in default_config.items(): if k not in cfg: cfg[k] = v];
    a key that is set for the first time goes to the end of the dict. *)
Definition backfill (default_config cfg : list (string * json))
    : list (string * json) :=
  fold_left (fun cfg kv => if has_key kv.1 cfg then cfg else cfg ++ [kv])
            default_config cfg.

(** [load_config(self, config_file)]. The file holds a JSON object, or
    does not exist ([None]); the result is the configuration and the file
    as it is afterwards. [default_config] is the dict literal of the
    source, taken as a parameter (its [temperature] is a float). *)
Definition load_config (default_config : list (string * json))
    (config_file : option (list (string * json)))
    : list (string * json) * option (list (string * json)) * list (Level * string) :=
  match config_file with
  | Some cfg => (backfill default_config cfg, Some cfg, [])
  | None =>
      (default_config, Some default_config,
       [(WARNING, "Created default config.json; please fill it in.")])
  end.

End Loader.

(** [main()]: the exit status of the command line tool, for the input
    path and the loaded configuration of the state. *)
Definition main (env : Env) (input : string) (s : State) : Z * State :=
  match PDFAgent.process_file env input (JBool true) JNull s with
  | (Ok true, s') => (0%Z, s')
  | (_, s') => (1%Z, s')
  end.

(** *** pdf_agent.py: the recipient override, statement by statement

    [process_file] puts the recipient of the request into the shared
    configuration, sends, and puts the earlier recipient back
    (lines 212 to 216), without a lock, and the jobs of the server are
    threads on one agent. Here the jobs are those whose request names a
    recipient, each of the four statements is one atomic action of its
    thread, and a schedule says which thread moves next. *)

Module Override.

(** Where a thread stands, with its local [original_recipient]. *)
Inductive Pc :=
| AtSave                        (* original_recipient = config['email']['to_email'] *)
| AtInstall (original : json)   (* config['email']['to_email'] = email_recipient *)
| AtSend (original : json)      (* self.send_email(pdf_path, ...) *)
| AtRestore (original : json)   (* config['email']['to_email'] = original_recipient *)
| Finished
| Raised (e : exn).

Record Thread := { recipient : json; pc : Pc }.

Record Shared := {
  to_email_now : option json;         (* config['email']['to_email'] *)
  sent : list (nat * option json);    (* thread, recipient in force at its send_email *)
  jobs : list Thread
}.

(** One statement of a thread: its next place, the shared recipient
    afterwards, and the recipient of the message if it was sent. *)
Definition advance (rcpt : json) (p : Pc) (t : option json)
    : Pc * option json * list (option json) :=
  match p with
  | AtSave =>
      match t with
      | Some original => (AtInstall original, t, [])
      | None => (Raised (KeyError "to_email"), t, [])
      end
  | AtInstall original => (AtSend original, Some rcpt, [])
  | AtSend original => (AtRestore original, t, [t])
  | AtRestore original => (Finished, Some original, [])
  | Finished => (Finished, t, [])
  | Raised e => (Raised e, t, [])
  end.

Definition step (i : nat) (s : Shared) : Shared :=
  match jobs s !! i with
  | None => s
  | Some th =>
      let r := advance (recipient th) (pc th) (to_email_now s) in
      {| to_email_now := r.1.2;
         sent := sent s ++ List.map (fun m => (i, m)) r.2;
         jobs := <[i := {| recipient := recipient th; pc := r.1.1 |}]> (jobs s) |}
  end.

Definition run (schedule : list nat) (s : Shared) : Shared :=
  fold_left (fun s i => step i s) schedule s.

Definition waiting (rcpt : json) : Thread := {| recipient := rcpt; pc := AtSave |}.
Definition finished (rcpt : json) : Thread := {| recipient := rcpt; pc := Finished |}.

(** The jobs of the requests with the recipients [rcpts], none begun. *)
Definition start (t : option json) (rcpts : list json) : Shared :=
  {| to_email_now := t; sent := []; jobs := List.map waiting rcpts |}.

(** The schedule in which the threads [k], [k+1], ... run one after the
    other, each from its first statement to its last. *)
Definition in_turn (k n : nat) : list nat :=
  flat_map (fun i => [i; i; i; i]) (seq k n).

(** Every thread's message went to the recipient of its own request. *)
Definition own (k : nat) (rcpts : list json) : list (nat * option json) :=
  List.map (fun x => (x.1, Some x.2)) (combine (seq k (length rcpts)) rcpts).

End Override.

(** *** Counting along a run *)

(** The convert requests accepted and the jobs run to their end. *)
Fixpoint accepted (s : State) (l : list (Env * App.Op)) : nat :=
  match l with
  | [] => 0
  | (env, op) :: l' =>
      (match Run.label env op s with Run.LConvert _ => 1 | _ => 0 end)
      + accepted (App.step env op s) l'
  end.

Fixpoint jobs_run (s : State) (l : list (Env * App.Op)) : nat :=
  match l with
  | [] => 0
  | (env, op) :: l' =>
      (match Run.label env op s with Run.LJob _ => 1 | _ => 0 end)
      + jobs_run (App.step env op s) l'
  end.

(** What every file record satisfies, by its status. *)
Definition record_ok (f : FileRecord) : Prop :=
  filepath f = PathLib.os_path_join App.UPLOAD_FOLDER (filename f)
  /\ (status f = uploaded ->
      pdf_path f = None /\ completed_at f = None /\ error f = None)
  /\ (status f = completed -> is_Some (pdf_path f) /\ is_Some (completed_at f))
  /\ (status f = failed -> is_Some (error f)).

(** The fields of a record that identify the upload. *)
Definition same_upload (f f' : FileRecord) : Prop :=
  filename f' = filename f /\ original_name f' = original_name f
  /\ filepath f' = filepath f /\ uploaded_at f' = uploaded_at f.

(** No character [c] in [s]. *)
Definition no_char (c : ascii) (s : string) : Prop := PathLib.rfind c s = None.

(** A name is dotless when it has no dot, or one dot and that in front. *)
Definition dotless (s : string) : Prop :=
  PathLib.rfind "." s = None \/ PathLib.rfind "." s = Some 0.

(** The output directory cannot be made, the output file is named. *)
Definition env_no_mkdir : Env :=
  {| path_exists := path_exists Scenario.env_ok;
     is_file := is_file Scenario.env_ok;
     cwd := cwd Scenario.env_ok;
     mkdir_ok := false;
     subprocess_run := subprocess_run Scenario.env_ok;
     glob_pdf := glob_pdf Scenario.env_ok;
     ctime_error := ctime_error Scenario.env_ok;
     smtp_send := smtp_send Scenario.env_ok;
     now := now Scenario.env_ok;
     timestamp := timestamp Scenario.env_ok;
     uuid4 := uuid4 Scenario.env_ok;
     secure_filename := secure_filename Scenario.env_ok;
     save_ok := true |}.

(** The record an accepted upload stores. *)
Definition uploaded_record (env : Env) (fname : string) : FileRecord :=
  let filename := timestamp env +:+ "_" +:+ secure_filename env fname in
  {| filename := filename; original_name := fname;
     filepath := PathLib.os_path_join App.UPLOAD_FOLDER filename;
     uploaded_at := now env; status := uploaded; pdf_path := None;
     completed_at := None; error := None |}.

(** A session stored under the key [k] carries that id and is active. *)
Definition session_ok (k : string) (x : Session) : Prop :=
  id x = k /\ sess_status x = "active".

(** * Properties *)

(** ** Paths *)

Example stem_draft :
  PathLib.stem (PathLib.Path "uploads/20251013_101500_draft.md")
  = "20251013_101500_draft".
Proof. reflexivity. Qed.

Example suffix_draft : PathLib.suffix (PathLib.Path "a/b.tar.GZ") = ".GZ".
Proof. reflexivity. Qed.

Example str_norm : PathLib.str (PathLib.Path "./out//x/") = "out/x".
Proof. reflexivity. Qed.

Example join_abs : PathLib.os_path_join "output" "/etc/passwd" = "/etc/passwd".
Proof. reflexivity. Qed.

Example inside_ok : PathLib.inside_dir "output" "output/a_IEEE.pdf" = true.
Proof. reflexivity. Qed.

Example inside_no : PathLib.inside_dir "output" "output/../app.py" = false.
Proof. reflexivity. Qed.

Lemma append_nonempty a b : a <> "" -> a +:+ b <> "".
Proof. destruct a; [done|]. intros _. simpl. discriminate. Qed.

Lemma concat_nonempty sep x l : x <> "" -> String.concat sep (x :: l) <> "".
Proof.
  intros Hx. destruct l; simpl; [done|]. by apply append_nonempty.
Qed.

Lemma filter_component_nonempty l x :
  In x (List.filter PathLib.component l) -> x <> "".
Proof.
  rewrite filter_In. intros [_ H]. unfold PathLib.component in H.
  destruct (String.eqb_spec x ""); simpl in H; [discriminate|done].
Qed.

(** [str(Path(x))] is never the empty string. *)
Lemma str_Path_nonempty x : PathLib.str (PathLib.Path x) <> "".
Proof.
  unfold PathLib.str, PathLib.Path. simpl.
  pose proof (filter_component_nonempty (PathLib.split "/" x)) as Hc.
  destruct (List.filter PathLib.component (PathLib.split "/" x)) as [|c t].
  - destruct (PathLib.path_root x) eqn:E; [done|]. simpl. discriminate.
  - assert (c <> "") by (apply Hc; by left).
    destruct (PathLib.path_root x) eqn:E.
    + by apply concat_nonempty.
    + simpl. discriminate.
Qed.

Lemma default_output_file_nonempty c p : PDFAgent.default_output_file c p <> "".
Proof. unfold PDFAgent.default_output_file, PathLib.div. apply str_Path_nonempty. Qed.

Lemma truthy_str_true s : truthy_str s = true <-> s <> "".
Proof. unfold truthy_str. destruct (String.eqb_spec s ""); simpl; split; congruence. Qed.

Arguments PDFAgent.build_cmd : simpl never.
Arguments PDFAgent.cmd_without_template : simpl never.
Arguments PDFAgent.default_output_file : simpl never.
Arguments PDFAgent.template_args : simpl never.
Arguments PDFAgent.send_email_log : simpl never.
Arguments String.append : simpl never.
Arguments String.concat : simpl never.
Arguments PathLib.Path : simpl never.
Arguments PathLib.str : simpl never.
Arguments App.latest : simpl never.
Arguments PDFAgent.send_email : simpl never.
Arguments PDFAgent.convert_to_ieee_format : simpl never.
Arguments PDFAgent.process_file : simpl never.

Ltac munfold :=
  unfold try_except, bind, get, PDFAgent.run, logger, emit, modify, ret, raise.

(** ** The agent *)

(** When the primary run exits with a code other than 0, exactly one more
    run is made, of the filtered command, and its exit code decides. *)
Lemma convert_primary_fails env input s rc err :
  mkdir_ok env = true ->
  let c := config s in
  let out := PDFAgent.default_output_file c (PathLib.Path input) in
  let cmd := PDFAgent.build_cmd env c (PathLib.Path input) out in
  subprocess_run env 0 cmd = Exit rc err -> rc <> 0%Z ->
  exists s',
    PDFAgent.convert_to_ieee_format env input None s
    = (Ok match subprocess_run env 1 (PDFAgent.cmd_without_template cmd) with
          | Exit rc' _ => if (rc' =? 0)%Z then out else ""
          | RunRaises _ => ""
          end, s')
    /\ invocations s' = invocations s ++ [cmd; PDFAgent.cmd_without_template cmd].
Proof.
  intros Hmk c out cmd H0 Hrc. subst c out cmd.
  unfold PDFAgent.convert_to_ieee_format. munfold.
  simpl. rewrite Hmk. simpl. rewrite H0. simpl.
  destruct (Z.eqb_spec rc 0) as [->|_]; [done|].
  simpl.
  destruct (subprocess_run env 1 _) as [rc' err'|e]; simpl.
  - destruct (rc' =? 0)%Z; simpl; eexists; split; try reflexivity; simpl;
      by rewrite <- ?app_assoc.
  - eexists; split; try reflexivity; simpl; by rewrite <- ?app_assoc.
Qed.

(** The conversion never raises; it returns the output file exactly when
    the converter succeeded. *)
Lemma convert_total env input s :
  exists s',
    PDFAgent.convert_to_ieee_format env input None s
    = (Ok (if PDFAgent.converter_succeeds env (config s) input
           then PDFAgent.default_output_file (config s) (PathLib.Path input)
           else ""), s')
    /\ dispatches s' = dispatches s
    /\ (forall x, In x (log s) -> In x (log s'))
    /\ agent_frame s s'.
Proof.
  unfold PDFAgent.convert_to_ieee_format, PDFAgent.converter_succeeds. munfold. simpl.
  destruct (mkdir_ok env); simpl.
  2:{ eexists. split; [reflexivity|]. simpl. repeat split. intros x. rewrite !in_app_iff. tauto. }
  destruct (subprocess_run env 0 _) as [rc err|e]; simpl.
  2:{ eexists. split; [reflexivity|]. simpl. repeat split. intros x. rewrite !in_app_iff. tauto. }
  destruct (rc =? 0)%Z; simpl.
  { eexists. split; [reflexivity|]. simpl. repeat split. intros x. rewrite !in_app_iff. tauto. }
  destruct (subprocess_run env 1 _) as [rc' err'|e]; simpl.
  2:{ eexists. split; [reflexivity|]. simpl. repeat split. intros x. rewrite !in_app_iff. tauto. }
  destruct (rc' =? 0)%Z; simpl; eexists; (split; [reflexivity|]); simpl; repeat split;
    intros x; rewrite !in_app_iff; tauto.
Qed.

(** The dispatcher never raises and logs what became of the message. *)
Lemma send_email_total env a subj s :
  exists b s',
    PDFAgent.send_email env a subj s = (Ok b, s')
    /\ dispatches s' = dispatches s ++
         [{| d_attachment := a; d_subject := subj;
             d_recipient := to_email (email (config s)) |}]
    /\ log s' = log s ++ [PDFAgent.send_email_log env a (email (config s))]
    /\ agent_frame s s'.
Proof.
  unfold PDFAgent.send_email, PDFAgent.send_email_log. munfold. simpl.
  destruct (PDFAgent.missing_key _) as [k|]; simpl.
  { do 2 eexists. split; [reflexivity|]. simpl. by repeat split. }
  destruct (negb _); simpl.
  { do 2 eexists. split; [reflexivity|]. simpl. by repeat split. }
  destruct (smtp_send env a _) as [ex|]; simpl.
  - do 2 eexists. split; [reflexivity|]. simpl. by repeat split.
  - do 2 eexists. split; [reflexivity|]. simpl. by repeat split.
Qed.

Lemma set_to_email_restore v o c :
  to_email (email c) = Some o -> set_to_email o (set_to_email v c) = c.
Proof. destruct c as [[] ? ?]. simpl. by intros ->. Qed.

(** [process_file] never raises and leaves the configuration as it was.
    It answers whether the converter succeeded, whatever the dispatcher
    did, unless the recipient of the request could not be put in place:
    then it answers [False] and the dispatcher was not called. *)
Lemma process_file_total env input flag rcpt s :
  let ok := file_processed env (config s) input flag rcpt in
  let out := PDFAgent.default_output_file (config s) (PathLib.Path input) in
  exists s',
    PDFAgent.process_file env input flag rcpt s = (Ok ok, s')
    /\ dispatches s' = dispatches s ++
         (if ok && truthy flag then [requested_dispatch out rcpt (config s)] else [])
    /\ (ok && truthy flag = true ->
        In (PDFAgent.send_email_log env out (dispatch_config rcpt (config s))) (log s'))
    /\ (PDFAgent.converter_succeeds env (config s) input = true ->
        override_raises (config s) flag rcpt = true ->
        In (ERROR, "File processing error: 'to_email'") (log s'))
    /\ agent_frame s s'.
Proof.
  intros ok out. subst ok out. unfold file_processed, override_raises.
  unfold PDFAgent.process_file.
  unfold try_except at 1. unfold bind at 1. unfold logger at 1. unfold modify at 1.
  unfold bind at 1.
  destruct (convert_total env input (set_log (λ lg, lg ++ [(INFO, "Processing file for IEEE format: " +:+ input)]) s))
    as (s1 & -> & Hd1 & _ & Hs1 & Ht1 & He1 & Hc1).
  simpl in *.
  destruct (PDFAgent.converter_succeeds env (config s) input) eqn:Hok; simpl.
  2:{ munfold. simpl. eexists. split; [reflexivity|]. simpl.
      rewrite app_nil_r. by repeat split. }
  assert (truthy_str (PDFAgent.default_output_file (config s) (PathLib.Path input)) = true) as ->
    by (apply truthy_str_true, default_output_file_nonempty).
  simpl. destruct (truthy flag); simpl.
  2:{ munfold. simpl. eexists. split; [reflexivity|]. simpl.
      rewrite app_nil_r. by repeat split. }
  unfold requested_dispatch, dispatch_config.
  destruct (truthy rcpt) eqn:Hr; munfold.
  - rewrite Hc1. destruct (to_email (email (config s))) as [o|] eqn:Ho; simpl.
    2:{ eexists. split; [reflexivity|]. simpl. rewrite app_nil_r.
        unfold agent_frame. simpl. repeat split; try done.
        intros _ _. rewrite !in_app_iff. right. by left. }
    match goal with |- context [PDFAgent.send_email env ?a ?sj ?st] =>
      destruct (send_email_total env a sj st) as (b & s2 & -> & Hd2 & Hl2 & Hs2 & Ht2 & He2 & Hc2)
    end.
    simpl in *. eexists. split; [reflexivity|]. simpl.
    unfold agent_frame. simpl. rewrite Hc2, Hc1.
    rewrite (set_to_email_restore _ _ _ Ho).
    rewrite Hc1 in Hl2. rewrite Hd2, Hd1, Hl2.
    repeat split; try congruence.
    intros _. rewrite !in_app_iff. left. right. by left.
  - match goal with |- context [PDFAgent.send_email env ?a ?sj ?st] =>
      destruct (send_email_total env a sj st) as (b & s2 & -> & Hd2 & Hl2 & Hs2 & Ht2 & He2 & Hc2)
    end.
    simpl in *. eexists. split; [reflexivity|]. simpl.
    unfold agent_frame. simpl.
    rewrite Hc1 in Hl2. rewrite Hd2, Hd1, Hl2.
    repeat split; try congruence.
    intros _. rewrite !in_app_iff. left. right. by left.
Qed.

(** ** File records behind references *)

Import App Run.

Lemma file_at_write m r g r' :
  file_at (write_file r g m) r'
  = if decide (r' = r) then g <$> file_at m r' else file_at m r'.
Proof.
  destruct r as [a i], r' as [b j]. unfold file_at, write_file. simpl.
  rewrite lookup_alter. destruct (decide (a = b)) as [->|Hab].
  - destruct (m !! b) as [x|]; simpl.
    + rewrite list_lookup_alter. destruct (decide (i = j)) as [->|Hij].
      * by rewrite decide_True.
      * rewrite decide_False; [done|]. congruence.
    + by destruct (decide _).
  - rewrite decide_False; [done|]. congruence.
Qed.

Lemma write_file_compose m r g1 g2 :
  write_file r g2 (write_file r g1 m) = write_file r (g2 ∘ g1) m.
Proof.
  unfold write_file. rewrite alter_alter_eq. apply alter_ext.
  intros x _. unfold set_files. simpl. f_equal. by rewrite list_alter_alter_eq.
Qed.

(** Reading a record back through the reference it was written by. *)
Lemma lookup_file_written r g s s' f :
  sessions s' = write_file r g (sessions s) ->
  lookup_file r s = Some f -> lookup_file r s' = Some (g f).
Proof.
  intros Hs Hf. unfold lookup_file in *.
  by rewrite Hs, file_at_write, decide_True, Hf.
Qed.

(** ** The background job *)

Arguments App.write_file : simpl never.
Arguments App.status_event : simpl never.
Arguments App.ctime_raises : simpl never.

Lemma status_event_filename sid f f' st msg p :
  filename f = filename f' ->
  status_event sid f st msg p = status_event sid f' st msg p.
Proof. unfold status_event. by intros ->. Qed.

(** The [try] block of a job whose options are a dict: up to the answer
    of [process_file], in the state [s1], and from there either out by the
    exception of [getctime] or on to the end. *)
Lemma body_dict env sid r l s :
  let fi := default empty_record (lookup_file r s) in
  let flag := default (JBool true) (assoc "send_email" l) in
  let rcpt := default JNull (assoc "email_recipient" l) in
  let ok := file_processed env (config s) (filepath fi) flag rcpt in
  let out := PDFAgent.default_output_file (config s) (PathLib.Path (filepath fi)) in
  exists s1,
    sessions s1 = sessions s /\ threads s1 = threads s /\ config s1 = config s
    /\ events s1 = events s ++
         [status_event sid fi processing "Starting conversion..." None]
    /\ dispatches s1 = dispatches s ++
         (if ok && truthy flag then [requested_dispatch out rcpt (config s)] else [])
    /\ (ok && truthy flag = true ->
        In (PDFAgent.send_email_log env out (dispatch_config rcpt (config s))) (log s1))
    /\ (PDFAgent.converter_succeeds env (config s) (filepath fi) = true ->
        override_raises (config s) flag rcpt = true ->
        In (ERROR, "File processing error: 'to_email'") (log s1))
    /\ process_conversion_body env sid r (JObj l) s
       = match (if ok then ctime_raises env (glob_pdf env (output_directory (config s)))
                else None) with
         | Some e => (Raise e, s1)
         | None =>
             (Ok tt,
              set_events (fun evs => evs ++ [final_event env (config s) ok sid fi])
                (set_sessions (write_file r (job_outcome env (config s) ok)) s1))
         end.
Proof.
  intros fi flag rcpt ok out. subst fi flag rcpt ok out.
  unfold process_conversion_body, deref, py_get, update_file, latest_pdf_of.
  munfold. simpl.
  match goal with |- context [PDFAgent.process_file env ?a ?b ?c ?st] =>
    destruct (process_file_total env a b c st)
      as (s1 & -> & Hd & Hl & Hk & Hs & Ht & He & Hc)
  end.
  simpl in *. exists s1. rewrite Hc.
  split; [done|]. split; [done|]. split; [done|]. split; [done|].
  split; [done|]. split; [done|]. split; [done|].
  unfold job_outcome, final_event.
  destruct (file_processed _ _ _ _ _); simpl; rewrite ?Hc.
  - destruct (ctime_raises env _) as [e|]; simpl; [done|].
    unfold set_events, set_sessions. simpl. by rewrite !write_file_compose.
  - unfold set_events, set_sessions. simpl. by rewrite !write_file_compose.
Qed.

Lemma body_nondict env sid r o s :
  (forall l, o <> JObj l) ->
  process_conversion_body env sid r o s
  = (Raise (no_get o),
     set_events (fun evs => evs ++
       [status_event sid (default empty_record (lookup_file r s)) processing
          "Starting conversion..." None]) s).
Proof.
  intros Ho. unfold process_conversion_body, deref, py_get, no_get. munfold. simpl.
  destruct o; try reflexivity. by destruct (Ho l).
Qed.

(** The [except] block: the record is marked failed with the text of the
    exception and a [failed] event is published. *)
Lemma handler_effect sid r e s :
  exists s',
    process_conversion_handler sid r e s = (Ok tt, s')
    /\ sessions s' = write_file r (job_error e) (sessions s)
    /\ threads s' = threads s
    /\ config s' = config s
    /\ dispatches s' = dispatches s
    /\ events s' = events s ++
         [status_event sid (default empty_record (lookup_file r s))
            failed ("Conversion error: " +:+ exn_str e) None]
    /\ log s' = log s ++ [(ERROR, "Background conversion error: " +:+ exn_str e)].
Proof.
  unfold process_conversion_handler, deref, update_file, job_error. munfold. simpl.
  eexists. split; [reflexivity|]. simpl. rewrite write_file_compose.
  repeat split. unfold lookup_file. simpl. rewrite write_file_compose.
  rewrite file_at_write, decide_True by done. do 2 f_equal.
  apply status_event_filename. by destruct (file_at (sessions s) r).
Qed.

(** The job with a dict of options, from its start to its end. *)
Lemma job_dict env sid r l s :
  let fi := default empty_record (lookup_file r s) in
  let flag := default (JBool true) (assoc "send_email" l) in
  let rcpt := default JNull (assoc "email_recipient" l) in
  let ok := file_processed env (config s) (filepath fi) flag rcpt in
  let out := PDFAgent.default_output_file (config s) (PathLib.Path (filepath fi)) in
  exists s',
    process_conversion env sid r (JObj l) s = (Ok tt, s')
    /\ sessions s' = write_file r (job_outcome env (config s) ok) (sessions s)
    /\ threads s' = threads s
    /\ config s' = config s
    /\ events s' = events s ++
         [status_event sid fi processing "Starting conversion..." None;
          final_event env (config s) ok sid fi]
    /\ dispatches s' = dispatches s ++
         (if ok && truthy flag then [requested_dispatch out rcpt (config s)] else [])
    /\ (ok && truthy flag = true ->
        In (PDFAgent.send_email_log env out (dispatch_config rcpt (config s))) (log s'))
    /\ (PDFAgent.converter_succeeds env (config s) (filepath fi) = true ->
        override_raises (config s) flag rcpt = true ->
        In (ERROR, "File processing error: 'to_email'") (log s')).
Proof.
  intros fi flag rcpt ok out.
  destruct (body_dict env sid r l s)
    as (s1 & Hs & Ht & Hc & He & Hd & Hl & Hk & Hb).
  fold fi flag rcpt ok out in He, Hd, Hl, Hk, Hb.
  unfold process_conversion, try_except. rewrite Hb.
  unfold job_outcome, final_event.
  destruct ok; simpl.
  - destruct (ctime_raises env _) as [e|] eqn:Hct; simpl.
    + destruct (handler_effect sid r e s1)
        as (s' & -> & Hs' & Ht' & Hc' & Hd' & He' & Hl').
      exists s'. split; [done|]. rewrite Hs', Ht', Hc', Hd', He', Hl', Hs.
      split; [done|]. split; [done|]. split; [done|]. split.
      { rewrite He, <- app_assoc. simpl. do 3 f_equal.
        apply status_event_filename. unfold fi, lookup_file. by rewrite Hs. }
      split; [done|]. split.
      * intros H. apply in_or_app. left. by apply Hl.
      * intros H1 H2. apply in_or_app. left. by apply Hk.
    + eexists. split; [reflexivity|]. simpl. rewrite Hs, He, <- app_assoc.
      by repeat split.
  - eexists. split; [reflexivity|]. simpl. rewrite Hs, He, <- app_assoc.
    by repeat split.
Qed.

(** The job never raises, whatever its options are, and writes
    [job_effect] into its record. *)
Lemma process_conversion_effect env sid r o s :
  let fi := default empty_record (lookup_file r s) in
  exists s',
    process_conversion env sid r o s = (Ok tt, s')
    /\ sessions s' = write_file r (job_effect env (config s) fi o) (sessions s)
    /\ threads s' = threads s
    /\ config s' = config s.
Proof.
  intros fi. subst fi.
  destruct o as [| | | | |l];
    try (unfold process_conversion, try_except;
         rewrite body_nondict by discriminate;
         match goal with |- context [process_conversion_handler sid r ?e ?st] =>
           destruct (handler_effect sid r e st) as (s' & -> & Hs & Ht & Hc & _)
         end; exists s'; simpl in *; by repeat split).
  destruct (job_dict env sid r l s) as (s' & -> & Hs & Ht & Hc & _).
  exists s'. by repeat split.
Qed.

Lemma job_outcome_terminal env c ok f :
  terminal (status (job_outcome env c ok f)) = true.
Proof.
  unfold job_outcome. destruct ok; [|done].
  by destruct (ctime_raises env _).
Qed.

Lemma job_effect_terminal env c fi o f :
  terminal (status (job_effect env c fi o f)) = true.
Proof.
  unfold job_effect. destruct o; try reflexivity. apply job_outcome_terminal.
Qed.

(** ** Sessions *)

Lemma file_at_insert_fresh m sid x r :
  m !! sid = None -> files x = [] -> file_at (<[sid:=x]> m) r = file_at m r.
Proof.
  intros Hm Hx. destruct r as [a i]. unfold file_at. simpl.
  destruct (decide (sid = a)) as [->|Hne].
  - rewrite lookup_insert_eq, Hm. simpl. by rewrite Hx.
  - by rewrite lookup_insert_ne.
Qed.

Lemma file_at_append m sid x rec r :
  m !! sid = Some x ->
  file_at (alter (set_files (fun l => l ++ [rec])) sid m) r
  = if decide (r = (sid, length (files x))) then Some rec else file_at m r.
Proof.
  intros Hm. destruct r as [a i]. unfold file_at. simpl.
  rewrite lookup_alter. destruct (decide (sid = a)) as [->|Hne].
  - rewrite Hm. simpl. destruct (decide (i = length (files x))) as [->|Hi].
    + rewrite decide_True by done. by rewrite list_lookup_middle.
    + rewrite decide_False by congruence.
      destruct (decide (i < length (files x))).
      * by rewrite lookup_app_l.
      * rewrite !lookup_ge_None_2; [done| lia |]. rewrite length_app. simpl. lia.
  - rewrite decide_False by congruence. done.
Qed.

Lemma find_file_Some fname l i :
  find_file fname l = Some i -> is_Some (l !! i).
Proof.
  revert i. induction l as [|f l IH]; intros i; simpl; [done|].
  destruct (String.eqb _ _).
  - intros [= <-]. by eexists.
  - destruct (find_file fname l) as [k|]; simpl; [|done].
    intros [= <-]. simpl. by apply IH.
Qed.

Arguments App.allowed_file : simpl never.
Arguments PathLib.os_path_join : simpl never.
Arguments App.process_conversion : simpl never.

Lemma upload_effect env req s :
  effect (label env (OpUpload req) s) s (upload_file env req s).2.
Proof.
  unfold label, upload_accepts, upload_file, get_session. munfold.
  destruct (up_too_large req); simpl; [by split|].
  destruct (up_file req) as [fname|]; simpl; [|by split].
  destruct (String.eqb fname ""); simpl; [by split|].
  destruct (allowed_file fname); simpl; [|by split].
  destruct (save_ok env); simpl; [|by split].
  set (sid := default (uuid4 env) (up_session_id req)).
  destruct (sessions s !! sid) as [x|] eqn:Hx; simpl.
  - split; [done|]. unfold lookup_file. simpl. split; [|split].
    + unfold file_at. simpl. rewrite Hx. simpl. by apply lookup_ge_None_2.
    + eexists. rewrite (file_at_append _ _ x) by done. by rewrite decide_True.
    + intros r Hr. rewrite (file_at_append _ _ x) by done. by rewrite decide_False.
  - split; [done|]. unfold lookup_file. simpl. split; [|split].
    + unfold file_at. simpl. by rewrite Hx.
    + eexists. erewrite file_at_append by apply lookup_insert_eq.
      simpl. by rewrite decide_True.
    + intros r Hr. erewrite file_at_append by apply lookup_insert_eq.
      simpl. rewrite decide_False by done. by apply file_at_insert_fresh.
Qed.

Lemma convert_effect env req s :
  effect (label env (OpConvert req) s) s (convert_file env req s).2.
Proof.
  unfold label, target, convert_file, get_session, update_file. munfold.
  set (sid := default "" (c_session_id req)).
  set (fname := default "" (c_filename req)).
  destruct (truthy_str sid); simpl; [|by split].
  destruct (truthy_str fname); simpl; [|by split].
  destruct (sessions s !! sid) as [x|] eqn:Hx; simpl.
  - destruct (find_file fname (files x)) as [i|] eqn:Hi; simpl; [|by split].
    split; [by eexists|]. unfold lookup_file. simpl. split.
    + unfold file_at. simpl. rewrite Hx. simpl. by eapply find_file_Some.
    + intros r. apply file_at_write.
  - split; [done|]. intros r. unfold lookup_file. simpl.
    by apply file_at_insert_fresh.
Qed.

Lemma run_thread_effect env k s :
  effect (label env (OpRunThread k) s) s (step env (OpRunThread k) s).
Proof.
  unfold label, step. destruct (threads s !! k) as [j|] eqn:Hk; simpl; [|by split].
  destruct (process_conversion_effect env (job_session_id j) (job_file j)
              (job_options j) (set_threads (remove_nth k) s)) as (s' & -> & Hs & Ht & _).
  simpl in *. eexists j, _. split; [done|]. split; [done|]. split.
  - apply job_effect_terminal.
  - intros r. unfold lookup_file. rewrite Hs. apply file_at_write.
Qed.

(** The endpoint has three outcomes: the joined path is served, or the
    reply is the 404 error, or (what exists cannot be sent) the 500 error;
    it changes nothing but the log. *)
Lemma download_outcomes env fname s :
  let file_path := PathLib.os_path_join "output" fname in
  exists resp s',
    download_file env fname s = (Ok resp, s')
    /\ sessions s' = sessions s /\ threads s' = threads s
    /\ events s' = events s
    /\ resp = (if path_exists env file_path then
                 if is_file env file_path then RFile file_path
                 else error_response 500 ("cannot send " +:+ file_path)
               else error_response 404 "File not found").
Proof.
  intros file_path. subst file_path. unfold download_file. munfold. simpl.
  destruct (path_exists env _); simpl; [|by do 2 eexists].
  destruct (is_file env _); simpl; by do 2 eexists.
Qed.

Lemma quiet_effect env op s :
  match op with OpDownload _ | OpSessionInfo _ | OpDismiss _ => True | _ => False end ->
  effect LQuiet s (step env op s).
Proof.
  destruct op as [| | |fname|sid|req]; try done; intros _; simpl.
  - destruct (download_outcomes env fname s) as (resp & s' & Hr & Hs & Ht & _).
    rewrite Hr. simpl. split; [done|]. intros r. unfold lookup_file. by rewrite Hs.
  - unfold get_session_info, get_session. munfold.
    destruct (sessions s !! sid) eqn:Hx; simpl; split; try done.
    intros r. unfold lookup_file. simpl. by apply file_at_insert_fresh.
  - unfold dismiss_update, get_session. munfold.
    set (sid := default "" (dm_session_id req)).
    set (uid := default "" (dm_update_id req)).
    destruct (truthy_str sid); simpl; [|by split].
    destruct (truthy_str uid); simpl; [|by split].
    assert (forall m r, file_at (alter (set_dismissed (fun l => l ++ [uid])) sid m) r = file_at m r) as Hd.
    { intros m [a i]. unfold file_at. simpl. rewrite lookup_alter.
      destruct (decide (sid = a)) as [->|]; [|done]. by destruct (m !! a). }
    destruct (sessions s !! sid) as [x|] eqn:Hx; simpl.
    + destruct (bool_decide _); simpl; split; try done.
      intros r. unfold lookup_file. simpl. apply Hd.
    + split; [done|]. intros r. unfold lookup_file. simpl.
      rewrite Hd. by apply file_at_insert_fresh.
Qed.

(** Every step does to the records and the threads what its label says. *)
Lemma step_effect env op s : effect (label env op s) s (step env op s).
Proof.
  destruct op.
  - apply upload_effect.
  - apply convert_effect.
  - apply run_thread_effect.
  - by apply quiet_effect.
  - by apply quiet_effect.
  - by apply quiet_effect.
Qed.

(** ** Status histories *)

Lemma allowed_refl st : allowed st st = true.
Proof. by destruct st. Qed.

Lemma weakly_allowed_refl st : weakly_allowed st st = true.
Proof. by destruct st. Qed.

(** A record that appears was just uploaded. *)
Lemma appears_uploaded env op s r f' :
  lookup_file r s = None -> lookup_file r (step env op s) = Some f' ->
  status f' = uploaded.
Proof.
  intros Hn Hs. pose proof (step_effect env op s) as He.
  destruct (label env op s) as [|r0|r0|k]; simpl in He.
  - destruct He as [_ He]. congruence.
  - destruct He as (_ & _ & (f & Hf & Hst) & He).
    destruct (decide (r = r0)) as [->|Hne]; [congruence|].
    rewrite He in Hs by done. congruence.
  - destruct He as (_ & _ & He). rewrite He, Hn in Hs. by destruct (decide _).
  - destruct He as (j & G & _ & _ & _ & He). rewrite He, Hn in Hs. by destruct (decide _).
Qed.

Arguments Run.history : simpl never.

Section History.

Variable ok : Status -> Status -> bool.
Variable r : FileRef.
Variable I : State -> list (Env * Op) -> Prop.

Hypothesis ok_refl : forall st, ok st st = true.
Hypothesis I_step :
  forall env op l s, I s ((env, op) :: l) -> I (step env op s) l.
Hypothesis I_move :
  forall env op l s f, I s ((env, op) :: l) -> lookup_file r s = Some f ->
    exists f', lookup_file r (step env op s) = Some f'
               /\ ok (status f) (status f') = true.

Lemma history_cons s states :
  history r (s :: states)
  = match lookup_file r s with
    | Some f => status f :: history r states
    | None => history r states
    end.
Proof. unfold history. simpl. by destruct (lookup_file r s). Qed.

Lemma run_from_head s l : exists rest, run_from s l = s :: rest.
Proof. destruct l as [|[env op] l]; simpl; eauto. Qed.

Lemma history_from l : forall s, I s l ->
  match lookup_file r s with
  | Some f => chain ok (status f) (history r (run_from s l)) = true
  | None => starts_uploaded ok (history r (run_from s l)) = true
  end.
Proof.
  induction l as [|[env op] l IH]; intros s HI.
  - cbn [run_from]. rewrite history_cons.
    destruct (lookup_file r s); cbn; [|done]. by rewrite ok_refl.
  - cbn [run_from]. rewrite history_cons.
    specialize (IH _ (I_step _ _ _ _ HI)).
    destruct (run_from_head (step env op s) l) as [rest Hrest].
    rewrite Hrest, history_cons in IH |- *.
    destruct (lookup_file r s) as [f|] eqn:Hf.
    + destruct (I_move _ _ _ _ _ HI Hf) as (f' & Hf' & Hok).
      rewrite Hf' in IH |- *. cbn [chain] in IH |- *.
      rewrite ok_refl in IH |- *. by rewrite Hok.
    + destruct (lookup_file r (step env op s)) as [f'|] eqn:Hf'; [|done].
      pose proof (appears_uploaded _ _ _ _ _ Hf Hf') as Hup.
      cbn [chain starts_uploaded] in IH |- *. rewrite ok_refl in IH.
      rewrite Hup in IH |- *. by rewrite bool_decide_eq_true_2.
Qed.

End History.


Lemma remove_nth_elem {A} k (l : list A) x : x ∈ remove_nth k l -> x ∈ l.
Proof.
  unfold remove_nth. rewrite elem_of_app. intros [H|H].
  - by eapply subseteq_take.
  - by eapply subseteq_drop.
Qed.

Lemma terminal_not_uploaded st : terminal st = true -> st <> uploaded.
Proof. by destruct st. Qed.

Lemma jobs_started_step env op s : jobs_started s -> jobs_started (step env op s).
Proof.
  intros HI. pose proof (step_effect env op s) as He.
  destruct (label env op s) as [|r0|r0|k]; simpl in He; intros j Hj.
  - destruct He as [Ht He]. rewrite Ht in Hj. rewrite He. by apply HI.
  - destruct He as (Ht & Hn & _ & He). rewrite Ht in Hj.
    destruct (HI j Hj) as (f & Hf & Hst). exists f. split; [|done].
    rewrite He; [done|]. congruence.
  - destruct He as ((j0 & Ht & Hj0) & [f0 Hf0] & He). rewrite He.
    destruct (decide (job_file j = r0)) as [->|Hne].
    + rewrite Hf0. simpl. eexists. split; [done|]. done.
    + rewrite Ht in Hj. apply elem_of_app in Hj as [Hj|Hj]; [by apply HI|].
      apply list_elem_of_singleton in Hj. congruence.
  - destruct He as (j0 & G & Hk & Ht & HG & He). rewrite Ht in Hj.
    apply remove_nth_elem in Hj. destruct (HI j Hj) as (f & Hf & Hst).
    rewrite He. destruct (decide _); rewrite Hf; simpl; eexists; (split; [done|]); [|done].
    by apply terminal_not_uploaded.
Qed.

Lemma weak_move env op s r f :
  jobs_started s -> lookup_file r s = Some f ->
  exists f', lookup_file r (step env op s) = Some f'
             /\ weakly_allowed (status f) (status f') = true.
Proof.
  intros HI Hf. pose proof (step_effect env op s) as He.
  destruct (label env op s) as [|r0|r0|k]; simpl in He.
  - destruct He as [_ He]. exists f. rewrite He. split; [done|]. apply weakly_allowed_refl.
  - destruct He as (_ & Hn & _ & He). exists f. rewrite He by congruence.
    split; [done|]. apply weakly_allowed_refl.
  - destruct He as (_ & _ & He). rewrite He, Hf. destruct (decide _); simpl.
    + eexists. split; [done|]. simpl. by destruct (status f).
    + eexists. split; [done|]. apply weakly_allowed_refl.
  - destruct He as (j & G & Hk & _ & HG & He). rewrite He, Hf.
    destruct (decide (r = job_file j)) as [->|]; simpl.
    + eexists. split; [done|].
      destruct (HI j) as (f1 & Hf1 & Hst); [by eapply list_elem_of_lookup_2|].
      assert (f1 = f) as -> by congruence.
      specialize (HG f). destruct (status f), (status (G f)); done.
    + eexists. split; [done|]. apply weakly_allowed_refl.
Qed.

(** *** Records converted at most once *)

Lemma jobs_for_app r l1 l2 :
  jobs_for r (l1 ++ l2) = jobs_for r l1 + jobs_for r l2.
Proof. unfold jobs_for. by rewrite List.filter_app, length_app. Qed.

Lemma jobs_for_single r j :
  jobs_for r [j] = if bool_decide (job_file j = r) then 1 else 0.
Proof. unfold jobs_for. simpl. by destruct (bool_decide _). Qed.

Lemma jobs_for_remove r k l j :
  l !! k = Some j ->
  jobs_for r l
  = (if bool_decide (job_file j = r) then 1 else 0) + jobs_for r (remove_nth k l).
Proof.
  intros Hk. unfold remove_nth.
  rewrite <- (take_drop_middle l k j Hk) at 1.
  rewrite !jobs_for_app. change (j :: drop (S k) l) with ([j] ++ drop (S k) l).
  rewrite jobs_for_app, jobs_for_single.
  destruct (bool_decide (job_file j = r)); simpl; lia.
Qed.

Arguments Run.jobs_for : simpl never.

Lemma once_step_move r env op l s :
  once r s ((env, op) :: l) ->
  once r (step env op s) l
  /\ forall f, lookup_file r s = Some f ->
       exists f', lookup_file r (step env op s) = Some f'
                  /\ allowed (status f) (status f') = true.
Proof.
  unfold once. cbn [conversions].
  pose proof (step_effect env op s) as He.
  destruct (label env op s) as [|r0|r0|k] eqn:Hlb; simpl in He.
  - (* nothing changes *)
    destruct He as [Ht He]. rewrite Ht, He.
    rewrite bool_decide_eq_false_2 by done. simpl.
    intros HI. split; [done|]. intros f Hf. exists f. split; [done|]. apply allowed_refl.
  - (* an upload *)
    destruct He as (Ht & Hn & (f0 & Hf0 & Hup) & He). rewrite Ht.
    rewrite bool_decide_eq_false_2 by done. simpl.
    destruct (decide (r = r0)) as [->|Hne].
    + rewrite Hn, Hf0. intros [(Hc & Hj & _)|(_ & f & Hf & _)]; [|done].
      split; [|done]. left. split; [done|]. split; [done|]. by intros f [= <-].
    + rewrite (He r Hne). intros HI. split; [done|].
      intros f Hf. exists f. split; [done|]. apply allowed_refl.
  - (* a convert request *)
    destruct He as ((j & Ht & Hj) & [f0 Hf0] & He).
    rewrite Ht, jobs_for_app, jobs_for_single, He.
    destruct (decide (r = r0)) as [->|Hne].
    + rewrite bool_decide_eq_true_2 by done. rewrite (bool_decide_eq_true_2 _ Hj).
      rewrite Hf0. simpl.
      intros [(Hc & Hj0 & Hst)|(Hc & _)]; [|lia].
      split.
      * right. split; [lia|]. eexists. split; [done|]. left. split; [done|]. lia.
      * intros f [= <-]. eexists. split; [done|]. rewrite (Hst _ eq_refl). done.
    + rewrite bool_decide_eq_false_2 by congruence.
      rewrite (bool_decide_eq_false_2 (job_file j = r)) by congruence.
      simpl. rewrite Nat.add_0_r. intros HI. split; [done|].
      intros f Hf. exists f. split; [done|]. apply allowed_refl.
  - (* a job ends *)
    destruct He as (j & G & Hk & Ht & HG & He). rewrite Ht, He.
    rewrite bool_decide_eq_false_2 by done. simpl.
    rewrite (jobs_for_remove r k (threads s) j Hk).
    destruct (decide (r = job_file j)) as [->|Hne].
    + rewrite bool_decide_eq_true_2 by done.
      intros [(_ & Hj0 & _)|(Hc & f & Hf & [[Hst Hj1]|[_ Hj0]])]; try lia.
      rewrite Hf. simpl. split.
      * right. split; [done|]. eexists. split; [done|]. right. split; [apply HG|lia].
      * intros ? [= <-]. eexists. split; [done|]. rewrite Hst.
        specialize (HG f). by destruct (status (G f)).
    + rewrite bool_decide_eq_false_2 by congruence. simpl.
      intros HI. split; [done|].
      intros f Hf. exists f. split; [done|]. apply allowed_refl.
Qed.

Lemma once_init c r l :
  conversions r (init_state c) l <= 1 -> once r (init_state c) l.
Proof. intros H. left. split; [done|]. split; [done|]. by intros f. Qed.

Lemma jobs_started_init c : jobs_started (init_state c).
Proof. intros j Hj. by apply elem_of_nil in Hj. Qed.

Lemma lookup_file_init c r : lookup_file r (init_state c) = None.
Proof. unfold lookup_file, file_at. simpl. by rewrite lookup_empty. Qed.

(** C4, as amended. Along every run of the server, from the start, the
    statuses a file record shows begin at [uploaded], never return to
    [uploaded] and leave it only for [processing]; and a record for which
    at most one convert request is accepted shows a prefix of [uploaded],
    [processing], then one of [completed] or [failed]. *)
Theorem status_lifecycle (c : Config) (l : list (Env * Op)) (r : FileRef) :
  weak_lifecycle (history r (run_from (init_state c) l)) = true
  /\ (conversions r (init_state c) l <= 1 ->
      lifecycle (history r (run_from (init_state c) l)) = true).
Proof.
  split.
  - pose proof (history_from weakly_allowed r (fun s _ => jobs_started s)
                  weakly_allowed_refl) as H.
    specialize (H (fun env op _ s => jobs_started_step env op s)).
    specialize (H (fun env op _ s f => weak_move env op s r f)).
    specialize (H l _ (jobs_started_init c)).
    by rewrite lookup_file_init in H.
  - intros Hc.
    pose proof (history_from allowed r (once r) allowed_refl) as H.
    specialize (H (fun env op l' s Ho => proj1 (once_step_move r env op l' s Ho))).
    specialize (H (fun env op l' s f Ho => proj2 (once_step_move r env op l' s Ho) f)).
    specialize (H l _ (once_init c r l Hc)).
    by rewrite lookup_file_init in H.
Qed.

(** The run of the scenario converts the record once and shows
    [uploaded], [processing], [completed]. *)
Lemma status_lifecycle_witness :
  conversions Scenario.draft_ref (init_state default_config)
    (Scenario.run_once Scenario.env_fallback) <= 1
  /\ lifecycle (history Scenario.draft_ref
       (run_from (init_state default_config)
          (Scenario.run_once Scenario.env_fallback))) = true.
Proof.
  assert (conversions Scenario.draft_ref (init_state default_config)
            (Scenario.run_once Scenario.env_fallback) <= 1) as H.
  { vm_compute. apply le_n. }
  split; [exact H|].
  exact (proj2 (status_lifecycle default_config
                  (Scenario.run_once Scenario.env_fallback)
                  Scenario.draft_ref) H).
Defined.

(** C4, as stated, fails: a second convert request takes the finished
    record from [completed] back to [processing]. *)
Lemma reconvert_leaves_terminal :
  history Scenario.draft_ref
    (run_from (init_state default_config) (Scenario.run_twice Scenario.env_ok))
  = [uploaded; processing; completed; processing]
  /\ lifecycle (history Scenario.draft_ref
        (run_from (init_state default_config)
           (Scenario.run_twice Scenario.env_ok))) = false.
Proof. split; vm_compute; reflexivity. Qed.

(** ** The claims *)

(** C1: the fallback run. In the scenario the template file exists and the
    primary run exits with 43. The agent then makes exactly one more run
    and returns the output path when it exits with 0; but the command of
    that run is the primary one without its [--template] word only: the
    path of the template stays behind as an argument, so the command is not
    the invocation minus the template flag. *)
Theorem fallback_keeps_template_path :
  let c := default_config in
  let input_path := PathLib.Path Scenario.draft_path in
  let r := PDFAgent.convert_to_ieee_format Scenario.env_fallback
             Scenario.draft_path None (init_state c) in
  r.1 = Ok Scenario.draft_pdf
  /\ invocations r.2
     = [PDFAgent.build_cmd Scenario.env_fallback c input_path Scenario.draft_pdf;
        ["pandoc"; Scenario.draft_path; "-o"; Scenario.draft_pdf;
         "--pdf-engine"; "xelatex"; "ieee_template_proper.tex"]
        ++ PDFAgent.ieee_options ++ ["--standalone"; "--toc"; "--number-sections"]]
  /\ PDFAgent.invocation_minus_template_flag c input_path Scenario.draft_pdf
     = ["pandoc"; Scenario.draft_path; "-o"; Scenario.draft_pdf;
        "--pdf-engine"; "xelatex"]
       ++ PDFAgent.ieee_options ++ ["--standalone"; "--toc"; "--number-sections"]
  /\ PDFAgent.cmd_without_template
       (PDFAgent.build_cmd Scenario.env_fallback c input_path Scenario.draft_pdf)
     <> PDFAgent.invocation_minus_template_flag c input_path Scenario.draft_pdf.
Proof.
  cbv zeta. split; [vm_compute; reflexivity|].
  split; [vm_compute; reflexivity|].
  split; [vm_compute; reflexivity|].
  vm_compute. discriminate.
Qed.

(** Whatever the world, a failed primary run is followed by exactly one
    run of the filtered command, whose exit code decides the result. *)
Lemma fallback_runs_once env input s rc err :
  mkdir_ok env = true ->
  let c := config s in
  let out := PDFAgent.default_output_file c (PathLib.Path input) in
  let cmd := PDFAgent.build_cmd env c (PathLib.Path input) out in
  subprocess_run env 0 cmd = Exit rc err -> rc <> 0%Z ->
  exists res s',
    PDFAgent.convert_to_ieee_format env input None s = (Ok res, s')
    /\ invocations s' = invocations s ++ [cmd; PDFAgent.cmd_without_template cmd]
    /\ (forall rc' err', subprocess_run env 1 (PDFAgent.cmd_without_template cmd)
                         = Exit rc' err' ->
          res = if (rc' =? 0)%Z then out else "").
Proof.
  intros Hmk c out cmd H0 Hrc.
  destruct (convert_primary_fails env input s rc err Hmk H0 Hrc) as (s' & Hr & Hi).
  do 2 eexists. split; [exact Hr|]. split; [exact Hi|].
  intros rc' err' H1. fold c out cmd. by rewrite H1.
Qed.

(** When no template argument was added and no other argument begins with
    [--template], the filtered command is the primary command again. *)
Lemma fallback_without_template env c input_path out :
  PDFAgent.template_args env c = [] ->
  PDFAgent.cmd_without_template
    (PDFAgent.invocation_minus_template_flag c input_path out)
  = PDFAgent.invocation_minus_template_flag c input_path out ->
  PDFAgent.cmd_without_template (PDFAgent.build_cmd env c input_path out)
  = PDFAgent.invocation_minus_template_flag c input_path out.
Proof.
  intros Ht Hf. unfold PDFAgent.build_cmd. rewrite Ht. exact Hf.
Qed.

(** C2: the path of the finished job. The converter succeeds at once for
    [draft.md], whose output file is [draft_pdf]; the output directory also
    holds a newer PDF of another job. The record is completed, but its
    [pdf_path], and the one the event carries, is the other file. *)
Theorem pdf_path_is_newest_pdf :
  let s := App.final (init_state default_config)
             (Scenario.run_once Scenario.env_newer_pdf) in
  PDFAgent.default_output_file default_config (PathLib.Path Scenario.draft_path)
  = Scenario.draft_pdf
  /\ PDFAgent.converter_succeeds Scenario.env_newer_pdf default_config
       Scenario.draft_path = true
  /\ (status <$> lookup_file Scenario.draft_ref s) = Some completed
  /\ (pdf_path <$> lookup_file Scenario.draft_ref s)
     = Some (Some (Some Scenario.other_pdf))
  /\ (completed_at <$> lookup_file Scenario.draft_ref s)
     = Some (Some "2025-10-13T10:15:00")
  /\ (ev_pdf_path <$> last (events s)) = Some (Some (Some Scenario.other_pdf))
  /\ (ev_status <$> last (events s)) = Some completed.
Proof. cbv zeta. repeat split; vm_compute; reflexivity. Qed.

(** What a successful job does in general, when [process_file] answers
    [True] and the creation times of the listed PDFs can be read: the
    record is completed, [completed_at] is set, and [pdf_path] and the
    event carry the newest PDF of the output directory. *)
Lemma completed_job env sid r l s fi :
  lookup_file r s = Some fi ->
  file_processed env (config s) (filepath fi)
    (default (JBool true) (assoc "send_email" l))
    (default JNull (assoc "email_recipient" l)) = true ->
  ctime_raises env (glob_pdf env (output_directory (config s))) = None ->
  let p := latest (glob_pdf env (output_directory (config s))) in
  exists s' fi',
    process_conversion env sid r (JObj l) s = (Ok tt, s')
    /\ lookup_file r s' = Some fi'
    /\ status fi' = completed /\ pdf_path fi' = Some p
    /\ completed_at fi' = Some (now env)
    /\ last (events s')
       = Some (status_event sid fi completed
                 "Conversion completed successfully!" (Some p)).
Proof.
  intros Hf Hok Hct p.
  destruct (job_dict env sid r l s) as (s' & -> & Hs & _ & _ & He & _).
  rewrite Hf in Hs, He. simpl in Hs, He. rewrite Hok in Hs, He.
  unfold job_outcome in Hs. unfold final_event in He. rewrite Hct in Hs, He.
  eexists s', _. split; [done|].
  split; [eapply lookup_file_written; [exact Hs|exact Hf]|].
  repeat split. rewrite He. by rewrite last_app.
Qed.

(** The [except] block catches whatever the guarded block raises: for any
    block at all, the job returns normally with the record failed, the
    text of the exception in [error] and a [failed] event published. *)
Section Boundary.

Variable block : M unit.
Variables (sid : string) (r : FileRef).

Lemma boundary_catches s e s1 f1 :
  block s = (Raise e, s1) -> lookup_file r s1 = Some f1 ->
  exists s' f',
    try_except block (process_conversion_handler sid r) s = (Ok tt, s')
    /\ lookup_file r s' = Some f'
    /\ status f' = failed /\ error f' = Some (exn_str e)
    /\ filename f' = filename f1
    /\ last (events s')
       = Some {| ev_session_id := sid; ev_filename := filename f1;
                 ev_status := failed;
                 ev_message := "Conversion error: " +:+ exn_str e;
                 ev_pdf_path := None |}.
Proof.
  intros Hb Hf. unfold try_except. rewrite Hb.
  destruct (handler_effect sid r e s1) as (s' & -> & Hs & _ & _ & _ & He & _).
  exists s', (job_error e f1).
  split; [done|]. split.
  { by apply (lookup_file_written r _ s1). }
  repeat split. rewrite He, Hf. by rewrite last_snoc.
Qed.

End Boundary.

(** C3: the job boundary. A job whose record exists always returns
    normally and leaves the record completed or failed, never processing;
    and when its guarded block raises an exception, the record is failed,
    [error] holds the text of the exception and the last event published
    is the [failed] event of the record. *)
Theorem job_boundary env sid r o s fi :
  lookup_file r s = Some fi ->
  (exists s' fi',
     process_conversion env sid r o s = (Ok tt, s')
     /\ lookup_file r s' = Some fi'
     /\ terminal (status fi') = true)
  /\ forall e s1,
       process_conversion_body env sid r o s = (Raise e, s1) ->
       exists s' fi',
         process_conversion env sid r o s = (Ok tt, s')
         /\ lookup_file r s' = Some fi'
         /\ status fi' = failed /\ error fi' = Some (exn_str e)
         /\ last (events s')
            = Some {| ev_session_id := sid; ev_filename := filename fi;
                      ev_status := failed;
                      ev_message := "Conversion error: " +:+ exn_str e;
                      ev_pdf_path := None |}.
Proof.
  intros Hf. split.
  - destruct (process_conversion_effect env sid r o s) as (s' & Hr & Hs & _).
    rewrite Hf in Hs. simpl in Hs.
    exists s', (job_effect env (config s) fi o fi). split; [done|]. split.
    + by apply (lookup_file_written r _ s).
    + apply job_effect_terminal.
  - intros e s1 Hb.
    assert (lookup_file r s1 = Some fi) as Hf1.
    { destruct o as [| | | | |l];
        try (rewrite body_nondict in Hb by discriminate;
             injection Hb as _ <-; exact Hf).
      destruct (body_dict env sid r l s)
        as (s0 & Hs0 & _ & _ & _ & _ & _ & _ & Hb').
      rewrite Hb' in Hb.
      destruct (if file_processed _ _ _ _ _ then _ else _) as [e0|]; [|done].
      injection Hb as _ <-. unfold lookup_file. by rewrite Hs0. }
    destruct (boundary_catches _ sid r s e s1 fi Hb Hf1)
      as (s' & f' & Hr & Hf' & Hst & Her & _ & Hev).
    exists s', f'. split; [exact Hr|]. by repeat split.
Qed.

(** A job whose options are [null] raises in its guarded block, and ends
    failed with the text of the exception. *)
Lemma job_boundary_witness :
  let s := Scenario.processing_state Scenario.env_ok in
  exists fi e s1 s' fi',
    lookup_file Scenario.draft_ref s = Some fi
    /\ process_conversion_body Scenario.env_ok "s1" Scenario.draft_ref JNull s
       = (Raise e, s1)
    /\ process_conversion Scenario.env_ok "s1" Scenario.draft_ref JNull s
       = (Ok tt, s')
    /\ lookup_file Scenario.draft_ref s' = Some fi'
    /\ status fi' = failed
    /\ error fi' = Some "'NoneType' object has no attribute 'get'".
Proof.
  cbv zeta.
  assert (exists fi, lookup_file Scenario.draft_ref
            (Scenario.processing_state Scenario.env_ok) = Some fi) as [fi Hf].
  { eexists. vm_compute. reflexivity. }
  assert (exists s1, process_conversion_body Scenario.env_ok "s1"
            Scenario.draft_ref JNull (Scenario.processing_state Scenario.env_ok)
            = (Raise (no_get JNull), s1)) as [s1 Hb].
  { eexists. apply body_nondict. discriminate. }
  destruct (proj2 (job_boundary Scenario.env_ok "s1" Scenario.draft_ref JNull
                     _ fi Hf) _ _ Hb) as (s' & fi' & Hr & Hf' & Hst & Her & _).
  exists fi, (no_get JNull), s1, s', fi'. by repeat split.
Defined.

(** C5, as amended. After the job of a record whose [pdf_path] no job
    has written, [pdf_path] is set exactly when the record is completed
    and the output directory listed at least one PDF; a failed record has
    no [pdf_path]. *)
Theorem pdf_path_after_job env sid r o s fi :
  lookup_file r s = Some fi -> pdf_path fi = None ->
  exists s' fi',
    process_conversion env sid r o s = (Ok tt, s')
    /\ lookup_file r s' = Some fi'
    /\ terminal (status fi') = true
    /\ (pdf_path_set fi' = true
        <-> status fi' = completed
            /\ glob_pdf env (output_directory (config s)) <> [])
    /\ (status fi' = failed -> pdf_path fi' = None).
Proof.
  intros Hf Hp.
  destruct (process_conversion_effect env sid r o s) as (s' & Hr & Hs & _).
  rewrite Hf in Hs. simpl in Hs.
  exists s', (job_effect env (config s) fi o fi). split; [done|]. split.
  { by apply (lookup_file_written r _ s). }
  split; [apply job_effect_terminal|].
  unfold job_effect, job_outcome, job_error, pdf_path_set.
  destruct o as [| | | | |l]; simpl; rewrite ?Hp;
    try (split; [split; [done|by intros [? _]]|done]).
  destruct (file_processed _ _ _ _ _); simpl; rewrite ?Hp.
  - destruct (ctime_raises env _) as [e|]; simpl; rewrite ?Hp.
    + split; [|done]. split; [done|]. by intros [? _].
    + split; [|done]. unfold latest.
      destruct (glob_pdf env (output_directory (config s))) as [|x pdfs]; simpl.
      * split; [done|]. by intros [_ ?].
      * split; [|done]. intros _. by split.
  - split; [|done]. split; [done|]. by intros [? _].
Qed.

(** The job of the scenario, where the converter succeeds and the output
    directory lists the PDF. *)
Lemma pdf_path_after_job_witness :
  let s := Scenario.processing_state Scenario.env_ok in
  exists fi s' fi',
    lookup_file Scenario.draft_ref s = Some fi /\ pdf_path fi = None
    /\ process_conversion Scenario.env_ok "s1" Scenario.draft_ref
         (JObj [("send_email", JBool false)]) s = (Ok tt, s')
    /\ lookup_file Scenario.draft_ref s' = Some fi'
    /\ (pdf_path_set fi' = true
        <-> status fi' = completed
            /\ glob_pdf Scenario.env_ok (output_directory (config s)) <> []).
Proof.
  cbv zeta.
  assert (exists fi, lookup_file Scenario.draft_ref
            (Scenario.processing_state Scenario.env_ok) = Some fi
            /\ pdf_path fi = None) as (fi & Hf & Hp).
  { eexists. split; vm_compute; reflexivity. }
  destruct (pdf_path_after_job Scenario.env_ok "s1" Scenario.draft_ref
              (JObj [("send_email", JBool false)]) _ fi Hf Hp)
    as (s' & fi' & Hr & Hf' & _ & Hiff & _).
  exists fi, s', fi'.
  split; [exact Hf|]. split; [exact Hp|]. split; [exact Hr|].
  split; [exact Hf'|exact Hiff].
Defined.

(** C5, as stated, fails: the job completes while the output directory
    lists no PDF, and the completed record has [pdf_path] written as
    [None]. *)
Lemma completed_without_pdf_path :
  let s := App.final (init_state default_config)
             (Scenario.run_once Scenario.env_no_pdf) in
  (status <$> lookup_file Scenario.draft_ref s) = Some completed
  /\ (pdf_path <$> lookup_file Scenario.draft_ref s) = Some (Some None)
  /\ (pdf_path_set <$> lookup_file Scenario.draft_ref s) = Some false.
Proof. cbv zeta. repeat split; vm_compute; reflexivity. Qed.

(** Why the record must not have been converted before: a second job
    that fails leaves the [pdf_path] of the first on the failed record. *)
Lemma failed_with_earlier_pdf_path :
  let s := App.final (init_state default_config)
             (Scenario.run_twice Scenario.env_ok
              ++ [(Scenario.env_fail, App.OpRunThread 0)]) in
  (status <$> lookup_file Scenario.draft_ref s) = Some failed
  /\ (pdf_path <$> lookup_file Scenario.draft_ref s)
     = Some (Some (Some Scenario.draft_pdf)).
Proof. cbv zeta. split; vm_compute; reflexivity. Qed.

Lemma all_credentials_present e :
  PDFAgent.all_credentials e = true -> PDFAgent.missing_key e = None.
Proof.
  unfold PDFAgent.all_credentials, PDFAgent.missing_key.
  by destruct (username e), (password e), (to_email e).
Qed.

(** C6, as amended: the dispatcher and the job. The converter succeeds
    and the options ask for the email (or do not say); a recipient in the
    options comes with a [to_email] in the configuration, and the creation
    times of the listed PDFs can be read. Then [process_file] answers
    [True] and the job ends completed, whatever the SMTP server does and
    whatever else the email section holds or lacks; the dispatcher was
    called for the output file, and a missing key, an incomplete
    configuration or an SMTP failure is in the log, as an error, a warning
    or an error. *)
Theorem email_outcome_ignored env sid r l s fi :
  lookup_file r s = Some fi ->
  truthy (default (JBool true) (assoc "send_email" l)) = true ->
  PDFAgent.converter_succeeds env (config s) (filepath fi) = true ->
  (truthy (default JNull (assoc "email_recipient" l)) = true ->
   is_Some (to_email (email (config s)))) ->
  ctime_raises env (glob_pdf env (output_directory (config s))) = None ->
  let flag := default (JBool true) (assoc "send_email" l) in
  let rcpt := default JNull (assoc "email_recipient" l) in
  let out := PDFAgent.default_output_file (config s) (PathLib.Path (filepath fi)) in
  let e := dispatch_config rcpt (config s) in
  (PDFAgent.process_file env (filepath fi) flag rcpt s).1 = Ok true
  /\ exists s' fi',
       process_conversion env sid r (JObj l) s = (Ok tt, s')
       /\ lookup_file r s' = Some fi'
       /\ status fi' = completed
       /\ config s' = config s
       /\ dispatches s' = dispatches s ++ [requested_dispatch out rcpt (config s)]
       /\ (forall k, PDFAgent.missing_key e = Some k ->
             In (ERROR, "Email failed: " +:+ exn_str (KeyError k)) (log s'))
       /\ (PDFAgent.missing_key e = None -> PDFAgent.all_credentials e = false ->
           In (WARNING, "Incomplete email configuration.") (log s'))
       /\ (forall ex, PDFAgent.all_credentials e = true ->
             smtp_send env out e = Some ex ->
             In (ERROR, "Email failed: " +:+ exn_str ex) (log s')).
Proof.
  intros Hf Hflag Hok Hto Hct flag rcpt out e.
  assert (file_processed env (config s) (filepath fi) flag rcpt = true) as Hfp.
  { unfold file_processed, override_raises. rewrite Hok. fold flag in Hflag.
    rewrite Hflag. simpl. fold rcpt in Hto.
    destruct (truthy rcpt); [|done]. destruct (Hto eq_refl) as [t ->]. done. }
  split.
  - destruct (process_file_total env (filepath fi) flag rcpt s) as (s1 & -> & _).
    simpl. by rewrite Hfp.
  - destruct (job_dict env sid r l s) as (s' & -> & Hs & _ & Hc & _ & Hd & Hl & _).
    rewrite Hf in Hs, Hd, Hl. simpl in Hs, Hd, Hl.
    fold flag rcpt in Hs, Hd, Hl. rewrite Hfp in Hs, Hd, Hl.
    fold flag in Hflag. rewrite Hflag in Hd, Hl. simpl in Hd, Hl.
    specialize (Hl eq_refl). unfold job_outcome in Hs. rewrite Hct in Hs.
    eexists s', _. split; [done|]. split.
    { eapply lookup_file_written; [exact Hs|exact Hf]. }
    split; [done|]. split; [done|]. split; [done|].
    fold out e in Hl. unfold PDFAgent.send_email_log in Hl. split; [|split].
    + intros k Hk. by rewrite Hk in Hl.
    + intros Hk Hi. by rewrite Hk, Hi in Hl.
    + intros ex Hi Hx. by rewrite (all_credentials_present e Hi), Hi, Hx in Hl.
Qed.

(** The job of the scenario with an account configured and the SMTP
    server down: the refusal is logged and the job completes. *)
Lemma email_outcome_ignored_witness :
  let s := App.final (init_state Scenario.mail_config)
             [(Scenario.env_smtp_down, Scenario.upload_draft);
              (Scenario.env_smtp_down, OpConvert (Scenario.convert_req None))] in
  exists fi s' fi',
    lookup_file Scenario.draft_ref s = Some fi
    /\ process_conversion Scenario.env_smtp_down "s1" Scenario.draft_ref
         (JObj []) s = (Ok tt, s')
    /\ lookup_file Scenario.draft_ref s' = Some fi'
    /\ status fi' = completed
    /\ In (ERROR, "Email failed: Connection refused") (log s').
Proof.
  cbv zeta.
  set (s := App.final (init_state Scenario.mail_config)
              [(Scenario.env_smtp_down, Scenario.upload_draft);
               (Scenario.env_smtp_down, OpConvert (Scenario.convert_req None))]).
  assert (exists fi, lookup_file Scenario.draft_ref s = Some fi
            /\ PDFAgent.converter_succeeds Scenario.env_smtp_down (config s)
                 (filepath fi) = true
            /\ PDFAgent.all_credentials (dispatch_config JNull (config s)) = true
            /\ smtp_send Scenario.env_smtp_down
                 (PDFAgent.default_output_file (config s)
                    (PathLib.Path (filepath fi)))
                 (dispatch_config JNull (config s))
               = Some (SMTPException "Connection refused"))
    as (fi & Hf & Hok & Hcr & Hsm).
  { eexists. repeat split; vm_compute; reflexivity. }
  destruct (proj2 (email_outcome_ignored Scenario.env_smtp_down "s1"
                     Scenario.draft_ref [] s fi Hf eq_refl Hok
                     ltac:(discriminate) eq_refl))
    as (s' & fi' & Hr & Hf' & Hst & _ & _ & _ & _ & Hlog).
  exists fi, s', fi'. split; [exact Hf|]. split; [exact Hr|].
  split; [exact Hf'|]. split; [exact Hst|].
  exact (Hlog _ Hcr Hsm).
Defined.

(** C6, as stated, fails: the converter succeeds, the email is asked for
    and the dispatcher is called, but the PDF that [glob] listed is gone
    when the job asks for its creation time; the exception is caught at
    the job boundary and the job ends failed. *)
Lemma vanished_pdf_fails_job :
  let s := App.final (init_state default_config)
             (Scenario.run_with Scenario.env_pdf_vanishes None) in
  PDFAgent.converter_succeeds Scenario.env_pdf_vanishes default_config
    Scenario.draft_path = true
  /\ (PDFAgent.process_file Scenario.env_pdf_vanishes Scenario.draft_path
        (JBool true) JNull (init_state default_config)).1 = Ok true
  /\ dispatches s
     = [{| d_attachment := Scenario.draft_pdf;
           d_subject := "Your IEEE Formatted PDF is Ready";
           d_recipient := Some (JStr "") |}]
  /\ (status <$> lookup_file Scenario.draft_ref s) = Some failed
  /\ (error <$> lookup_file Scenario.draft_ref s)
     = Some (Some "[Errno 2] No such file or directory: 'output/20251013_101500_draft_IEEE.pdf'").
Proof. cbv zeta. repeat split; vm_compute; reflexivity. Qed.

(** C7: a convert request for a file name the session does not hold.
    For a request that carries both identifiers, the reply is the 404
    error; no event is published, no thread is started, every file record
    and every session that existed is as it was (the session named may
    have been created, empty). *)
Theorem convert_unknown_file env req sid fname s :
  c_session_id req = Some sid -> c_filename req = Some fname ->
  sid <> "" -> fname <> "" ->
  (forall x, sessions s !! sid = Some x -> find_file fname (files x) = None) ->
  exists s',
    convert_file env req s
    = (Ok (error_response 404 "File not found in session"), s')
    /\ events s' = events s
    /\ threads s' = threads s
    /\ (forall r, lookup_file r s' = lookup_file r s)
    /\ (forall k x, sessions s !! k = Some x -> sessions s' !! k = Some x)
    /\ (forall k x, sessions s' !! k = Some x ->
          sessions s !! k = Some x \/ (k = sid /\ files x = [])).
Proof.
  intros Hsid Hfn Hs Hn Hx.
  unfold convert_file, get_session. munfold. rewrite Hsid, Hfn. simpl.
  apply truthy_str_true in Hs as ->. apply truthy_str_true in Hn as ->. simpl.
  destruct (sessions s !! sid) as [x|] eqn:Hlook; simpl.
  - rewrite (Hx x eq_refl). eexists. split; [reflexivity|].
    repeat split; auto.
  - eexists. split; [reflexivity|]. simpl. repeat split.
    + intros r. unfold lookup_file. simpl. by apply file_at_insert_fresh.
    + intros k x Hk. rewrite lookup_insert_ne; [done|]. congruence.
    + intros k x. rewrite lookup_insert. destruct (decide (sid = k)) as [<-|].
      * intros [= <-]. by right.
      * by left.
Qed.

(** A convert request for an unknown session and file: the 404 reply. *)
Lemma convert_unknown_file_witness :
  exists s',
    convert_file Scenario.env_ok
      {| c_session_id := Some "no-such-session"; c_filename := Some "nofile.md";
         c_options := None |}
      (init_state default_config)
    = (Ok (error_response 404 "File not found in session"), s')
    /\ events s' = [] /\ threads s' = [].
Proof.
  destruct (convert_unknown_file Scenario.env_ok
              {| c_session_id := Some "no-such-session";
                 c_filename := Some "nofile.md"; c_options := None |}
              "no-such-session" "nofile.md" (init_state default_config)
              eq_refl eq_refl ltac:(discriminate) ltac:(discriminate)
              ltac:(intros x Hx; vm_compute in Hx; discriminate))
    as (s' & Hr & He & Ht & _).
  exists s'. by repeat split.
Defined.

(** An accepted convert request marks its record and starts one thread
    with the options of the request, [{}] when it has none. *)
Lemma convert_accepted env req r s :
  target req s = Some r ->
  step env (OpConvert req) s
  = set_threads (fun l => l ++
      [{| job_session_id := r.1; job_file := r;
          job_options := default (JObj []) (c_options req) |}])
      (set_sessions (write_file r (set_status processing)) s).
Proof.
  unfold target, step, convert_file, get_session, update_file. munfold.
  set (sid := default "" (c_session_id req)).
  set (fname := default "" (c_filename req)).
  destruct (truthy_str sid); simpl; [|done].
  destruct (truthy_str fname); simpl; [|done].
  destruct (sessions s !! sid) as [x|]; simpl; [|done].
  destruct (find_file fname (files x)) as [i|]; simpl; [|done].
  by intros [= <-].
Qed.

(** The default of [send_email] in general. A convert request without
    options, or whose options object has no [send_email] key, is accepted
    for the record [r]; when its job runs and the converter succeeds, the
    job has called the dispatcher, once, for the output file, provided a
    recipient in the options comes with a [to_email] in the
    configuration. *)
Lemma default_is_to_send env env' req r s fi :
  target req s = Some r -> lookup_file r s = Some fi ->
  (c_options req = None
   \/ exists l, c_options req = Some (JObj l) /\ assoc "send_email" l = None) ->
  PDFAgent.converter_succeeds env' (config s) (filepath fi) = true ->
  (forall l, c_options req = Some (JObj l) ->
     truthy (default JNull (assoc "email_recipient" l)) = true ->
     is_Some (to_email (email (config s)))) ->
  let s1 := step env (OpConvert req) s in
  let s2 := step env' (OpRunThread (length (threads s))) s1 in
  exists d,
    dispatches s1 = dispatches s
    /\ dispatches s2 = dispatches s ++ [d]
    /\ d_attachment d
       = PDFAgent.default_output_file (config s) (PathLib.Path (filepath fi)).
Proof.
  intros Ht Hf Ho Hok Hov s1 s2. subst s2 s1.
  rewrite (convert_accepted env req r s Ht).
  assert (exists l, default (JObj []) (c_options req) = JObj l
                    /\ assoc "send_email" l = None
                    /\ override_raises (config s) (JBool true)
                         (default JNull (assoc "email_recipient" l)) = false)
    as (l & -> & Hl & Hov').
  { unfold override_raises.
    destruct Ho as [Ho|(l & Ho & Hl)]; rewrite Ho; simpl; [by exists []|].
    exists l. split; [done|]. split; [done|].
    destruct (truthy (default JNull (assoc "email_recipient" l))) eqn:Hr; [|done].
    destruct (Hov l Ho Hr) as [t ->]. done. }
  match goal with |- context [step env' ?op ?st] =>
    remember (step env' op st) as s2 eqn:Hs2
  end.
  unfold step in Hs2. cbn [threads set_threads set_sessions] in Hs2.
  rewrite list_lookup_middle in Hs2 by done.
  cbn [job_session_id job_file job_options] in Hs2.
  match type of Hs2 with context [process_conversion env' ?a ?b (JObj ?c) ?st] =>
    destruct (job_dict env' a b c st) as (s' & Hb & _ & _ & _ & _ & Hd & _);
    assert (lookup_file r st = Some (set_status processing fi)) as Hf1
  end.
  { unfold lookup_file. simpl. rewrite file_at_write, decide_True by done.
    fold (lookup_file r s). by rewrite Hf. }
  rewrite Hb in Hs2. simpl in Hs2. subst s2.
  rewrite Hf1 in Hd. simpl in Hd. rewrite Hl in Hd. simpl in Hd.
  unfold file_processed in Hd. rewrite Hok, Hov' in Hd. simpl in Hd.
  eexists. split; [done|]. split; [exact Hd|]. done.
Qed.

(** C8: the default of [send_email], and where it is lost. The
    configuration file gives the account and no [to_email]; the convert
    request names a recipient and does not mention [send_email]. The
    converter succeeds, the job does take the branch of [send_email] and
    reads the configured [to_email] to put it back later: the read raises
    [KeyError], [process_file] answers [False], the dispatcher is never
    called and the record ends failed. With a [to_email] in the
    configuration the same request has the dispatcher called, for the
    recipient of the request. *)
Theorem recipient_without_configured_one :
  let s := App.final (init_state Scenario.account_only)
             (Scenario.run_with Scenario.env_ok Scenario.to_reader) in
  let s' := App.final (init_state Scenario.mail_config)
              (Scenario.run_with Scenario.env_ok Scenario.to_reader) in
  PDFAgent.converter_succeeds Scenario.env_ok Scenario.account_only
    Scenario.draft_path = true
  /\ length (invocations s) = 1
  /\ dispatches s = []
  /\ In (ERROR, "File processing error: 'to_email'") (log s)
  /\ (status <$> lookup_file Scenario.draft_ref s) = Some failed
  /\ (error <$> lookup_file Scenario.draft_ref s) = Some (Some "Conversion failed")
  /\ dispatches s'
     = [{| d_attachment := Scenario.draft_pdf;
           d_subject := "Your IEEE Formatted PDF is Ready";
           d_recipient := Some (JStr "reader@example.org") |}]
  /\ (status <$> lookup_file Scenario.draft_ref s') = Some completed.
Proof.
  cbv zeta. repeat split; try (vm_compute; reflexivity).
  vm_compute. tauto.
Qed.

(** C9: the download endpoint. The application file [app.py] sits next to
    the output directory; the name [../app.py] is joined to [output], the
    joined path exists, and the endpoint serves it: a file that is not
    inside the output directory. *)
Theorem download_serves_outside_output :
  (download_file Scenario.env_app_dir "../app.py" (init_state default_config)).1
  = Ok (RFile "output/../app.py")
  /\ PathLib.str (PathLib.normpath "output/../app.py") = "app.py"
  /\ PathLib.inside_dir "output" "output/../app.py" = false.
Proof. repeat split; vm_compute; reflexivity. Qed.

(** ** Dismissed updates *)

Lemma nodup_alter_files m k g :
  dismissed_nodup m -> dismissed_nodup (alter (set_files g) k m).
Proof.
  intros Hm k' x'. rewrite lookup_alter.
  destruct (decide (k = k')) as [->|]; [|apply Hm].
  destruct (m !! k') as [x|] eqn:Hx; simpl; [|done].
  intros [= <-]. simpl. by apply (Hm k').
Qed.

Lemma nodup_insert_fresh m k x :
  dismissed_nodup m -> dismissed_updates x = [] -> dismissed_nodup (<[k:=x]> m).
Proof.
  intros Hm Hx k' x'. rewrite lookup_insert.
  destruct (decide (k = k')) as [->|]; [|apply Hm].
  intros [= <-]. rewrite Hx. constructor.
Qed.

Lemma final_cons env op s l : final s ((env, op) :: l) = final (step env op s) l.
Proof. reflexivity. Qed.

Lemma dismissed_nodup_step env op s :
  dismissed_nodup (sessions s) -> dismissed_nodup (sessions (step env op s)).
Proof.
  intros Hm. destruct op as [req|req|k|fname|sid|req]; simpl.
  - unfold upload_file, get_session. munfold.
    destruct (up_too_large req); simpl; [done|].
    destruct (up_file req) as [fname|]; simpl; [|done].
    destruct (String.eqb fname ""); simpl; [done|].
    destruct (allowed_file fname); simpl; [|done].
    destruct (save_ok env); simpl; [|done].
    destruct (sessions s !! _) as [x|] eqn:Hx; simpl.
    + by apply nodup_alter_files.
    + apply nodup_alter_files. by apply nodup_insert_fresh.
  - unfold convert_file, get_session, update_file. munfold.
    destruct (truthy_str _); simpl; [|done].
    destruct (truthy_str _); simpl; [|done].
    destruct (sessions s !! _) as [x|] eqn:Hx; simpl.
    + destruct (find_file _ _); simpl; [|done]. by apply nodup_alter_files.
    + by apply nodup_insert_fresh.
  - destruct (threads s !! k) as [j|]; [|done].
    match goal with |- context [process_conversion env ?a ?b ?c ?st] =>
      destruct (process_conversion_effect env a b c st) as (s' & Hr & Hs' & _)
    end.
    rewrite Hr. simpl. rewrite Hs'. by apply nodup_alter_files.
  - destruct (download_outcomes env fname s) as (resp & s' & Hr & Hs' & _).
    rewrite Hr. simpl. by rewrite Hs'.
  - unfold get_session_info, get_session. munfold.
    destruct (sessions s !! sid) eqn:Hx; simpl; [done|].
    by apply nodup_insert_fresh.
  - unfold dismiss_update, get_session. munfold.
    set (sid := default "" (dm_session_id req)).
    set (uid := default "" (dm_update_id req)).
    destruct (truthy_str sid); simpl; [|done].
    destruct (truthy_str uid); simpl; [|done].
    destruct (sessions s !! sid) as [x|] eqn:Hx; simpl.
    + destruct (bool_decide (uid ∈ dismissed_updates x)) eqn:Hin; simpl; [done|].
      apply bool_decide_eq_false in Hin.
      intros k' x'. rewrite lookup_alter.
      destruct (decide (sid = k')) as [<-|]; [|apply Hm].
      rewrite Hx. simpl. intros [= <-]. simpl.
      apply NoDup_app. split; [by apply (Hm sid)|]. split.
      * intros u Hu Hu'. apply list_elem_of_singleton in Hu'. by subst.
      * apply NoDup_singleton.
    + intros k' x'. rewrite lookup_alter.
      destruct (decide (sid = k')) as [<-|].
      * rewrite lookup_insert_eq. simpl. intros [= <-]. simpl. apply NoDup_singleton.
      * rewrite lookup_insert_ne by done. apply Hm.
Qed.

Lemma dismissed_nodup_final l : forall s,
  dismissed_nodup (sessions s) -> dismissed_nodup (sessions (final s l)).
Proof.
  induction l as [|[env op] l IH]; intros s Hs; [done|].
  rewrite final_cons. apply IH. by apply dismissed_nodup_step.
Qed.

(** One accepted dismiss request leaves the id in the session's list. *)
Lemma dismiss_records env sid uid s :
  sid <> "" -> uid <> "" ->
  exists x,
    sessions (step env (OpDismiss {| dm_session_id := Some sid;
                                     dm_update_id := Some uid |}) s) !! sid
    = Some x
    /\ uid ∈ dismissed_updates x.
Proof.
  intros Hs Hu. simpl. unfold dismiss_update, get_session. munfold. simpl.
  apply truthy_str_true in Hs as ->. apply truthy_str_true in Hu as ->. simpl.
  destruct (sessions s !! sid) as [x|] eqn:Hx; simpl.
  - destruct (bool_decide (uid ∈ dismissed_updates x)) eqn:Hin; simpl.
    + apply bool_decide_eq_true in Hin. eauto.
    + rewrite lookup_alter_eq, Hx. simpl. eexists. split; [done|]. simpl.
      apply elem_of_app. right. by apply list_elem_of_singleton.
  - rewrite lookup_alter_eq, lookup_insert_eq. simpl. eexists. split; [done|].
    simpl. by apply list_elem_of_singleton.
Qed.

Lemma nodup_count_one (l : list string) u :
  NoDup l -> u ∈ l -> count_occ string_dec l u = 1.
Proof.
  intros Hn Hu. apply NoDup_ListNoDup in Hn. apply list_elem_of_In in Hu.
  by apply (proj1 (NoDup_count_occ' string_dec l) Hn).
Qed.

(** C10: dismissing is idempotent. In any state the server can reach,
    the same update id dismissed for the same session once, twice or more
    often is listed exactly once in the session's dismissed updates. *)
Theorem dismiss_idempotent c l envs sid uid :
  sid <> "" -> uid <> "" -> envs <> [] ->
  let req := {| dm_session_id := Some sid; dm_update_id := Some uid |} in
  let s' := final (final (init_state c) l) (dismissals req envs) in
  exists x,
    sessions s' !! sid = Some x
    /\ count_occ string_dec (dismissed_updates x) uid = 1.
Proof.
  intros Hs Hu He req s'. subst s'.
  assert (dismissed_nodup (sessions (final (init_state c) l))) as Hn.
  { apply dismissed_nodup_final. intros k x Hk. simpl in Hk.
    by rewrite lookup_empty in Hk. }
  revert Hn. generalize (final (init_state c) l) as s.
  induction envs as [|env envs IH]; [done|]. intros s Hn.
  unfold dismissals. cbn [List.map]. rewrite final_cons.
  pose proof (dismissed_nodup_step env (OpDismiss req) s Hn) as Hn1.
  destruct envs as [|env' envs].
  - simpl. destruct (dismiss_records env sid uid s Hs Hu) as (x & Hx & Hin).
    exists x. split; [done|]. apply nodup_count_one; [|done]. by apply (Hn1 sid).
  - apply (IH ltac:(done) _ Hn1).
Qed.

(** The update [v1.1.0] dismissed twice for session [s1]. *)
Lemma dismiss_idempotent_witness :
  exists x,
    sessions (final (init_state default_config)
                (dismissals Scenario.dismiss_req
                   [Scenario.env_ok; Scenario.env_ok])) !! "s1" = Some x
    /\ count_occ string_dec (dismissed_updates x) "v1.1.0" = 1.
Proof.
  exact (dismiss_idempotent default_config [] [Scenario.env_ok; Scenario.env_ok]
           "s1" "v1.1.0" ltac:(discriminate) ltac:(discriminate)
           ltac:(discriminate)).
Defined.


(** * Further properties of the two files *)

(** ** Loading the configuration *)

Lemma assoc_app k l l' :
  assoc k (l ++ l') = match assoc k l with Some v => Some v | None => assoc k l' end.
Proof.
  induction l as [|[k' v] l IH]; simpl; [done|].
  by destruct (String.eqb k k').
Qed.

Lemma backfill_cons kv d cfg :
  Loader.backfill (kv :: d) cfg
  = Loader.backfill d (if Loader.has_key kv.1 cfg then cfg else cfg ++ [kv]).
Proof. reflexivity. Qed.

Lemma backfill_extends d : forall cfg, exists added, Loader.backfill d cfg = cfg ++ added.
Proof.
  induction d as [|kv d IH]; intros cfg.
  - exists []. by rewrite app_nil_r.
  - rewrite backfill_cons. destruct (Loader.has_key kv.1 cfg).
    + apply IH.
    + destruct (IH (cfg ++ [kv])) as [added Ha]. exists (kv :: added).
      rewrite Ha. by rewrite <- app_assoc.
Qed.

Lemma backfill_assoc d : forall cfg k,
  assoc k (Loader.backfill d cfg)
  = match assoc k cfg with Some v => Some v | None => assoc k d end.
Proof.
  induction d as [|[k0 v0] d IH]; intros cfg k.
  - simpl. by destruct (assoc k cfg).
  - rewrite backfill_cons, IH. unfold Loader.has_key. cbn [fst].
    destruct (assoc k0 cfg) as [w|] eqn:Hk0.
    + destruct (assoc k cfg) eqn:Hk; [done|]. simpl.
      destruct (String.eqb_spec k k0) as [->|]; [congruence|done].
    + rewrite assoc_app. destruct (assoc k cfg) eqn:Hk; [done|]. simpl.
      by destruct (String.eqb k k0).
Qed.

(** X1: merging the defaults into a configuration file. The file's own
    entries come first and unchanged, every key of the file keeps the
    file's value, and a key the file lacks gets the default's value. Only
    whole top-level entries are filled in: a section the file has is
    returned as the file has it. *)
Theorem load_config_merges (d cfg : list (string * json)) :
  let loaded := (Loader.load_config d (Some cfg)).1.1 in
  (exists added, loaded = cfg ++ added)
  /\ (forall k, assoc k loaded
                = match assoc k cfg with Some v => Some v | None => assoc k d end)
  /\ (Loader.load_config d (Some cfg)).1.2 = Some cfg.
Proof.
  cbv zeta. simpl. split; [apply backfill_extends|]. split; [apply backfill_assoc|done].
Qed.

Lemma backfill_present d : forall cfg,
  (forall kv, In kv d -> Loader.has_key kv.1 cfg = true) ->
  Loader.backfill d cfg = cfg.
Proof.
  induction d as [|kv d IH]; intros cfg H; [done|].
  rewrite backfill_cons, (H kv) by (by left). apply IH. intros kv' Hin. apply H. by right.
Qed.

Lemma has_key_in (d : list (string * json)) kv : In kv d -> Loader.has_key kv.1 d = true.
Proof.
  unfold Loader.has_key. induction d as [|[k v] d IH]; simpl; [done|].
  intros [Heq|Hin].
  - subst kv. simpl. by rewrite String.eqb_refl.
  - destruct (String.eqb kv.1 k); [done|]. by apply IH.
Qed.

(** X2: the first start. When the file does not exist, the defaults are
    the configuration and are written to the file with a warning; loading
    the file that was written gives the defaults again and leaves the file
    alone. *)
Theorem load_config_creates_file (d : list (string * json)) :
  let first := Loader.load_config d None in
  first.1.1 = d /\ first.1.2 = Some d
  /\ first.2 = [(WARNING, "Created default config.json; please fill it in.")]
  /\ Loader.load_config d first.1.2 = (d, Some d, []).
Proof.
  cbv zeta. simpl. repeat split. unfold Loader.load_config.
  rewrite backfill_present; [done|]. apply has_key_in.
Qed.

(** ** The converter command *)

(** X3: the template flag. The command gets either no template argument
    or the pair [--template p] for a path [p] that exists; and when a
    template is configured but found neither as given nor under the working
    directory, no template is passed, the default template file included. *)
Theorem template_only_when_found (env : Env) (c : Config) :
  (PDFAgent.template_args env c = []
   \/ exists p, PDFAgent.template_args env c = ["--template"; p]
                /\ path_exists env p = true)
  /\ (forall t, template (pandoc c) = Some t -> t <> "" ->
        path_exists env (PathLib.str (PathLib.Path t)) = false ->
        path_exists env (PathLib.str (PathLib.div (PathLib.Path (cwd env)) t)) = false ->
        PDFAgent.template_args env c = []).
Proof.
  unfold PDFAgent.template_args. split.
  - destruct (template (pandoc c)) as [t|].
    + destruct (truthy_str t).
      * destruct (path_exists env (PathLib.str (PathLib.Path t))) eqn:E1; [eauto|].
        destruct (path_exists env (PathLib.str (PathLib.div _ t))) eqn:E2; eauto.
      * destruct (path_exists env _) eqn:E; eauto.
    + destruct (path_exists env _) eqn:E; eauto.
  - intros t -> Ht H1 H2. apply truthy_str_true in Ht as ->. by rewrite H1, H2.
Qed.

(** X4: the retry budget. A conversion never raises and runs the
    converter at most twice; not at all when the output directory cannot be
    made; once when the first run exits with 0, and once when the converter
    cannot be started ([subprocess.run] raises), which is not retried. *)
Theorem convert_run_budget (env : Env) (input : string) (s : State) :
  let c := config s in
  let out := PDFAgent.default_output_file c (PathLib.Path input) in
  let cmd := PDFAgent.build_cmd env c (PathLib.Path input) out in
  exists res s' runs,
    PDFAgent.convert_to_ieee_format env input None s = (Ok res, s')
    /\ invocations s' = invocations s ++ runs
    /\ length runs <= 2
    /\ (mkdir_ok env = false -> runs = [] /\ res = "")
    /\ (mkdir_ok env = true -> forall err,
          subprocess_run env 0 cmd = Exit 0 err -> runs = [cmd] /\ res = out)
    /\ (mkdir_ok env = true -> forall e,
          subprocess_run env 0 cmd = RunRaises e -> runs = [cmd] /\ res = "").
Proof.
  cbv zeta. unfold PDFAgent.convert_to_ieee_format. munfold. simpl.
  destruct (mkdir_ok env); simpl.
  2:{ exists "", (set_log (fun lg => lg ++ [(ERROR, "Pandoc conversion error: " +:+ "mkdir")]) s), [].
      simpl. rewrite app_nil_r. repeat split; try done; lia. }
  destruct (subprocess_run env 0 _) as [rc err|e] eqn:H0; simpl.
  2:{ do 2 eexists. eexists [_]. split; [reflexivity|]. simpl.
      repeat split; try done; try lia. }
  destruct (Z.eqb_spec rc 0) as [->|Hrc]; simpl.
  { do 2 eexists. eexists [_]. split; [reflexivity|]. simpl.
    repeat split; try done; try lia. }
  destruct (subprocess_run env 1 _) as [rc' err'|e]; simpl.
  - destruct (rc' =? 0)%Z; simpl; do 2 eexists; eexists [_; _];
      (split; [reflexivity|]); simpl; rewrite <- ?app_assoc; simpl;
      repeat split; try done; try lia; congruence.
  - do 2 eexists. eexists [_; _]. split; [reflexivity|]. simpl.
    rewrite <- ?app_assoc. simpl.
    repeat split; try done; try lia; congruence.
Qed.


(** X5: an explicit output file. When the caller names a non-empty
    output file, the command is built for that file and the result is that
    file, and the output directory plays no part: the conversion succeeds
    even where the directory cannot be made. *)
Theorem convert_explicit_output (env : Env) (input o : string) (s : State) err :
  o <> "" ->
  subprocess_run env 0 (PDFAgent.build_cmd env (config s) (PathLib.Path input) o)
  = Exit 0 err ->
  exists s',
    PDFAgent.convert_to_ieee_format env input (Some o) s = (Ok o, s')
    /\ invocations s' = invocations s
         ++ [PDFAgent.build_cmd env (config s) (PathLib.Path input) o].
Proof.
  intros Ho H0. unfold PDFAgent.convert_to_ieee_format. munfold. simpl.
  apply truthy_str_true in Ho as ->. simpl. rewrite H0. simpl.
  eexists. split; [reflexivity|]. done.
Qed.

Lemma convert_explicit_output_witness :
  exists s',
    PDFAgent.convert_to_ieee_format env_no_mkdir "paper.md" (Some "/tmp/paper.pdf")
      (init_state default_config) = (Ok "/tmp/paper.pdf", s')
    /\ length (invocations s') = 1.
Proof.
  destruct (convert_explicit_output env_no_mkdir "paper.md" "/tmp/paper.pdf"
              (init_state default_config) "" ltac:(discriminate) eq_refl)
    as (s' & Hr & Hi).
  exists s'. split; [exact Hr|]. by rewrite Hi.
Defined.

(** X6: [process_file] as a whole. It never raises. It answers whether
    the converter succeeded, with one exception: when the email is asked
    for with a recipient and the configuration has no [to_email] to put
    back later, it answers [False] although the converter succeeded. It
    calls [send_email] once when its answer is [True] and the email was
    asked for, and not at all otherwise; the message goes to the recipient
    of the request when there is one and to the configured one when not;
    and afterwards the configuration, the recipient included, is what it
    was. *)
Theorem process_file_dispatches (env : Env) (input : string)
    (flag rcpt : json) (s : State) :
  let conv := PDFAgent.converter_succeeds env (config s) input in
  let no_recipient_to_restore :=
    truthy flag && truthy rcpt
    && bool_decide (to_email (email (config s)) = None) in
  let ok := conv && negb no_recipient_to_restore in
  let out := PDFAgent.default_output_file (config s) (PathLib.Path input) in
  exists s',
    PDFAgent.process_file env input flag rcpt s = (Ok ok, s')
    /\ config s' = config s
    /\ sessions s' = sessions s /\ threads s' = threads s /\ events s' = events s
    /\ dispatches s' = dispatches s ++
         (if ok && truthy flag
          then [{| d_attachment := out;
                   d_subject := "Your IEEE Formatted PDF is Ready";
                   d_recipient := if truthy rcpt then Some rcpt
                                  else to_email (email (config s)) |}]
          else [])
    /\ (conv = true -> no_recipient_to_restore = true ->
        In (ERROR, "File processing error: 'to_email'") (log s')).
Proof.
  cbv zeta.
  destruct (process_file_total env input flag rcpt s)
    as (s' & Hr & Hd & _ & Hk & Hs & Ht & He & Hc).
  exists s'. by repeat split.
Qed.

(** X7: the dispatcher. [send_email] never raises; it answers [True]
    exactly when user name, password and recipient are all set and the SMTP
    exchange completes; with one of the three empty the SMTP server makes no
    difference to the answer, a warning is logged; with the key of one of
    the three missing the answer is [False] and the [KeyError] is logged;
    the configuration is not changed. *)
Theorem send_email_answer (env : Env) (a subj : string) (s : State) :
  let e := email (config s) in
  exists s',
    PDFAgent.send_email env a subj s
    = (Ok (PDFAgent.all_credentials e
           && bool_decide (smtp_send env a e = None)), s')
    /\ config s' = config s
    /\ (PDFAgent.missing_key e = None -> PDFAgent.all_credentials e = false ->
        log s' = log s ++ [(WARNING, "Incomplete email configuration.")])
    /\ (forall k, PDFAgent.missing_key e = Some k ->
          PDFAgent.all_credentials e = false
          /\ log s' = log s ++ [(ERROR, "Email failed: '" +:+ k +:+ "'")]).
Proof.
  cbv zeta. unfold PDFAgent.send_email. munfold. simpl.
  destruct (PDFAgent.missing_key _) as [k|] eqn:Hk; simpl.
  { assert (PDFAgent.all_credentials (email (config s)) = false) as Hf.
    { destruct (PDFAgent.all_credentials _) eqn:Hc; [|done].
      apply all_credentials_present in Hc. congruence. }
    rewrite Hf. eexists. split; [reflexivity|]. split; [done|].
    split; [done|]. by intros ? [= <-]. }
  destruct (PDFAgent.all_credentials _) eqn:Hc; simpl.
  - destruct (smtp_send env a _) as [ex|]; simpl;
      eexists; (split; [reflexivity|]); by repeat split.
  - eexists. split; [reflexivity|]. by repeat split.
Qed.

(** X8: the command line tool. Its exit status is 0 exactly when the
    converter succeeded, whatever became of the email, which it always asks
    for, addressed to the configured recipient. *)
Theorem main_exit_status (env : Env) (input : string) (s : State) :
  let ok := PDFAgent.converter_succeeds env (config s) input in
  (main env input s).1 = (if ok then 0 else 1)%Z
  /\ config (main env input s).2 = config s
  /\ dispatches (main env input s).2
     = dispatches s ++
       (if ok then [{| d_attachment :=
                         PDFAgent.default_output_file (config s) (PathLib.Path input);
                       d_subject := "Your IEEE Formatted PDF is Ready";
                       d_recipient := to_email (email (config s)) |}]
        else []).
Proof.
  cbv zeta. unfold main.
  destruct (process_file_total env input (JBool true) JNull s)
    as (s' & -> & Hd & _ & _ & _ & _ & _ & Hc).
  unfold file_processed, override_raises in *. simpl in Hd.
  rewrite !andb_true_r in *. unfold requested_dispatch in Hd. simpl in Hd.
  destruct (PDFAgent.converter_succeeds env (config s) input); simpl; by repeat split.
Qed.

(** ** File names *)

Lemma append_cons a b x : String a b +:+ x = String a (b +:+ x).
Proof. reflexivity. Qed.

Lemma append_empty x : "" +:+ x = x.
Proof. reflexivity. Qed.

Lemma length_append (a b : string) :
  String.length (a +:+ b) = String.length a + String.length b.
Proof. induction a as [|c a IH]; [done|]. rewrite append_cons. simpl. by rewrite IH. Qed.

Lemma rfind_cons c a s :
  PathLib.rfind c (String a s)
  = match PathLib.rfind c s with
    | Some i => Some (S i)
    | None => if Ascii.eqb a c then Some 0 else None
    end.
Proof. reflexivity. Qed.

Lemma rfind_cons_none c a s :
  PathLib.rfind c (String a s) = None <->
  PathLib.rfind c s = None /\ Ascii.eqb a c = false.
Proof.
  rewrite rfind_cons. destruct (PathLib.rfind c s); [split; [done|by intros [? _]]|].
  destruct (Ascii.eqb a c); split; try done. by intros [_ ?].
Qed.

Lemma rfind_append_none c a b :
  PathLib.rfind c (a +:+ b) = None <->
  PathLib.rfind c a = None /\ PathLib.rfind c b = None.
Proof.
  induction a as [|x a IH].
  - rewrite append_empty. simpl. tauto.
  - rewrite append_cons, !rfind_cons_none, IH. tauto.
Qed.

Lemma ascii_lower_keeps (c a : ascii) :
  c = "."%char \/ c = "/"%char ->
  Ascii.eqb (ascii_lower a) c = Ascii.eqb a c.
Proof.
  intros [->| ->]; destruct a as [[] [] [] [] [] [] [] []]; reflexivity.
Qed.

(** The two cases of [lower] on a string that is not empty: the bytes of
    the Kelvin sign in front, or one byte lower-cased. *)
Lemma lower_step a s :
  (exists t, String a s = String "226" (String "132" (String "170" t))
             /\ lower (String a s) = String "k" (lower t))
  \/ lower (String a s) = String (ascii_lower a) (lower s).
Proof.
  destruct s as [|b [|c t]]; try (right; reflexivity).
  change (lower (String a (String b (String c t))))
    with (if Ascii.eqb a "226" && Ascii.eqb b "132" && Ascii.eqb c "170"
          then String "k" (lower t)
          else String (ascii_lower a) (lower (String b (String c t)))).
  destruct (Ascii.eqb_spec a "226") as [->|]; [|by right].
  destruct (Ascii.eqb_spec b "132") as [->|]; [|by right].
  destruct (Ascii.eqb_spec c "170") as [->|]; [|by right].
  left. by exists t.
Qed.

(** A dot or a slash in a string is still there after [lower]. *)
Lemma rfind_lower_none c : c = "."%char \/ c = "/"%char ->
  forall n s, String.length s <= n ->
    PathLib.rfind c (lower s) = None -> PathLib.rfind c s = None.
Proof.
  intros Hc. induction n as [|n IH]; intros s Hn.
  { destruct s; [done|simpl in Hn; lia]. }
  destruct s as [|a s]; [done|].
  destruct (lower_step a s) as [(t & Heq & ->)| ->].
  - rewrite Heq. injection Heq as -> ->. simpl in Hn.
    rewrite !rfind_cons_none. intros [Ht _].
    rewrite (IH t) by (done || lia).
    by destruct Hc as [-> | ->].
  - simpl in Hn. rewrite !rfind_cons_none, ascii_lower_keeps by done.
    intros [Hs Ha]. split; [|done]. apply IH; [lia|done].
Qed.

Lemma rfind_after_base base e :
  PathLib.rfind "." e = None ->
  PathLib.rfind "." (base +:+ String "." e) = Some (String.length base).
Proof.
  intros He. induction base as [|a base IH].
  - rewrite append_empty, rfind_cons, He. reflexivity.
  - rewrite append_cons, rfind_cons, IH. reflexivity.
Qed.

Lemma split_no_slash s : PathLib.rfind "/" s = None -> PathLib.split "/" s = [s].
Proof.
  induction s as [|a s IH]; [done|].
  rewrite rfind_cons_none. intros [Hs Ha]. simpl. rewrite Ha, (IH Hs). done.
Qed.

Lemma substring_all s : String.substring 0 (String.length s) s = s.
Proof. induction s as [|a s IH]; simpl; [done|]. by rewrite IH. Qed.

Lemma substring_skip base ext :
  String.substring (String.length base) (String.length ext) (base +:+ ext) = ext.
Proof.
  induction base as [|a base IH].
  - rewrite append_empty. apply substring_all.
  - rewrite append_cons. simpl. apply IH.
Qed.

(** The last component of a name without a slash is the name. *)
Lemma name_no_slash s :
  PathLib.rfind "/" s = None -> s <> "" -> s <> "." ->
  PathLib.name (PathLib.Path s) = s.
Proof.
  intros Hs H1 H2. unfold PathLib.name, PathLib.Path. simpl.
  rewrite (split_no_slash s Hs). simpl. unfold PathLib.component.
  destruct (String.eqb_spec s ""); [done|]. destruct (String.eqb_spec s "."); [done|].
  reflexivity.
Qed.

(** An allowed extension, written in any case: a dot and then letters. *)
Lemma allowed_extension_shape ext :
  lower ext ∈ ALLOWED_EXTENSIONS ->
  exists e, ext = String "." e /\ PathLib.rfind "." e = None
            /\ PathLib.rfind "/" ext = None /\ 1 <= String.length e.
Proof.
  intros Hin.
  assert (PathLib.rfind "/" (lower ext) = None
          /\ exists e', lower ext = String "." e' /\ PathLib.rfind "." e' = None
                        /\ e' <> "") as (Hsl & e' & He' & Hd & Hl).
  { unfold ALLOWED_EXTENSIONS in Hin.
    repeat (apply elem_of_cons in Hin as [->|Hin]);
      [| | | |by apply elem_of_nil in Hin];
      (split; [reflexivity|]); eexists; (split; [reflexivity|]);
      (split; [reflexivity|]); discriminate. }
  destruct ext as [|a e]; [done|].
  destruct (lower_step a e) as [(t & _ & Hk)|Hstep];
    [rewrite Hk in He'; discriminate|].
  rewrite Hstep in He'. injection He' as Ha He.
  assert (a = "."%char) as ->.
  { apply Ascii.eqb_eq. rewrite <- (ascii_lower_keeps "." a) by (by left).
    rewrite Ha. reflexivity. }
  exists e. split; [done|]. split.
  - apply (rfind_lower_none "." (or_introl eq_refl) (String.length e)); [done|].
    by rewrite He.
  - split.
    + apply (rfind_lower_none "/" (or_intror eq_refl) (String.length (String "." e)));
        [done|exact Hsl].
    + destruct e; [by subst e'|simpl; lia].
Qed.

(** X9: accepted names. A name made of a base and one of the allowed
    extensions, the extension in any letter case, is an allowed file; the
    base is not empty, has no slash and does not begin with a dot (a name
    of dots only before the extension is read differently by different
    versions of [pathlib]). *)
Theorem allowed_file_accepts (base ext : string) :
  base <> "" -> no_char "/" base -> PathLib.startswith base "." = false ->
  lower ext ∈ ALLOWED_EXTENSIONS ->
  allowed_file (base +:+ ext) = true.
Proof.
  intros Hb Hs _ Hin.
  destruct (allowed_extension_shape ext Hin) as (e & -> & Hd & Hsl & Hl).
  unfold allowed_file, PathLib.suffix.
  assert (1 <= String.length base) as Hlb by (destruct base; [done|simpl; lia]).
  rewrite name_no_slash.
  - rewrite (rfind_after_base base e Hd).
    rewrite length_append. simpl String.length.
    replace (String.length base + S (String.length e) - String.length base)
      with (String.length (String "." e)) by (simpl; lia).
    rewrite substring_skip.
    destruct (Nat.ltb_spec 0 (String.length base)); [|lia].
    destruct (Nat.ltb_spec (String.length base)
                (String.length base + S (String.length e) - 1)); [|lia].
    simpl andb. cbv iota. by apply bool_decide_eq_true_2.
  - apply rfind_append_none. by split.
  - intros H. apply (f_equal String.length) in H. rewrite length_append in H.
    simpl in H. lia.
  - intros H. apply (f_equal String.length) in H. rewrite length_append in H.
    simpl in H. lia.
Qed.

Lemma allowed_file_accepts_witness : allowed_file ("Thesis" +:+ ".TeX") = true.
Proof.
  apply (allowed_file_accepts "Thesis" ".TeX").
  - discriminate.
  - reflexivity.
  - reflexivity.
  - vm_compute. repeat constructor.
Defined.


Lemma split_nonempty c s : PathLib.split c s <> [].
Proof.
  destruct s as [|a s]; simpl; [done|].
  destruct (Ascii.eqb a c); [done|]. by destruct (PathLib.split c s).
Qed.

Lemma split_no_dot s :
  PathLib.rfind "." s = None ->
  Forall (fun w => PathLib.rfind "." w = None) (PathLib.split "/" s).
Proof.
  induction s as [|a s IH]; simpl PathLib.split.
  - intros _. by repeat constructor.
  - rewrite rfind_cons_none. intros [Hs Ha]. specialize (IH Hs).
    destruct (Ascii.eqb a "/").
    + by constructor.
    + pose proof (split_nonempty "/" s) as Hne.
      destruct (PathLib.split "/" s) as [|w ws]; [done|].
      inversion IH as [|? ? Hw Hws]; subst. constructor; [|done].
      apply rfind_cons_none. by split.
Qed.

Lemma split_dotless s : dotless s -> Forall dotless (PathLib.split "/" s).
Proof.
  destruct s as [|a s].
  - intros _. repeat constructor.
  - intros Hd.
    assert (PathLib.rfind "." s = None) as Hs.
    { destruct Hd as [Hd|Hd]; rewrite rfind_cons in Hd;
        by destruct (PathLib.rfind "." s). }
    pose proof (split_no_dot s Hs) as Hall.
    assert (Forall dotless (PathLib.split "/" s)) as Hall'.
    { eapply Forall_impl; [exact Hall|]. intros w Hw. by left. }
    simpl PathLib.split. destruct (Ascii.eqb a "/").
    + constructor; [by left|done].
    + pose proof (split_nonempty "/" s) as Hne.
      destruct (PathLib.split "/" s) as [|w ws]; [done|].
      inversion Hall as [|? ? Hw Hws]; subst. inversion Hall' as [|? ? _ Hws']; subst.
      constructor; [|done]. unfold dotless. rewrite rfind_cons, Hw.
      destruct (Ascii.eqb a "."); auto.
Qed.

Lemma last_Forall {A} (P : A -> Prop) (l : list A) d :
  P d -> Forall P l -> P (List.last l d).
Proof.
  intros Hd. induction l as [|x l IH]; [done|].
  intros Hl. inversion Hl; subst. destruct l; [done|]. by apply IH.
Qed.

(** X10: rejected names. A name without a dot is not an allowed file,
    and neither is a name whose only dot is its first character, such as
    [.md] or [.tex]: an extension alone is no suffix. *)
Theorem allowed_file_rejects (fname : string) :
  dotless fname -> allowed_file fname = false.
Proof.
  intros Hd. unfold allowed_file, PathLib.suffix.
  assert (dotless (PathLib.name (PathLib.Path fname))) as Hn.
  { unfold PathLib.name, PathLib.Path. cbn [PathLib.tail].
    apply last_Forall; [by left|].
    apply List.Forall_forall. intros w Hw. apply filter_In in Hw as [Hw _].
    revert w Hw. apply List.Forall_forall. by apply split_dotless. }
  destruct Hn as [-> | ->]; reflexivity.
Qed.

Lemma allowed_file_rejects_witness :
  allowed_file ".md" = false /\ allowed_file "README" = false.
Proof.
  split.
  - apply (allowed_file_rejects ".md"). right. reflexivity.
  - apply (allowed_file_rejects "README"). left. reflexivity.
Defined.

(** ** Looking a file up *)

(** X11: the lookup by name. [find_file] answers the position of the
    first record with the name, and answers [None] exactly when no record
    of the list has the name. *)
Theorem find_file_first (fname : string) (l : list FileRecord) :
  (forall i, find_file fname l = Some i <->
     (exists f, l !! i = Some f /\ filename f = fname)
     /\ forall j f', j < i -> l !! j = Some f' -> filename f' <> fname)
  /\ (find_file fname l = None <-> forall f, f ∈ l -> filename f <> fname).
Proof.
  induction l as [|f0 l [IH1 IH2]].
  - split.
    + intros i. simpl. split; [done|]. by intros [[f [Hf _]] _].
    + simpl. split; [|done]. intros _ f Hf. by apply elem_of_nil in Hf.
  - cbn [find_file]. destruct (String.eqb_spec (filename f0) fname) as [He|Hne].
    + split.
      * intros i. split.
        -- intros [= <-]. split; [by exists f0|]. intros j f' Hj. lia.
        -- intros [_ Hfirst]. destruct i as [|i]; [done|].
           exfalso. by apply (Hfirst 0 f0); [lia| |].
      * split; [done|]. intros H. exfalso. apply (H f0); [by left|done].
    + split.
      * intros [|i].
        -- split.
           ++ by destruct (find_file fname l).
           ++ intros [[f [Hf Hn]] _]. simpl in Hf. congruence.
        -- assert (S <$> find_file fname l = Some (S i)
                   <-> find_file fname l = Some i) as ->.
           { destruct (find_file fname l); simpl; split; congruence. }
           rewrite IH1. simpl. split; intros [Hex Hfirst]; (split; [done|]).
           ++ intros [|j] f' Hj; simpl; [by intros [= <-]|]. apply Hfirst. lia.
           ++ intros j f' Hj Hf'. apply (Hfirst (S j) f'); [lia|done].
      * assert (S <$> find_file fname l = None <-> find_file fname l = None) as ->.
        { by destruct (find_file fname l). }
        rewrite IH2. split.
        -- intros H f Hf. apply elem_of_cons in Hf as [->|Hf]; [done|]. by apply H.
        -- intros H f Hf. apply H. by right.
Qed.

(** ** The newest PDF *)

Lemma fold_later_first l : forall x,
  let best := fold_left later l x in
  exists l1 l2,
    x :: l = l1 ++ best :: l2
    /\ Forall (fun y => (y.2 < best.2)%Z) l1
    /\ Forall (fun y => (y.2 <= best.2)%Z) l2.
Proof.
  induction l as [|y l IH]; intros x; cbv zeta.
  - exists [], []. repeat split; constructor.
  - cbn [fold_left]. destruct (IH (later x y)) as (l1 & l2 & Hsplit & Hlt & Hle).
    unfold later in *. destruct (Z.ltb_spec x.2 y.2) as [Hxy|Hxy].
    + exists (x :: l1), l2. split; [simpl; by rewrite Hsplit|]. split; [|done].
      constructor; [|done].
      destruct l1 as [|z l1]; simpl in Hsplit; injection Hsplit as Hy _.
      * rewrite <- Hy. done.
      * subst z. inversion Hlt; subst. lia.
    + destruct l1 as [|z l1]; simpl in Hsplit; injection Hsplit as Hx Hl.
      * exists [], (y :: l2). split; [simpl; by rewrite <- Hx, <- Hl|].
        split; [constructor|]. constructor; [|done]. rewrite <- Hx. done.
      * subst z. exists (x :: y :: l1), l2. split; [simpl; by rewrite <- Hl|].
        split; [|done]. inversion Hlt; subst. constructor; [done|].
        constructor; [lia|done].
Qed.

(** X12: the newest file. [latest] answers [None] exactly for the empty
    listing; otherwise it answers the first entry of the listing whose
    creation time is the greatest: every entry before it is older, none
    after it is newer. *)
Theorem latest_is_first_newest (pdf_files : list (string * Z)) :
  (latest pdf_files = None <-> pdf_files = [])
  /\ forall p, latest pdf_files = Some p ->
       exists l1 t l2,
         pdf_files = l1 ++ (p, t) :: l2
         /\ Forall (fun y => (y.2 < t)%Z) l1
         /\ Forall (fun y => (y.2 <= t)%Z) l2.
Proof.
  unfold latest. destruct pdf_files as [|x l]; [by split|].
  split; [by split|]. intros p [= <-].
  destruct (fold_later_first l x) as (l1 & l2 & Hsplit & Hlt & Hle).
  exists l1, (fold_left later l x).2, l2.
  by rewrite <- surjective_pairing.
Qed.

Lemma latest_is_first_newest_witness :
  exists l1 t l2,
    [("output/a.pdf", 5%Z); ("output/b.pdf", 9%Z); ("output/c.pdf", 9%Z)]
    = l1 ++ ("output/b.pdf", t) :: l2
    /\ Forall (fun y => (y.2 < t)%Z) l1
    /\ Forall (fun y => (y.2 <= t)%Z) l2.
Proof.
  exact (proj2 (latest_is_first_newest
                  [("output/a.pdf", 5%Z); ("output/b.pdf", 9%Z); ("output/c.pdf", 9%Z)])
               "output/b.pdf" eq_refl).
Defined.


(** ** Sessions *)

(** X13: get or create. [get_session] leaves a known session and the
    whole store as they are; for an unknown id it stores a session with
    that id, active, without files and without dismissed updates, and
    leaves the other sessions alone. Asking again, at any later time,
    changes nothing and answers the same session. *)
Theorem get_session_creates_once (env env' : Env) (sid : string) (s : State) :
  exists x s1,
    get_session env sid s = (Ok x, s1)
    /\ sessions s1 !! sid = Some x
    /\ (forall y, sessions s !! sid = Some y -> x = y /\ s1 = s)
    /\ (sessions s !! sid = None ->
        x = {| id := sid; created_at := now env; files := [];
               sess_status := "active"; dismissed_updates := [] |})
    /\ (forall k, k <> sid -> sessions s1 !! k = sessions s !! k)
    /\ get_session env' sid s1 = (Ok x, s1)
    /\ get_session_info env' sid s1 = (Ok x, s1).
Proof.
  unfold get_session_info, get_session. munfold.
  destruct (sessions s !! sid) as [y|] eqn:Hy.
  - exists y, s. rewrite Hy. repeat split; try done; congruence.
  - eexists _, _. split; [reflexivity|]. simpl. rewrite lookup_insert_eq.
    repeat split; try done. intros k Hk. by rewrite lookup_insert_ne.
Qed.

(** ** Uploading *)

(** X14: a refused upload. When the body is too large, the request has
    no file, an empty file name or a name that is not allowed, or the file
    cannot be saved, the reply is an error and the store is as it was: no
    session is made for the session id of the request. The error is 500
    exactly when an exception was caught (the body too large, or the save
    failed), and 400 otherwise. *)
Theorem upload_refused (env : Env) (req : UploadRequest) (s : State) :
  upload_accepts env req = false ->
  exists code msg s',
    upload_file env req s = (Ok (error_response code msg), s')
    /\ sessions s' = sessions s /\ threads s' = threads s /\ events s' = events s
    /\ (code = 400 \/ code = 500)
    /\ (code = 500 <->
        up_too_large req = true
        \/ exists fname, up_file req = Some fname /\ fname <> ""
                         /\ allowed_file fname = true /\ save_ok env = false).
Proof.
  unfold upload_accepts, upload_file. munfold.
  destruct (up_too_large req); simpl.
  { intros _. do 3 eexists. split; [reflexivity|]. repeat split; auto. }
  destruct (up_file req) as [fname|]; simpl.
  2:{ intros _. do 3 eexists. split; [reflexivity|]. repeat split; auto.
      - intros [=]. - by intros [?|(? & ? & _)]. }
  destruct (String.eqb_spec fname "") as [->|Hne]; simpl.
  { intros _. do 3 eexists. split; [reflexivity|]. repeat split; auto.
    - intros [=]. - by intros [?|(? & [= <-] & ? & _)]. }
  destruct (allowed_file fname) eqn:Ha; simpl.
  2:{ intros _. do 3 eexists. split; [reflexivity|]. repeat split; auto.
      - intros [=]. - intros [?|(? & [= <-] & _ & ? & _)]; congruence. }
  destruct (save_ok env) eqn:Hsave; simpl; [done|].
  intros _. do 3 eexists. split; [reflexivity|]. repeat split; auto.
  intros _. right. by exists fname.
Qed.

Lemma upload_refused_witness :
  exists code msg s',
    upload_file Scenario.env_ok
      {| up_too_large := false; up_file := Some "notes.txt";
         up_session_id := Some "s1" |}
      (init_state default_config) = (Ok (error_response code msg), s')
    /\ sessions s' = ∅.
Proof.
  destruct (upload_refused Scenario.env_ok
              {| up_too_large := false; up_file := Some "notes.txt";
                 up_session_id := Some "s1" |}
              (init_state default_config) eq_refl)
    as (code & msg & s' & Hr & Hs & _).
  exists code, msg, s'. split; [exact Hr|exact Hs].
Defined.

(** X15: an accepted upload. The reply is the success document with the
    stored file name (time stamp, underscore, secured name) and the session
    id (the one of the request, a new one when it has none); one record, in
    status [uploaded], is added at the end of that session's files, the
    session being made first if need be; nothing else in the store changes,
    no thread starts and no event is published. *)
Theorem upload_accepted (env : Env) (req : UploadRequest) (s : State) fname :
  up_file req = Some fname -> upload_accepts env req = true ->
  let sid := default (uuid4 env) (up_session_id req) in
  let rec := uploaded_record env fname in
  let before := default [] (files <$> sessions s !! sid) in
  exists s' x',
    upload_file env req s
    = (Ok (RJson 200 [("success", JBool true); ("filename", JStr (filename rec));
                      ("session_id", JStr sid);
                      ("message", JStr ("File " +:+ fname
                                        +:+ " uploaded successfully"))]), s')
    /\ sessions s' !! sid = Some x'
    /\ files x' = before ++ [rec]
    /\ (forall y, sessions s !! sid = Some y ->
          dismissed_updates x' = dismissed_updates y /\ created_at x' = created_at y)
    /\ (forall k, k <> sid -> sessions s' !! k = sessions s !! k)
    /\ threads s' = threads s /\ events s' = events s /\ config s' = config s.
Proof.
  intros Hf Ha. cbv zeta. unfold upload_accepts in Ha. rewrite Hf in Ha.
  unfold upload_file, get_session. munfold. rewrite Hf.
  destruct (up_too_large req); [done|]. simpl in *.
  destruct (String.eqb fname ""); [done|]. simpl in *.
  destruct (allowed_file fname); [|done]. simpl in *. rewrite Ha. simpl.
  set (sid := default (uuid4 env) (up_session_id req)).
  destruct (sessions s !! sid) as [y|] eqn:Hy; simpl.
  - eexists _, _. split; [reflexivity|]. simpl. rewrite lookup_alter_eq, Hy. simpl.
    split; [reflexivity|]. split; [done|]. split; [by intros ? [= <-]|].
    split; [|done]. intros k Hk. by rewrite lookup_alter_ne.
  - eexists _, _. split; [reflexivity|]. simpl.
    rewrite lookup_alter_eq, lookup_insert_eq. simpl.
    split; [reflexivity|]. split; [done|]. split; [done|].
    split; [|done]. intros k Hk. rewrite lookup_alter_ne, lookup_insert_ne; done.
Qed.

Lemma upload_accepted_witness :
  exists s' x',
    (upload_file Scenario.env_ok
       {| up_too_large := false; up_file := Some "draft.md";
         up_session_id := None |}
       (init_state default_config)).2 = s'
    /\ sessions s' !! uuid4 Scenario.env_ok = Some x'
    /\ files x' = [uploaded_record Scenario.env_ok "draft.md"].
Proof.
  destruct (upload_accepted Scenario.env_ok
              {| up_too_large := false; up_file := Some "draft.md";
         up_session_id := None |}
              (init_state default_config) "draft.md" eq_refl eq_refl)
    as (s' & x' & Hr & Hs & Hfiles & _).
  exists s', x'. split; [by rewrite Hr|]. split; [exact Hs|exact Hfiles].
Defined.


(** ** Converting *)

(** The record [find_file] points at has the name. *)
Lemma find_file_name fname l : forall i,
  find_file fname l = Some i -> exists f, l !! i = Some f /\ filename f = fname.
Proof.
  induction l as [|f0 l IH]; intros i; simpl; [done|].
  destruct (String.eqb_spec (filename f0) fname) as [He|Hne].
  - intros [= <-]. by exists f0.
  - destruct (find_file fname l) as [k|]; simpl; [|done].
    intros [= <-]. simpl. by apply IH.
Qed.

(** An accepted upload appends its record to the session. *)
Lemma upload_appends env req s fname :
  up_file req = Some fname -> upload_accepts env req = true ->
  let sid := default (uuid4 env) (up_session_id req) in
  exists x',
    sessions (upload_file env req s).2 !! sid = Some x'
    /\ files x' = default [] (files <$> sessions s !! sid)
                  ++ [uploaded_record env fname].
Proof.
  intros Hf Ha. cbv zeta. unfold upload_accepts in Ha. rewrite Hf in Ha.
  unfold upload_file, get_session. munfold. rewrite Hf.
  destruct (up_too_large req); [done|]. simpl in *.
  destruct (String.eqb fname ""); [done|]. simpl in *.
  destruct (allowed_file fname); [|done]. simpl in *. rewrite Ha. simpl.
  set (sid := default (uuid4 env) (up_session_id req)).
  destruct (sessions s !! sid) as [y|] eqn:Hy; simpl.
  - eexists. rewrite lookup_alter_eq, Hy. simpl. by split.
  - eexists. rewrite lookup_alter_eq, lookup_insert_eq. simpl. by split.
Qed.

Lemma find_file_app_last fname l f :
  filename f = fname -> is_Some (find_file fname (l ++ [f])).
Proof.
  intros Hf. induction l as [|f0 l IH]; simpl.
  - rewrite Hf, String.eqb_refl. by eexists.
  - destruct (String.eqb (filename f0) fname); [by eexists|].
    destruct IH as [i ->]. by eexists.
Qed.

(** X16: from upload to convert. The file name and the session id that
    an accepted upload returns are accepted by a convert request that
    follows, provided the session id is not empty: the request resolves to
    the first record of the session with that name (the one just uploaded,
    or an earlier one with the same stored name), and is never answered
    with the 404 error. *)
Theorem upload_then_convert (env env' : Env) (req : UploadRequest) (s : State)
    fname (o : option json) :
  up_file req = Some fname -> upload_accepts env req = true ->
  let sid := default (uuid4 env) (up_session_id req) in
  let stored := filename (uploaded_record env fname) in
  sid <> "" ->
  let s1 := step env (OpUpload req) s in
  let creq := {| c_session_id := Some sid; c_filename := Some stored;
                 c_options := o |} in
  exists i f,
    target creq s1 = Some (sid, i)
    /\ lookup_file (sid, i) s1 = Some f /\ filename f = stored
    /\ (convert_file env' creq s1).1
       = Ok (RJson 200 [("success", JBool true);
                        ("message", JStr "Conversion started");
                        ("session_id", JStr sid)]).
Proof.
  intros Hf Ha sid stored Hsid s1 creq.
  destruct (upload_appends env req s fname Hf Ha) as (x' & Hx' & Hfiles).
  fold sid in Hx', Hfiles. change (upload_file env req s).2 with s1 in Hx'.
  generalize dependent s1. intros s' Hx'.
  destruct (find_file_app_last stored
              (default [] (files <$> sessions s !! sid))
              (uploaded_record env fname) eq_refl) as [i Hi].
  rewrite <- Hfiles in Hi.
  assert (stored <> "") as Hst.
  { unfold stored, uploaded_record. cbn [filename].
    intros H. apply (f_equal String.length) in H.
    rewrite !length_append in H. simpl in H. lia. }
  assert (target creq s' = Some (sid, i)) as Ht.
  { unfold target, creq. cbn [c_session_id c_filename from_option Datatypes.id].
    apply truthy_str_true in Hsid as ->. apply truthy_str_true in Hst as ->.
    simpl. rewrite Hx'. simpl. by rewrite Hi. }
  destruct (find_file_name stored (files x') i Hi) as (f & Hlf & Hfn).
  exists i, f. split; [exact Ht|]. split.
  { unfold lookup_file, file_at. simpl. rewrite Hx'. simpl. exact Hlf. }
  split; [exact Hfn|].
  unfold convert_file, get_session, update_file. munfold.
  unfold creq. cbn [c_session_id c_filename c_options from_option Datatypes.id].
  apply truthy_str_true in Hsid as ->. apply truthy_str_true in Hst as ->.
  simpl. rewrite Hx'. simpl. by rewrite Hi.
Qed.

Lemma upload_then_convert_witness :
  let req := {| up_too_large := false; up_file := Some "draft.md";
         up_session_id := Some "s1" |} in
  let s1 := step Scenario.env_ok (OpUpload req) (init_state default_config) in
  exists i f,
    target (Scenario.convert_req None) s1 = Some ("s1", i)
    /\ lookup_file ("s1", i) s1 = Some f /\ filename f = Scenario.draft.
Proof.
  cbv zeta.
  destruct (upload_then_convert Scenario.env_ok Scenario.env_ok
              {| up_too_large := false; up_file := Some "draft.md";
         up_session_id := Some "s1" |}
              (init_state default_config) "draft.md" None eq_refl eq_refl
              ltac:(discriminate))
    as (i & f & Ht & Hf & Hn & _).
  exists i, f. split; [exact Ht|]. split; [exact Hf|exact Hn].
Defined.

(** X17: a convert request without its identifiers. When the session id
    or the file name is missing or empty, the reply is the 400 error and
    the state is untouched: no session is made, nothing is logged. *)
Theorem convert_requires_identifiers (env : Env) (req : ConvertRequest) (s : State) :
  default "" (c_session_id req) = "" \/ default "" (c_filename req) = "" ->
  convert_file env req s
  = (Ok (error_response 400 "Session ID and filename required"), s).
Proof.
  intros H. unfold convert_file. munfold.
  destruct H as [-> | ->]; simpl; [done|].
  by destruct (truthy_str (default "" (c_session_id req))).
Qed.

Lemma convert_requires_identifiers_witness :
  convert_file Scenario.env_ok
    {| c_session_id := Some "s1"; c_filename := None; c_options := None |}
    (init_state default_config)
  = (Ok (error_response 400 "Session ID and filename required"),
     init_state default_config).
Proof.
  apply (convert_requires_identifiers Scenario.env_ok
           {| c_session_id := Some "s1"; c_filename := None; c_options := None |}).
  right. reflexivity.
Defined.

(** X18: an accepted convert request. The reply is the success document
    at once; the record the request resolves to gets status [processing]
    and keeps its other fields; one thread is started, with the session id,
    that record and the options of the request ([{}] when there are none);
    no event is published and the converter is not run before the thread
    runs. *)
Theorem convert_starts_job (env : Env) (req : ConvertRequest) (s : State)
    (r : FileRef) (f : FileRecord) :
  target req s = Some r -> lookup_file r s = Some f ->
  exists s',
    convert_file env req s
    = (Ok (RJson 200 [("success", JBool true);
                      ("message", JStr "Conversion started");
                      ("session_id", JStr r.1)]), s')
    /\ lookup_file r s' = Some (set_status processing f)
    /\ (forall r', r' <> r -> lookup_file r' s' = lookup_file r' s)
    /\ threads s' = threads s ++
         [{| job_session_id := r.1; job_file := r;
             job_options := default (JObj []) (c_options req) |}]
    /\ events s' = events s /\ invocations s' = invocations s
    /\ dispatches s' = dispatches s /\ config s' = config s.
Proof.
  intros Ht Hf. pose proof (convert_accepted env req r s Ht) as Hstep.
  unfold step in Hstep.
  assert (exists resp, (convert_file env req s).1 = Ok resp
            /\ resp = RJson 200 [("success", JBool true);
                                 ("message", JStr "Conversion started");
                                 ("session_id", JStr r.1)]) as (resp & Hresp & ->).
  { revert Ht. unfold target, convert_file, get_session, update_file. munfold.
    destruct (truthy_str _); simpl; [|done].
    destruct (truthy_str _); simpl; [|done].
    destruct (sessions s !! _) as [x|]; simpl; [|done].
    destruct (find_file _ _) as [i|]; simpl; [|done].
    intros [= <-]. eexists. split; reflexivity. }
  destruct (convert_file env req s) as [res s'] eqn:Hc. simpl in Hstep, Hresp.
  subst res s'. eexists. split; [reflexivity|].
  split. { unfold lookup_file. simpl. rewrite file_at_write, decide_True by done.
           fold (lookup_file r s). by rewrite Hf. }
  split. { intros r' Hr'. unfold lookup_file. simpl.
           by rewrite file_at_write, decide_False. }
  by repeat split.
Qed.

Lemma convert_starts_job_witness :
  let s := App.final (init_state default_config)
             [(Scenario.env_ok, Scenario.upload_draft)] in
  exists s',
    (convert_file Scenario.env_ok (Scenario.convert_req None) s).2 = s'
    /\ length (threads s') = 1 /\ events s' = [].
Proof.
  cbv zeta.
  assert (exists f, lookup_file Scenario.draft_ref
            (App.final (init_state default_config)
               [(Scenario.env_ok, Scenario.upload_draft)]) = Some f) as [f Hf].
  { eexists. vm_compute. reflexivity. }
  assert (target (Scenario.convert_req None)
            (App.final (init_state default_config)
               [(Scenario.env_ok, Scenario.upload_draft)])
          = Some Scenario.draft_ref) as Ht by (vm_compute; reflexivity).
  destruct (convert_starts_job Scenario.env_ok (Scenario.convert_req None) _
              Scenario.draft_ref f Ht Hf)
    as (s' & Hr & _ & _ & Hth & Hev & _).
  exists s'. split; [by rewrite Hr|]. split; [by rewrite Hth|by rewrite Hev].
Defined.


(** ** The job *)

(** X19: the events of a job. A job publishes exactly two events, in
    this order: [processing], then the event of its outcome. Both carry the
    session id given to the job and the file name of the record; the second
    carries the status the record ends with, and a [pdf_path] entry exactly
    when that status is [completed], equal to the record's. *)
Theorem job_publishes_two_events (env : Env) (sid : string) (r : FileRef)
    (o : json) (s : State) (fi : FileRecord) :
  lookup_file r s = Some fi ->
  exists s' fi' e1 e2,
    process_conversion env sid r o s = (Ok tt, s')
    /\ lookup_file r s' = Some fi'
    /\ events s' = events s ++ [e1; e2]
    /\ e1 = {| ev_session_id := sid; ev_filename := filename fi;
               ev_status := processing; ev_message := "Starting conversion...";
               ev_pdf_path := None |}
    /\ ev_session_id e2 = sid /\ ev_filename e2 = filename fi
    /\ ev_status e2 = status fi'
    /\ ev_pdf_path e2 = (if bool_decide (status fi' = completed)
                         then pdf_path fi' else None).
Proof.
  intros Hf.
  destruct o as [| | | | |l].
  1-5: unfold process_conversion, try_except;
       rewrite body_nondict by discriminate;
       match goal with |- context [process_conversion_handler ?a ?b ?e ?st] =>
         destruct (handler_effect a b e st) as (s' & -> & Hs & _ & _ & _ & He & _)
       end;
       simpl in Hs, He; unfold lookup_file in He; simpl in He;
       fold (lookup_file r s) in He; rewrite Hf in He; simpl in He;
       exists s'; eexists; eexists; eexists; (split; [reflexivity|]);
       (split; [eapply lookup_file_written; [exact Hs|exact Hf]|]);
       rewrite He, <- app_assoc; simpl;
       (split; [reflexivity|]); by repeat split.
  destruct (job_dict env sid r l s) as (s' & -> & Hs & _ & _ & He & _).
  rewrite Hf in Hs, He. simpl in Hs, He.
  exists s'. eexists. eexists. eexists. split; [reflexivity|].
  split; [eapply lookup_file_written; [exact Hs|exact Hf]|].
  rewrite He. split; [reflexivity|]. split; [reflexivity|].
  unfold final_event, job_outcome.
  destruct (file_processed _ _ _ _ _); [destruct (ctime_raises env _)|];
    by repeat split.
Qed.

Lemma job_publishes_two_events_witness :
  exists s' fi' e1 e2,
    process_conversion Scenario.env_fail "s1" Scenario.draft_ref (JObj [])
      (Scenario.processing_state Scenario.env_fail) = (Ok tt, s')
    /\ lookup_file Scenario.draft_ref s' = Some fi'
    /\ events s' = [e1; e2]
    /\ ev_status e1 = processing /\ ev_status e2 = status fi'.
Proof.
  assert (exists fi, lookup_file Scenario.draft_ref
            (Scenario.processing_state Scenario.env_fail) = Some fi) as [fi Hf].
  { eexists. vm_compute. reflexivity. }
  destruct (job_publishes_two_events Scenario.env_fail "s1" Scenario.draft_ref
              (JObj []) _ fi Hf)
    as (s' & fi' & e1 & e2 & Hr & Hf' & Hev & He1 & _ & _ & Hst & _).
  exists s', fi', e1, e2. split; [exact Hr|]. split; [exact Hf'|].
  split; [exact Hev|]. split; [by rewrite He1|exact Hst].
Defined.

(** X20: a failed conversion. When the converter does not succeed (the
    directory, the start of the program, or both runs fail), the job marks
    the record [failed] with the error text [Conversion failed], leaves its
    [pdf_path] and [completed_at] as they were, calls the dispatcher not at
    all, and ends with the [failed] event, which has no [pdf_path]. *)
Theorem job_fails_without_email (env : Env) (sid : string) (r : FileRef)
    (l : list (string * json)) (s : State) (fi : FileRecord) :
  lookup_file r s = Some fi ->
  PDFAgent.converter_succeeds env (config s) (filepath fi) = false ->
  exists s' fi',
    process_conversion env sid r (JObj l) s = (Ok tt, s')
    /\ lookup_file r s' = Some fi'
    /\ status fi' = failed /\ error fi' = Some "Conversion failed"
    /\ pdf_path fi' = pdf_path fi /\ completed_at fi' = completed_at fi
    /\ dispatches s' = dispatches s
    /\ last (events s')
       = Some {| ev_session_id := sid; ev_filename := filename fi;
                 ev_status := failed;
                 ev_message := "Conversion failed. Check logs for details.";
                 ev_pdf_path := None |}.
Proof.
  intros Hf Hok.
  destruct (job_dict env sid r l s) as (s' & -> & Hs & _ & _ & He & Hd & _).
  rewrite Hf in Hs, He, Hd. simpl in Hs, He, Hd.
  unfold file_processed in Hs, He, Hd. rewrite Hok in Hs, He, Hd.
  simpl in Hd. rewrite app_nil_r in Hd.
  exists s', (job_outcome env (config s) false fi). split; [done|].
  split; [by apply (lookup_file_written r _ s)|].
  repeat split; try done. rewrite He. by rewrite last_app.
Qed.

Lemma job_fails_without_email_witness :
  exists s' fi',
    process_conversion Scenario.env_fail "s1" Scenario.draft_ref (JObj [])
      (Scenario.processing_state Scenario.env_fail) = (Ok tt, s')
    /\ lookup_file Scenario.draft_ref s' = Some fi'
    /\ status fi' = failed /\ dispatches s' = [].
Proof.
  assert (exists fi, lookup_file Scenario.draft_ref
            (Scenario.processing_state Scenario.env_fail) = Some fi
            /\ PDFAgent.converter_succeeds Scenario.env_fail
                 (config (Scenario.processing_state Scenario.env_fail))
                 (filepath fi) = false) as (fi & Hf & Hok).
  { eexists. split; vm_compute; reflexivity. }
  destruct (job_fails_without_email Scenario.env_fail "s1" Scenario.draft_ref
              [] _ fi Hf Hok)
    as (s' & fi' & Hr & Hf' & Hst & _ & _ & _ & Hd & _).
  exists s', fi'. split; [exact Hr|]. split; [exact Hf'|]. split; [exact Hst|].
  rewrite Hd. reflexivity.
Defined.

Lemma job_effect_same_upload env c fi o f :
  same_upload f (job_effect env c fi o f).
Proof.
  unfold job_effect, job_outcome, same_upload. destruct o; try done.
  destruct (file_processed _ _ _ _ _); [destruct (ctime_raises env _)|]; done.
Qed.

Lemma write_file_lookup m r g k :
  write_file r g m !! k
  = (if decide (r.1 = k) then set_files (alter g r.2) else fun x => x) <$> m !! k.
Proof.
  unfold write_file. rewrite lookup_alter.
  destruct (decide (r.1 = k)) as [<-|]; [done|]. by destruct (m !! k).
Qed.

(** X21: what a job leaves alone. Whatever its options and its outcome,
    a job changes no record but its own, of which it keeps the file name,
    the original name, the path and the upload time; it changes no
    session's dismissed updates, no other thread, and not the
    configuration. *)
Theorem job_changes_its_record_only (env : Env) (sid : string) (r : FileRef)
    (o : json) (s : State) :
  exists s',
    process_conversion env sid r o s = (Ok tt, s')
    /\ (forall r', r' <> r -> lookup_file r' s' = lookup_file r' s)
    /\ (forall f, lookup_file r s = Some f ->
          exists f', lookup_file r s' = Some f' /\ same_upload f f')
    /\ (forall k, dismissed_updates <$> sessions s' !! k
                  = dismissed_updates <$> sessions s !! k)
    /\ (forall k, length <$> (files <$> sessions s' !! k)
                  = length <$> (files <$> sessions s !! k))
    /\ threads s' = threads s /\ config s' = config s.
Proof.
  destruct (process_conversion_effect env sid r o s) as (s' & Hr & Hs & Ht & Hc).
  exists s'. split; [exact Hr|]. split.
  { intros r' Hr'. unfold lookup_file. by rewrite Hs, file_at_write, decide_False. }
  split.
  { intros f Hf. eexists. split; [eapply lookup_file_written; [exact Hs|exact Hf]|].
    apply job_effect_same_upload. }
  split.
  { intros k. rewrite Hs, write_file_lookup.
    destruct (decide (r.1 = k)); by destruct (sessions s !! k). }
  split; [|done].
  intros k. rewrite Hs, write_file_lookup.
  destruct (decide (r.1 = k)); destruct (sessions s !! k); simpl; try done.
  by rewrite length_alter.
Qed.


(** ** Downloading *)

Lemma join_output_plain fname :
  no_char "/" fname ->
  PathLib.os_path_join "output" fname = "output/" +:+ fname.
Proof.
  intros Hs. unfold PathLib.os_path_join, PathLib.startswith.
  destruct fname as [|a f]; [reflexivity|].
  apply rfind_cons_none in Hs as [_ Ha].
  change (String.prefix "/" (String a f))
    with (if ascii_dec "/" a then String.prefix "" f else false).
  destruct (ascii_dec "/" a) as [<-|]; [done|reflexivity].
Qed.

Lemma inside_output_plain fname :
  no_char "/" fname -> fname <> "" -> fname <> "." -> fname <> ".." ->
  PathLib.inside_dir "output" ("output/" +:+ fname) = true.
Proof.
  intros Hs H0 H1 H2.
  assert (PathLib.tail (PathLib.normpath ("output/" +:+ fname)) = ["output"; fname]
          /\ PathLib.root (PathLib.normpath ("output/" +:+ fname)) = "") as [Ht Hr].
  { unfold PathLib.normpath, PathLib.Path. cbn [PathLib.root PathLib.tail].
    change (PathLib.path_root ("output/" +:+ fname)) with "".
    change (PathLib.split "/" ("output/" +:+ fname))
      with ("output" :: PathLib.split "/" fname).
    rewrite (split_no_slash fname Hs). split; [|reflexivity].
    cbn [List.filter]. change (PathLib.component "output") with true. cbv iota.
    unfold PathLib.component.
    destruct (String.eqb_spec fname ""); [done|].
    destruct (String.eqb_spec fname "."); [done|]. simpl negb. simpl andb. cbv iota.
    change (negb (String.eqb "" "")) with false.
    cbn [PathLib.resolve_parts]. change (String.eqb "output" "..") with false. cbv iota.
    destruct (String.eqb_spec fname ".."); [done|]. reflexivity. }
  unfold PathLib.inside_dir. rewrite Ht, Hr. reflexivity.
Qed.

(** X22: a plain file name. For a name without a slash that is not
    empty, [.] or [..], the endpoint looks at, and serves, the file of that
    name inside the output directory: the file is sent when it exists and
    can be sent, the reply is the 404 error when it does not exist. *)
Theorem download_plain_name (env : Env) (fname : string) (s : State) :
  no_char "/" fname -> fname <> "" -> fname <> "." -> fname <> ".." ->
  let p := "output/" +:+ fname in
  PathLib.inside_dir "output" p = true
  /\ exists s',
       download_file env fname s
       = (Ok (if path_exists env p then
                if is_file env p then RFile p
                else error_response 500 ("cannot send " +:+ p)
              else error_response 404 "File not found"), s')
       /\ sessions s' = sessions s /\ threads s' = threads s
       /\ events s' = events s.
Proof.
  intros Hs H0 H1 H2 p. split; [by apply inside_output_plain|].
  destruct (download_outcomes env fname s) as (resp & s' & Hr & Hss & Hth & Hev & ->).
  rewrite (join_output_plain fname Hs) in Hr. exists s'. by repeat split.
Qed.

Lemma download_plain_name_witness :
  PathLib.inside_dir "output" ("output/" +:+ "draft_IEEE.pdf") = true
  /\ exists s',
       download_file Scenario.env_ok "draft_IEEE.pdf" (init_state default_config)
       = (Ok (error_response 404 "File not found"), s').
Proof.
  destruct (download_plain_name Scenario.env_ok "draft_IEEE.pdf"
              (init_state default_config) eq_refl
              ltac:(discriminate) ltac:(discriminate) ltac:(discriminate))
    as [Hin (s' & Hr & _)].
  split; [exact Hin|]. exists s'. exact Hr.
Defined.

(** ** Dismissing *)

(** X23: what a dismissal records. An accepted dismiss request (both
    identifiers present) is answered with the success document; afterwards
    the session, made if it did not exist, lists the ids it listed before
    and the dismissed id, the earlier ids first and in their order; its
    files and every other session are as they were. Any id is accepted:
    the list of update notifications is not consulted. *)
Theorem dismiss_records_id (env : Env) (sid uid : string) (s : State) :
  sid <> "" -> uid <> "" ->
  let req := {| dm_session_id := Some sid; dm_update_id := Some uid |} in
  let before := default [] (dismissed_updates <$> sessions s !! sid) in
  exists s' x',
    dismiss_update env req s = (Ok (RJson 200 [("success", JBool true)]), s')
    /\ sessions s' !! sid = Some x'
    /\ dismissed_updates x'
       = (if bool_decide (uid ∈ before) then before else before ++ [uid])
    /\ (forall u, u ∈ dismissed_updates x' <-> u ∈ before \/ u = uid)
    /\ files x' = default [] (files <$> sessions s !! sid)
    /\ (forall k, k <> sid -> sessions s' !! k = sessions s !! k)
    /\ threads s' = threads s /\ events s' = events s.
Proof.
  intros Hs Hu. cbv zeta. unfold dismiss_update, get_session. munfold. simpl.
  apply truthy_str_true in Hs as ->. apply truthy_str_true in Hu as ->. simpl.
  destruct (sessions s !! sid) as [x|] eqn:Hx; simpl.
  - destruct (bool_decide (uid ∈ dismissed_updates x)) eqn:Hin; simpl.
    + apply bool_decide_eq_true in Hin.
      eexists _, _. split; [reflexivity|]. split; [exact Hx|].
      repeat split; try done.
      * by left.
      * intros [?| ->]; done.
    + eexists _, _. split; [reflexivity|]. simpl. rewrite lookup_alter_eq, Hx.
      simpl. split; [reflexivity|]. simpl. repeat split; try done.
      * intros H. apply elem_of_app in H as [H|H]; [by left|].
        right. by apply list_elem_of_singleton in H.
      * intros [H| ->]; apply elem_of_app; [by left|].
        right. by apply list_elem_of_singleton.
      * intros k Hk. by rewrite lookup_alter_ne.
  - eexists _, _. split; [reflexivity|]. simpl.
    rewrite lookup_alter_eq, lookup_insert_eq. simpl. split; [reflexivity|].
    simpl. repeat split; try done.
    + intros H. right. by apply list_elem_of_singleton in H.
    + intros [H| ->]; [by apply elem_of_nil in H|]. by apply list_elem_of_singleton.
    + intros k Hk. rewrite lookup_alter_ne, lookup_insert_ne; done.
Qed.

Lemma dismiss_records_id_witness :
  exists s' x',
    dismiss_update Scenario.env_ok
      {| dm_session_id := Some "s1"; dm_update_id := Some "no-such-update" |}
      (init_state default_config)
    = (Ok (RJson 200 [("success", JBool true)]), s')
    /\ sessions s' !! "s1" = Some x'
    /\ dismissed_updates x' = ["no-such-update"].
Proof.
  destruct (dismiss_records_id Scenario.env_ok "s1" "no-such-update"
              (init_state default_config) ltac:(discriminate) ltac:(discriminate))
    as (s' & x' & Hr & Hx & Hd & _).
  exists s', x'. split; [exact Hr|]. split; [exact Hx|]. exact Hd.
Defined.

(** X24: a dismiss request without its identifiers. When the session id
    or the update id is missing or empty, the reply is the 400 error and
    the state is untouched. *)
Theorem dismiss_requires_identifiers (env : Env) (req : DismissRequest) (s : State) :
  default "" (dm_session_id req) = "" \/ default "" (dm_update_id req) = "" ->
  dismiss_update env req s
  = (Ok (error_response 400 "Session ID and update ID required"), s).
Proof.
  intros H. unfold dismiss_update. munfold.
  destruct H as [-> | ->]; simpl; [done|].
  by destruct (truthy_str (default "" (dm_session_id req))).
Qed.

Lemma dismiss_requires_identifiers_witness :
  dismiss_update Scenario.env_ok
    {| dm_session_id := None; dm_update_id := Some "v1.1.0" |}
    (init_state default_config)
  = (Ok (error_response 400 "Session ID and update ID required"),
     init_state default_config).
Proof.
  apply (dismiss_requires_identifiers Scenario.env_ok
           {| dm_session_id := None; dm_update_id := Some "v1.1.0" |}).
  left. reflexivity.
Defined.


(** ** What holds along every run *)

Lemma final_invariant (P : State -> Prop) :
  (forall env op s, P s -> P (step env op s)) ->
  forall l s, P s -> P (final s l).
Proof.
  intros Hstep. induction l as [|[env op] l IH]; intros s Hs; [done|].
  rewrite final_cons. apply IH. by apply Hstep.
Qed.

(** Where the record at [r] after a step comes from. *)
Lemma step_record env op s r f' :
  lookup_file r (step env op s) = Some f' ->
  lookup_file r s = Some f'
  \/ (lookup_file r s = None /\ exists fname, f' = uploaded_record env fname)
  \/ (exists f, lookup_file r s = Some f /\ f' = set_status processing f)
  \/ (exists f fi o, lookup_file r s = Some f
                     /\ f' = job_effect env (config s) fi o f).
Proof.
  destruct op as [req|req|k|fname|sid|req].
  - simpl. unfold upload_file, get_session. munfold.
    destruct (up_too_large req); simpl; [by left|].
    destruct (up_file req) as [fname|]; simpl; [|by left].
    destruct (String.eqb fname ""); simpl; [by left|].
    destruct (allowed_file fname); simpl; [|by left].
    destruct (save_ok env); simpl; [|by left].
    set (sid := default (uuid4 env) (up_session_id req)).
    destruct (sessions s !! sid) as [x|] eqn:Hx; simpl; unfold lookup_file; simpl.
    + rewrite (file_at_append _ _ x) by done.
      destruct (decide (r = (sid, length (files x)))) as [->|Hne]; [|by left].
      intros [= <-]. right. left. split; [|by eexists].
      unfold file_at. simpl. rewrite Hx. simpl. by apply lookup_ge_None_2.
    + erewrite file_at_append by apply lookup_insert_eq. simpl.
      destruct (decide (r = (sid, 0))) as [->|Hne].
      * intros [= <-]. right. left. split; [|by eexists].
        unfold file_at. simpl. by rewrite Hx.
      * rewrite file_at_insert_fresh by done. by left.
  - pose proof (convert_effect env req s) as He. simpl.
    destruct (label env (OpConvert req) s) as [|r0|r0|k] eqn:Hl; simpl in He.
    + destruct He as [_ He]. rewrite He. by left.
    + exfalso. unfold label in Hl. by destruct (target req s).
    + destruct He as (_ & _ & He). rewrite He.
      destruct (decide (r = r0)) as [->|]; [|by left].
      destruct (lookup_file r0 s) as [f|]; [|done]. simpl. intros [= <-].
      right. right. left. by exists f.
    + exfalso. unfold label in Hl. by destruct (target req s).
  - simpl. destruct (threads s !! k) as [j|]; [|by left].
    match goal with |- context [process_conversion env ?a ?b ?c ?st] =>
      destruct (process_conversion_effect env a b c st) as (s' & Hr & Hs & _)
    end.
    rewrite Hr. simpl. unfold lookup_file. rewrite Hs, file_at_write. simpl.
    destruct (decide (r = job_file j)) as [->|]; [|by left].
    fold (lookup_file (job_file j) s).
    destruct (lookup_file (job_file j) s) as [f|] eqn:Hf; [|done]. simpl.
    intros [= <-]. right. right. right. eexists f, _, _. split; [done|reflexivity].
  - destruct (quiet_effect env (OpDownload fname) s I) as [_ He]. rewrite He. by left.
  - destruct (quiet_effect env (OpSessionInfo sid) s I) as [_ He]. rewrite He. by left.
  - destruct (quiet_effect env (OpDismiss req) s I) as [_ He]. rewrite He. by left.
Qed.

Lemma record_ok_job env c fi o f : record_ok f -> record_ok (job_effect env c fi o f).
Proof.
  intros (Hp & _). unfold job_effect, job_outcome, record_ok.
  destruct o; simpl; try (split; [done|]; repeat split; try done; by eexists).
  destruct (file_processed _ _ _ _ _); [destruct (ctime_raises env _)|]; simpl;
    (split; [done|]); repeat split; try done; by eexists.
Qed.

(** X25: the shape of a record, by its status. In every state the
    server reaches, each file record has its path under the upload folder,
    joined from its stored name; a record in [uploaded] has no [pdf_path],
    no [completed_at] and no [error]; a [completed] record has
    [completed_at] and a [pdf_path] entry (which may be [None]); a [failed]
    record has an [error]. *)
Theorem records_well_formed (c : Config) (l : list (Env * Op))
    (r : FileRef) (f : FileRecord) :
  lookup_file r (final (init_state c) l) = Some f -> record_ok f.
Proof.
  revert r f.
  apply (final_invariant (fun s => forall r f, lookup_file r s = Some f -> record_ok f)).
  - intros env op s Hs r f' Hf'.
    destruct (step_record env op s r f' Hf')
      as [Hf|[(_ & fname & ->)|[(f & Hf & ->)|(f & fi & o & Hf & ->)]]].
    + by apply (Hs r).
    + unfold record_ok, uploaded_record. simpl. by repeat split.
    + destruct (Hs r f Hf) as (Hp & _). unfold record_ok. simpl. by repeat split.
    + apply record_ok_job. by apply (Hs r).
  - intros r f. by rewrite lookup_file_init.
Qed.

Lemma records_well_formed_witness :
  exists f,
    lookup_file Scenario.draft_ref
      (final (init_state default_config) (Scenario.run_once Scenario.env_fail))
    = Some f
    /\ record_ok f.
Proof.
  assert (exists f, lookup_file Scenario.draft_ref
            (final (init_state default_config)
               (Scenario.run_once Scenario.env_fail)) = Some f) as [f Hf].
  { eexists. vm_compute. reflexivity. }
  exists f. split; [exact Hf|].
  exact (records_well_formed default_config (Scenario.run_once Scenario.env_fail)
           Scenario.draft_ref f Hf).
Defined.

Lemma same_upload_refl f : same_upload f f.
Proof. by repeat split. Qed.

Lemma same_upload_trans f1 f2 f3 :
  same_upload f1 f2 -> same_upload f2 f3 -> same_upload f1 f3.
Proof. unfold same_upload. intros (?&?&?&?) (?&?&?&?). repeat split; congruence. Qed.

Lemma step_keeps_record env op s r f :
  lookup_file r s = Some f ->
  exists f', lookup_file r (step env op s) = Some f' /\ same_upload f f'.
Proof.
  intros Hf. pose proof (step_effect env op s) as He.
  assert (is_Some (lookup_file r (step env op s))) as [f' Hf'].
  { destruct (label env op s) as [|r0|r0|k]; simpl in He.
    - destruct He as [_ He]. rewrite He, Hf. by eexists.
    - destruct He as (_ & Hn & _ & He). rewrite He, Hf by congruence. by eexists.
    - destruct He as (_ & _ & He). rewrite He, Hf. destruct (decide _); by eexists.
    - destruct He as (j & G & _ & _ & _ & He). rewrite He, Hf.
      destruct (decide _); by eexists. }
  exists f'. split; [done|].
  destruct (step_record env op s r f' Hf')
    as [Hf0|[(Hn & _)|[(f0 & Hf0 & ->)|(f0 & fi & o & Hf0 & ->)]]].
  - assert (f' = f) as -> by congruence. apply same_upload_refl.
  - congruence.
  - assert (f0 = f) as -> by congruence. by repeat split.
  - assert (f0 = f) as -> by congruence.
    apply job_effect_same_upload.
Qed.

(** X26: records stay. Once a record exists it exists in every later
    state, at the same place in its session, with the same stored name,
    original name, path and upload time: no operation of the server removes
    a record or renames its file. *)
Theorem records_persist (l : list (Env * Op)) (s : State)
    (r : FileRef) (f : FileRecord) :
  lookup_file r s = Some f ->
  exists f', lookup_file r (final s l) = Some f' /\ same_upload f f'.
Proof.
  revert s f. induction l as [|[env op] l IH]; intros s f Hf.
  - exists f. split; [done|apply same_upload_refl].
  - rewrite final_cons.
    destruct (step_keeps_record env op s r f Hf) as (f1 & Hf1 & H1).
    destruct (IH _ f1 Hf1) as (f' & Hf' & H').
    exists f'. split; [done|]. by eapply same_upload_trans.
Qed.

Lemma records_persist_witness :
  exists f f',
    lookup_file Scenario.draft_ref
      (final (init_state default_config)
         [(Scenario.env_ok, Scenario.upload_draft)]) = Some f
    /\ lookup_file Scenario.draft_ref
         (final (final (init_state default_config)
                   [(Scenario.env_ok, Scenario.upload_draft)])
            [(Scenario.env_ok, Scenario.convert_draft);
             (Scenario.env_fail, OpRunThread 0)]) = Some f'
    /\ same_upload f f'.
Proof.
  assert (exists f, lookup_file Scenario.draft_ref
            (final (init_state default_config)
               [(Scenario.env_ok, Scenario.upload_draft)]) = Some f) as [f Hf].
  { eexists. vm_compute. reflexivity. }
  destruct (records_persist [(Scenario.env_ok, Scenario.convert_draft);
                             (Scenario.env_fail, OpRunThread 0)] _
              Scenario.draft_ref f Hf) as (f' & Hf' & Hsame).
  exists f, f'. split; [exact Hf|]. split; [exact Hf'|exact Hsame].
Defined.


Lemma sessions_ok_alter (g : Session -> Session) k (m : gmap string Session) :
  (forall x, id (g x) = id x /\ sess_status (g x) = sess_status x) ->
  (forall k' x, m !! k' = Some x -> session_ok k' x) ->
  forall k' x, alter g k m !! k' = Some x -> session_ok k' x.
Proof.
  intros Hg Hm k' x'. rewrite lookup_alter.
  destruct (decide (k = k')) as [->|]; [|apply Hm].
  destruct (m !! k') as [x|] eqn:Hx; simpl; [|done].
  intros [= <-]. unfold session_ok. destruct (Hg x) as [-> ->]. by apply Hm.
Qed.

Lemma sessions_ok_insert k x0 (m : gmap string Session) :
  session_ok k x0 ->
  (forall k' x, m !! k' = Some x -> session_ok k' x) ->
  forall k' x, <[k:=x0]> m !! k' = Some x -> session_ok k' x.
Proof.
  intros H0 Hm k' x'. rewrite lookup_insert.
  destruct (decide (k = k')) as [->|]; [|apply Hm]. by intros [= <-].
Qed.

Lemma sessions_ok_step env op s :
  (forall k x, sessions s !! k = Some x -> session_ok k x) ->
  forall k x, sessions (step env op s) !! k = Some x -> session_ok k x.
Proof.
  intros Hm. destruct op as [req|req|n|fname|sid|req]; simpl.
  - unfold upload_file, get_session. munfold.
    destruct (up_too_large req); simpl; [done|].
    destruct (up_file req) as [fname|]; simpl; [|done].
    destruct (String.eqb fname ""); simpl; [done|].
    destruct (allowed_file fname); simpl; [|done].
    destruct (save_ok env); simpl; [|done].
    destruct (sessions s !! _) as [x|] eqn:Hx; simpl.
    + by apply sessions_ok_alter.
    + apply sessions_ok_alter; [done|]. by apply sessions_ok_insert.
  - unfold convert_file, get_session, update_file. munfold.
    destruct (truthy_str _); simpl; [|done].
    destruct (truthy_str _); simpl; [|done].
    destruct (sessions s !! _) as [x|] eqn:Hx; simpl.
    + destruct (find_file _ _); simpl; [|done]. by apply sessions_ok_alter.
    + by apply sessions_ok_insert.
  - destruct (threads s !! n) as [j|]; [|done].
    match goal with |- context [process_conversion env ?a ?b ?c ?st] =>
      destruct (process_conversion_effect env a b c st) as (s' & Hr & Hs' & _)
    end.
    rewrite Hr. simpl. rewrite Hs'. by apply sessions_ok_alter.
  - destruct (download_outcomes env fname s) as (resp & s' & Hr & Hs' & _).
    rewrite Hr. simpl. by rewrite Hs'.
  - unfold get_session_info, get_session. munfold.
    destruct (sessions s !! sid) eqn:Hx; simpl; [done|].
    by apply sessions_ok_insert.
  - unfold dismiss_update, get_session. munfold.
    destruct (truthy_str _); simpl; [|done].
    destruct (truthy_str _); simpl; [|done].
    destruct (sessions s !! _) as [x|] eqn:Hx; simpl.
    + destruct (bool_decide _); simpl; [done|]. by apply sessions_ok_alter.
    + apply sessions_ok_alter; [done|]. by apply sessions_ok_insert.
Qed.

(** X27: sessions and their keys. In every state the server reaches, a
    session stored under a key has that key as its [id] and the status
    [active]: no operation stores a session under another id or changes its
    status. *)
Theorem sessions_keyed_by_id (c : Config) (l : list (Env * Op))
    (k : string) (x : Session) :
  sessions (final (init_state c) l) !! k = Some x -> session_ok k x.
Proof.
  revert k x.
  apply (final_invariant (fun s => forall k x, sessions s !! k = Some x -> session_ok k x)).
  - intros env op s. apply sessions_ok_step.
  - intros k x. simpl. by rewrite lookup_empty.
Qed.

Lemma sessions_keyed_by_id_witness :
  exists x,
    sessions (final (init_state default_config)
                (Scenario.run_once Scenario.env_ok)) !! "s1" = Some x
    /\ session_ok "s1" x.
Proof.
  assert (exists x, sessions (final (init_state default_config)
            (Scenario.run_once Scenario.env_ok)) !! "s1" = Some x) as [x Hx].
  { eexists. vm_compute. reflexivity. }
  exists x. split; [exact Hx|].
  exact (sessions_keyed_by_id default_config (Scenario.run_once Scenario.env_ok)
           "s1" x Hx).
Defined.

Lemma step_config env op s : config (step env op s) = config s.
Proof.
  destruct op as [req|req|n|fname|sid|req]; simpl.
  - unfold upload_file, get_session. munfold.
    destruct (up_too_large req); simpl; [done|].
    destruct (up_file req) as [fname|]; simpl; [|done].
    destruct (String.eqb fname ""); simpl; [done|].
    destruct (allowed_file fname); simpl; [|done].
    destruct (save_ok env); simpl; [|done].
    by destruct (sessions s !! _).
  - unfold convert_file, get_session, update_file. munfold.
    destruct (truthy_str _); simpl; [|done].
    destruct (truthy_str _); simpl; [|done].
    destruct (sessions s !! _) as [x|]; simpl; [|done].
    by destruct (find_file _ _).
  - destruct (threads s !! n) as [j|]; [|done].
    match goal with |- context [process_conversion env ?a ?b ?c ?st] =>
      destruct (process_conversion_effect env a b c st) as (s' & Hr & _ & _ & Hc)
    end.
    rewrite Hr. simpl. by rewrite Hc.
  - unfold download_file. munfold. simpl.
    destruct (path_exists env _); simpl; [|done]. by destruct (is_file env _).
  - unfold get_session_info, get_session. munfold. by destruct (sessions s !! sid).
  - unfold dismiss_update, get_session. munfold.
    destruct (truthy_str _); simpl; [|done].
    destruct (truthy_str _); simpl; [|done].
    destruct (sessions s !! _) as [x|]; simpl; [|done].
    by destruct (bool_decide _).
Qed.

Lemma final_config (l : list (Env * Op)) : forall s, config (final s l) = config s.
Proof.
  induction l as [|[env op] l IH]; intros s; [done|].
  by rewrite final_cons, IH, step_config.
Qed.

(** *** Overlapping overrides *)

Lemma insert_middle {A} (l1 l2 : list A) x y :
  <[length l1 := y]> (l1 ++ x :: l2) = l1 ++ y :: l2.
Proof.
  rewrite <- (Nat.add_0_r (length l1)). by rewrite insert_app_r.
Qed.

(** One statement of the thread that stands behind [pre]. *)
Lemma override_step (pre post : list Override.Thread) rcpt p t sent0 :
  Override.step (length pre)
    {| Override.to_email_now := t; Override.sent := sent0;
       Override.jobs := pre ++ {| Override.recipient := rcpt; Override.pc := p |} :: post |}
  = let r := Override.advance rcpt p t in
    {| Override.to_email_now := r.1.2;
       Override.sent := sent0 ++ List.map (fun m => (length pre, m)) r.2;
       Override.jobs := pre ++ {| Override.recipient := rcpt; Override.pc := r.1.1 |} :: post |}.
Proof.
  unfold Override.step. cbn [Override.jobs Override.to_email_now Override.sent].
  rewrite list_lookup_middle by done.
  cbn [Override.recipient Override.pc]. cbv zeta. by rewrite insert_middle.
Qed.

(** One thread from its first statement to its last, the others standing
    still: its message goes to its own recipient and the configured one is
    back in place. *)
Lemma override_one_job a (pre post : list Override.Thread) rcpt sent0 :
  Override.run [length pre; length pre; length pre; length pre]
    {| Override.to_email_now := Some a; Override.sent := sent0;
       Override.jobs := pre ++ Override.waiting rcpt :: post |}
  = {| Override.to_email_now := Some a;
       Override.sent := sent0 ++ [(length pre, Some rcpt)];
       Override.jobs := pre ++ Override.finished rcpt :: post |}.
Proof.
  unfold Override.run, Override.waiting, Override.finished. cbn [fold_left].
  rewrite !override_step. cbv zeta. simpl.
  by rewrite !app_nil_r.
Qed.

Lemma override_in_turn a rcpts : forall pre sent0,
  Override.run (Override.in_turn (length pre) (length rcpts))
    {| Override.to_email_now := Some a; Override.sent := sent0;
       Override.jobs := pre ++ List.map Override.waiting rcpts |}
  = {| Override.to_email_now := Some a;
       Override.sent := sent0 ++ Override.own (length pre) rcpts;
       Override.jobs := pre ++ List.map Override.finished rcpts |}.
Proof.
  induction rcpts as [|r rs IH]; intros pre sent0.
  - unfold Override.in_turn, Override.own, Override.run. simpl.
    by rewrite !app_nil_r.
  - change (Override.in_turn (length pre) (length (r :: rs)))
      with ([length pre; length pre; length pre; length pre]
            ++ Override.in_turn (S (length pre)) (length rs)).
    unfold Override.run. rewrite fold_left_app.
    fold (Override.run [length pre; length pre; length pre; length pre]).
    fold (Override.run (Override.in_turn (S (length pre)) (length rs))).
    cbn [List.map]. rewrite override_one_job.
    specialize (IH (pre ++ [Override.finished r]) (sent0 ++ [(length pre, Some r)])).
    rewrite length_app, Nat.add_1_r, <- !app_assoc in IH. simpl in IH.
    unfold Override.run in IH. by rewrite IH.
Qed.

(** X28: the recipient override and overlapping jobs. As long as the
    server runs one job at a time, from its start to its end, no sequence
    of requests and jobs changes the configuration; and any number of jobs
    that override the recipient, run one after the other statement by
    statement, each send to their own recipient and leave the configured
    one in place. But the four statements of the override are not atomic:
    when two jobs overlap (each saves and installs before the other sends),
    the first job's message goes to the second job's recipient, the second
    job's message to the configured one, and the configuration is left with
    the first job's recipient for good. *)
Theorem recipient_override_not_atomic (l : list (Env * Op)) (s : State)
    (a r1 r2 : json) (rcpts : list json) :
  config (final s l) = config s
  /\ (let s' := Override.run (Override.in_turn 0 (length rcpts))
                  (Override.start (Some a) rcpts) in
      Override.to_email_now s' = Some a
      /\ Override.sent s' = Override.own 0 rcpts
      /\ Override.jobs s' = List.map Override.finished rcpts)
  /\ (let s' := Override.run [0; 0; 1; 1; 0; 0; 1; 1]
                  (Override.start (Some a) [r1; r2]) in
      Override.to_email_now s' = Some r1
      /\ Override.sent s' = [(0, Some r2); (1, Some a)]
      /\ Override.jobs s' = [Override.finished r1; Override.finished r2]).
Proof.
  split; [apply final_config|]. split.
  - cbv zeta. unfold Override.start.
    pose proof (override_in_turn a rcpts [] []) as H. simpl in H.
    by rewrite H.
  - cbv zeta. by repeat split.
Qed.

Lemma job_two_events env sid r o s :
  exists e1 e2,
    events (process_conversion env sid r o s).2 = events s ++ [e1; e2].
Proof.
  destruct o as [| | | | |l].
  1-5: unfold process_conversion, try_except;
       rewrite body_nondict by discriminate;
       match goal with |- context [process_conversion_handler ?a ?b ?e ?st] =>
         destruct (handler_effect a b e st) as (s' & -> & _ & _ & _ & _ & He & _)
       end;
       simpl in *; rewrite He, <- app_assoc; by eexists _, _.
  destruct (job_dict env sid r l s) as (s' & -> & _ & _ & _ & He & _).
  simpl. rewrite He. by eexists _, _.
Qed.

Lemma step_events env op s :
  exists evs,
    events (step env op s) = events s ++ evs
    /\ length evs = match label env op s with LJob _ => 2 | _ => 0 end.
Proof.
  destruct op as [req|req|n|fname|sid|req]; simpl.
  - exists []. rewrite app_nil_r. split; [|by destruct (upload_accepts env req)].
    unfold upload_file, get_session. munfold.
    destruct (up_too_large req); simpl; [done|].
    destruct (up_file req) as [fname|]; simpl; [|done].
    destruct (String.eqb fname ""); simpl; [done|].
    destruct (allowed_file fname); simpl; [|done].
    destruct (save_ok env); simpl; [|done].
    by destruct (sessions s !! _).
  - exists []. rewrite app_nil_r. split; [|by destruct (target req s)].
    unfold convert_file, get_session, update_file. munfold.
    destruct (truthy_str _); simpl; [|done].
    destruct (truthy_str _); simpl; [|done].
    destruct (sessions s !! _) as [x|]; simpl; [|done].
    by destruct (find_file _ _).
  - destruct (threads s !! n) as [j|].
    + destruct (job_two_events env (job_session_id j) (job_file j) (job_options j)
                  (set_threads (remove_nth n) s)) as (e1 & e2 & He).
      exists [e1; e2]. by split.
    + exists []. by rewrite app_nil_r.
  - exists []. rewrite app_nil_r. split; [|done].
    destruct (download_outcomes env fname s) as (resp & s' & Hr & _ & _ & He & _).
    by rewrite Hr.
  - exists []. rewrite app_nil_r. split; [|done].
    unfold get_session_info, get_session. munfold. by destruct (sessions s !! sid).
  - exists []. rewrite app_nil_r. split; [|done].
    unfold dismiss_update, get_session. munfold.
    destruct (truthy_str _); simpl; [|done].
    destruct (truthy_str _); simpl; [|done].
    destruct (sessions s !! _) as [x|]; simpl; [|done].
    by destruct (bool_decide _).
Qed.

Lemma length_remove_nth {A} k (l : list A) x :
  l !! k = Some x -> S (length (remove_nth k l)) = length l.
Proof.
  intros Hk. rewrite <- (take_drop_middle l k x Hk) at 2.
  unfold remove_nth. rewrite !length_app. simpl. lia.
Qed.

Lemma step_threads env op s :
  length (threads (step env op s))
  + (match label env op s with LJob _ => 1 | _ => 0 end)
  = length (threads s)
    + (match label env op s with LConvert _ => 1 | _ => 0 end).
Proof.
  pose proof (step_effect env op s) as He.
  destruct (label env op s) as [|r0|r0|k]; simpl in He.
  - destruct He as [-> _]. lia.
  - destruct He as (-> & _). lia.
  - destruct He as ((j & -> & _) & _). rewrite length_app. simpl. lia.
  - destruct He as (j & G & Hk & -> & _).
    pose proof (length_remove_nth k (threads s) j Hk). lia.
Qed.

(** X29: no job is lost and none runs twice. Along every run, from any
    state, the threads still waiting and the jobs that have run add up to
    the threads that waited at the start and the convert requests accepted
    since; and the events published since are two for each job that has
    run, appended to the events there were: requests publish none. *)
Theorem jobs_and_events_accounted (l : list (Env * Op)) (s : State) :
  length (threads (final s l)) + jobs_run s l
  = length (threads s) + accepted s l
  /\ exists evs, events (final s l) = events s ++ evs
                 /\ length evs = 2 * jobs_run s l.
Proof.
  revert s. induction l as [|[env op] l IH]; intros s.
  - simpl. split; [lia|]. exists []. by rewrite app_nil_r.
  - rewrite final_cons. cbn [jobs_run accepted].
    destruct (IH (step env op s)) as (Ht & evs & He & Hl).
    pose proof (step_threads env op s) as Hst.
    destruct (step_events env op s) as (evs0 & He0 & Hl0).
    split.
    + destruct (label env op s); lia.
    + exists (evs0 ++ evs). rewrite He, He0, <- app_assoc. split; [done|].
      rewrite length_app, Hl, Hl0. destruct (label env op s); lia.
Qed.
